(** * Plotting helpers and the k-nearest-neighbours example script

    A shallow embedding of [plot_utility.py] and [sklearn_knn.py].

    The repository's own code only marshals arrays into calls of numpy,
    matplotlib and scikit-learn.  The embedding therefore represents every
    function of the repository as a program over _library calls_: a tree
    whose nodes are the calls the Python code makes, in evaluation order,
    and whose edges are the values the library hands back.  A program is
    run against a _handler_ that decides what each call returns (or
    raises); the run yields the result, the final library state and the log
    of the calls that were made.

    numpy is given a reference semantics ([Np]) on lists; float64 values are
    represented by exact rationals.  matplotlib, the predictor objects and
    scikit-learn stay abstract: statements quantify over their behaviour. *)

From Stdlib Require Import String DecimalString.
From Stdlib Require DecimalPos DecimalZ.
From Stdlib Require Import List Sorted ZArith QArith Qminmax Qround Bool Lia Lqa.
Import ListNotations.

Set Implicit Arguments.

(** ** Python values used by the two files *)

(** Exceptions the libraries raise. *)
Inductive exn : Type :=
| IndexError
| ValueError
| TypeError
| AttributeError
| LibraryError (msg : string).

(** Outcome of a call: a value, or a raised exception. *)
Inductive result (A : Type) : Type :=
| Ok (a : A)
| Raise (e : exn).

Arguments Ok {A} a.
Arguments Raise {A} e.

Definition rbind {A B} (r : result A) (f : A -> result B) : result B :=
  match r with
  | Ok a => f a
  | Raise e => Raise e
  end.

Definition labels := list Z.          (* 1-D integer array: class labels *)
Definition farray := list Q.          (* 1-D float array *)
Definition fmat := list (list Q).     (* 2-D float array, as its rows *)
Definition mask := list bool.         (* 1-D boolean array *)
Definition label_grid := list (list Z).

(** Object handles: a fitted estimator, a scaler; and a bound method. *)
Inductive obj : Type := Obj (id : nat).
Inductive meth : Type := BoundMethod (self : obj) (name : string).

Inductive colormap : Type := ListedColormapObj (colors : list string).

(** ** Reference semantics of the numpy operations the code uses *)

Module Np.

(** [np.unique] on integers: the distinct values in ascending order. *)
Fixpoint insert (z : Z) (l : labels) : labels :=
  match l with
  | [] => [z]
  | h :: t =>
      if (z <? h)%Z then z :: l
      else if (z =? h)%Z then l
      else h :: insert z t
  end.

Definition unique (y : labels) : labels := fold_right insert [] y.

(** [y == label] for an array and a scalar. *)
Definition eq_scalar (y : labels) (l : Z) : mask :=
  map (fun v => (v =? l)%Z) y.

(** [X[:, c]]: column [c] of every row. *)
Fixpoint column (X : fmat) (c : nat) : result farray :=
  match X with
  | [] => Ok []
  | row :: rest =>
      match nth_error row c with
      | Some v => rbind (column rest c) (fun vs => Ok (v :: vs))
      | None => Raise IndexError
      end
  end.

(** Selection by a boolean array of the same length. *)
Fixpoint select {A} (m : mask) (a : list A) : list A :=
  match m, a with
  | b :: m', v :: a' => if b then v :: select m' a' else select m' a'
  | _, _ => []
  end.

(** [X[m, c]] with a boolean array [m] over the rows. *)
Definition getitem_mask (X : fmat) (m : mask) (c : nat) : result farray :=
  if Nat.eqb (length m) (length X)
  then rbind (column X c) (fun col => Ok (select m col))
  else Raise IndexError.

(** One integer index into an axis of length [length a]; negative indices
    count from the end, anything else out of range raises. *)
Definition index {A} (a : list A) (i : Z) : result A :=
  let n := Z.of_nat (length a) in
  let j := if (i <? 0)%Z then (i + n)%Z else i in
  if ((0 <=? j) && (j <? n))%Z
  then match nth_error a (Z.to_nat j) with
       | Some v => Ok v
       | None => Raise IndexError
       end
  else Raise IndexError.

(** [a[idx]] with a list of integer indices. *)
Fixpoint take {A} (a : list A) (idx : list Z) : result (list A) :=
  match idx with
  | [] => Ok []
  | i :: rest =>
      rbind (index a i) (fun v =>
      rbind (take a rest) (fun vs => Ok (v :: vs)))
  end.

(** [X[idx, c]] with a list of integer row indices. *)
Definition getitem_fancy (X : fmat) (idx : list Z) (c : nat) : result farray :=
  rbind (column X c) (fun col => take col idx).

(** [a.min()], [a.max()]: a zero-size array has no minimum. *)
Definition amin (a : farray) : result Q :=
  match a with
  | [] => Raise ValueError
  | v :: rest => Ok (fold_left Qmin rest v)
  end.

Definition amax (a : farray) : result Q :=
  match a with
  | [] => Raise ValueError
  | v :: rest => Ok (fold_left Qmax rest v)
  end.

(** [np.arange(start, stop, step)]: [ceil((stop - start) / step)] values
    [start + i * step]; no value when that count is not positive. *)
Definition arange_len (start stop step : Q) : nat :=
  Z.to_nat (Qceiling ((stop - start) / step)).

Definition arange (start stop step : Q) : result farray :=
  if Qeq_bool step 0 then Raise ValueError
  else Ok (map (fun i => start + inject_Z (Z.of_nat i) * step)
               (seq 0 (arange_len start stop step))).

(** [np.meshgrid(a, b)]: two arrays of shape [(len b, len a)]. *)
Definition meshgrid (a b : farray) : fmat * fmat :=
  (map (fun _ => a) b, map (fun v => map (fun _ => v) a) b).

Definition ravel {A} (g : list (list A)) : list A := concat g.

(** [np.array([r1, ..., rk])] of 1-D arrays: the rows must agree in
    length. *)
Definition array (rows : list farray) : result fmat :=
  match rows with
  | [] => Ok []
  | r :: rest =>
      if forallb (fun r' => Nat.eqb (length r') (length r)) rest
      then Ok rows else Raise ValueError
  end.

(** [m.T] of a 2-D array: row [j] of the result holds entry [j] of every
    row of [m]. *)
Fixpoint transpose (m : fmat) : fmat :=
  match m with
  | [] => []
  | r :: rest =>
      match rest with
      | [] => map (fun v => [v]) r
      | _ :: _ => map (fun p => fst p :: snd p) (combine r (transpose rest))
      end
  end.

(** [g.shape] of a 2-D array. *)
Definition shape {A} (g : list (list A)) : nat * nat :=
  (length g, length (hd [] g)).

(** [z.reshape((n, m))]: the size must be [n * m]. *)
Fixpoint chunks {A} (n m : nat) (z : list A) : list (list A) :=
  match n with
  | O => []
  | S n' => firstn m z :: chunks n' m (skipn m z)
  end.

Definition reshape {A} (z : list A) (sh : nat * nat) : result (list (list A)) :=
  if Nat.eqb (length z) (fst sh * snd sh)
  then Ok (chunks (fst sh) (snd sh) z) else Raise ValueError.

(** [x[:, np.newaxis]]: a column vector. *)
Definition newaxis (x : farray) : fmat := map (fun v => [v]) x.

(** Elementwise binary operation on 1-D arrays with numpy's broadcasting:
    equal lengths, or one operand of length one. *)
Definition broadcast {A B C} (f : A -> B -> C) (a : list A) (b : list B)
  : result (list C) :=
  if Nat.eqb (length a) (length b)
  then Ok (map (fun p => f (fst p) (snd p)) (combine a b))
  else match a, b with
       | [u], _ => Ok (map (fun v => f u v) b)
       | _, [v] => Ok (map (fun u => f u v) a)
       | _, _ => Raise ValueError
       end.

(** [a - b] and [a != b]. *)
Definition sub (a b : farray) : result farray := broadcast Qminus a b.

Definition ne (a b : labels) : result mask :=
  broadcast (fun u v => negb (u =? v)%Z) a b.

(** [np.sum] of a boolean array: the number of [True] entries. *)
Definition sum (m : mask) : Z := Z.of_nat (count_occ bool_dec m true).

(** [np.vstack((A, B))]: the column counts must agree. *)
Definition vstack (A B : fmat) : result fmat :=
  match A, B with
  | ra :: _, rb :: _ =>
      if Nat.eqb (length ra) (length rb) then Ok (A ++ B) else Raise ValueError
  | _, _ => Ok (A ++ B)
  end.

(** [np.hstack((a, b))] of 1-D arrays. *)
Definition hstack (a b : labels) : labels := a ++ b.

End Np.

(** ** Library calls *)

(** Keyword arguments of [plt.scatter]; [None] for a keyword the call site
    leaves out. *)
Inductive legend_label : Type :=
| ClassLabel (l : Z)
| TextLabel (s : string).

Record scatter_kw : Type := {
  kw_alpha : option Q;
  kw_c : string;
  kw_marker : option string;
  kw_edgecolor : string;
  kw_linewidth : option Z;
  kw_s : option Z;
  kw_label : legend_label
}.

(** [loc]: a string or an int. *)
Inductive legend_loc : Type :=
| LocName (s : string)
| LocCode (z : Z).

(** numpy functions, methods and array operators. *)
Inductive np_call : Type :=
| np_unique (y : labels)
| np_eq (y : labels) (l : Z)
| np_getitem_mask (X : fmat) (m : mask) (c : nat)
| np_getitem_fancy (X : fmat) (idx : list Z) (c : nat)
| np_getitem_col (X : fmat) (c : nat)
| np_getitem_fancy1 (a : farray) (idx : list Z)
| np_newaxis (x : farray)
| np_min (a : farray)
| np_max (a : farray)
| np_min2 (g : fmat)
| np_max2 (g : fmat)
| np_arange (start stop step : Q)
| np_meshgrid (a b : farray)
| np_ravel (g : fmat)
| np_array (rows : list farray)
| np_T (m : fmat)
| np_shape (g : fmat)
| np_reshape (z : labels) (sh : nat * nat)
| np_sub (a b : farray)
| np_ne (a b : labels)
| np_sum (m : mask)
| np_vstack (A B : fmat)
| np_hstack (a b : labels).

(** matplotlib: [pyplot] functions and the [ListedColormap] constructor. *)
Inductive plt_call : Type :=
| mpl_ListedColormap (colors : list string)
| plt_contourf (x1 x2 : fmat) (z : label_grid) (alpha : Q) (cmap : colormap)
| plt_scatter (x y : farray) (kw : scatter_kw)
| plt_plot (x y : farray) (color : string) (lw : Z)
| plt_hlines (y xmin xmax : Z) (color : string) (lw : Z)
| plt_xlim (lo hi : Q)
| plt_ylim (lo hi : Q)
| plt_xlabel (s : string)
| plt_ylabel (s : string)
| plt_title (s : string)
| plt_legend (loc : legend_loc)
| plt_show.

(** Attribute lookup on a supplied object, and calls of a bound method: a
    classifier's method returns labels, a regressor's returns floats. *)
Inductive obj_call : Type :=
| py_getattr (o : obj) (name : string)
| py_call_clf (m : meth) (X : fmat)
| py_call_reg (m : meth) (X : fmat).

(** scikit-learn and the repository's [data_utility.IrisData], which is not
    part of the sources at hand: what it returns is left to the handler. *)
Inductive sk_call : Type :=
| data_IrisData (features names : list string)
| sk_train_test_split (X : fmat) (y : labels)
    (test_size : Q) (random_state : Z) (stratify : labels)
| sk_StandardScaler
| sk_scaler_fit (sc : obj) (X : fmat)
| sk_transform (sc : obj) (X : fmat)
| sk_KNeighborsClassifier (n_neighbors p : Z) (metric : string)
| sk_fit (clf : obj) (X : fmat) (y : labels).

Inductive call : Type :=
| CNp (c : np_call)
| CPlt (c : plt_call)
| CObj (c : obj_call)
| CSk (c : sk_call)
| CPrint (line : string).

(** The type of the value a call returns. *)
Definition np_ret (c : np_call) : Type :=
  match c with
  | np_unique _ => labels
  | np_eq _ _ => mask
  | np_getitem_mask _ _ _ => farray
  | np_getitem_fancy _ _ _ => farray
  | np_getitem_col _ _ => farray
  | np_getitem_fancy1 _ _ => farray
  | np_newaxis _ => fmat
  | np_min _ => Q
  | np_max _ => Q
  | np_min2 _ => Q
  | np_max2 _ => Q
  | np_arange _ _ _ => farray
  | np_meshgrid _ _ => (fmat * fmat)%type
  | np_ravel _ => farray
  | np_array _ => fmat
  | np_T _ => fmat
  | np_shape _ => (nat * nat)%type
  | np_reshape _ _ => label_grid
  | np_sub _ _ => farray
  | np_ne _ _ => mask
  | np_sum _ => Z
  | np_vstack _ _ => fmat
  | np_hstack _ _ => labels
  end.

Definition plt_ret (c : plt_call) : Type :=
  match c with
  | mpl_ListedColormap _ => colormap
  | _ => unit
  end.

Definition obj_ret (c : obj_call) : Type :=
  match c with
  | py_getattr _ _ => meth
  | py_call_clf _ _ => labels
  | py_call_reg _ _ => farray
  end.

Definition sk_ret (c : sk_call) : Type :=
  match c with
  | data_IrisData _ _ => (fmat * labels)%type
  | sk_train_test_split _ _ _ _ _ => (fmat * fmat * labels * labels)%type
  | sk_StandardScaler => obj
  | sk_scaler_fit _ _ => obj
  | sk_transform _ _ => fmat
  | sk_KNeighborsClassifier _ _ _ => obj
  | sk_fit _ _ _ => obj
  end.

Definition ret (c : call) : Type :=
  match c with
  | CNp c => np_ret c
  | CPlt c => plt_ret c
  | CObj c => obj_ret c
  | CSk c => sk_ret c
  | CPrint _ => unit
  end.

(** numpy's reference semantics, call by call. *)
Definition np_sem (c : np_call) : result (np_ret c) :=
  match c with
  | np_unique y => Ok (Np.unique y)
  | np_eq y l => Ok (Np.eq_scalar y l)
  | np_getitem_mask X m c => Np.getitem_mask X m c
  | np_getitem_fancy X idx c => Np.getitem_fancy X idx c
  | np_getitem_col X c => Np.column X c
  | np_getitem_fancy1 a idx => Np.take a idx
  | np_newaxis x => Ok (Np.newaxis x)
  | np_min a => Np.amin a
  | np_max a => Np.amax a
  | np_min2 g => Np.amin (Np.ravel g)
  | np_max2 g => Np.amax (Np.ravel g)
  | np_arange start stop step => Np.arange start stop step
  | np_meshgrid a b => Ok (Np.meshgrid a b)
  | np_ravel g => Ok (Np.ravel g)
  | np_array rows => Np.array rows
  | np_T m => Ok (Np.transpose m)
  | np_shape g => Ok (Np.shape g)
  | np_reshape z sh => Np.reshape z sh
  | np_sub a b => Np.sub a b
  | np_ne a b => Np.ne a b
  | np_sum m => Ok (Np.sum m)
  | np_vstack A B => Np.vstack A B
  | np_hstack a b => Ok (Np.hstack a b)
  end.

(** ** Programs over library calls *)

(** Module-level variables of [plot_utility], by name.  *)
Definition globals := list (string * Z).

Fixpoint lookup_global (g : globals) (name : string) : option Z :=
  match g with
  | [] => None
  | (n, v) :: rest => if String.eqb n name then Some v else lookup_global rest name
  end.

(** What a Python function body can do here: return, call into a library,
    raise an exception of its own, read or assign a module-level variable.
    The bodies of the two files only return and call; [Throw], [ReadGlobal]
    and [WriteGlobal] are what a validating or stateful helper would need,
    and [guarded] below states that a program has none of them. *)
Inductive prog (R : Type) : Type :=
| Ret (r : R)
| Call (c : call) (k : ret c -> prog R)
| Throw (e : exn)
| ReadGlobal (name : string) (k : option Z -> prog R)
| WriteGlobal (name : string) (v : Z) (k : prog R).

Arguments Ret {R} r.
Arguments Call {R} c k.
Arguments Throw {R} e.
Arguments ReadGlobal {R} name k.
Arguments WriteGlobal {R} name v k.

Fixpoint bind {A B} (p : prog A) (f : A -> prog B) : prog B :=
  match p with
  | Ret a => f a
  | Call c k => Call c (fun x => bind (k x) f)
  | Throw e => Throw e
  | ReadGlobal n k => ReadGlobal n (fun v => bind (k v) f)
  | WriteGlobal n v k => WriteGlobal n v (bind k f)
  end.

Definition call_ (c : call) : prog (ret c) := Call c Ret.

Declare Scope prog_scope.
Delimit Scope prog_scope with prog.
Notation "x <- p ;; q" := (bind p (fun x => q))
  (at level 100, p at next level, right associativity) : prog_scope.
Notation "' pat <- p ;; q" := (bind p (fun x => match x with pat => q end))
  (at level 100, pat pattern, p at next level, right associativity) : prog_scope.
Notation "p ;; q" := (bind p (fun _ => q))
  (at level 100, right associativity) : prog_scope.

(** Python's [for v in l: body]. *)
Fixpoint for_each {A} (l : list A) (body : A -> prog unit) : prog unit :=
  match l with
  | [] => Ret tt
  | v :: rest => bind (body v) (fun _ => for_each rest body)
  end.

(** ** Running a program against a library *)

(** One entry of the log: a call and what came back. *)
Inductive event : Type :=
| Returned (c : call) (a : ret c)
| Raised (c : call) (e : exn).

Definition call_of (ev : event) : call :=
  match ev with
  | Returned c _ => c
  | Raised c _ => c
  end.

Definition returned (ev : event) : bool :=
  match ev with
  | Returned _ _ => true
  | Raised _ _ => false
  end.

Record outcome (W R : Type) : Type := {
  res : result R;          (* what the function returns or raises *)
  lib_state : W;           (* the state of the libraries afterwards *)
  mod_state : globals;     (* the module-level variables afterwards *)
  log : list event         (* the library calls made, oldest first *)
}.

Section Run.

(** The state of the libraries (the current figure, an estimator's
    internals, the output stream). *)
Variable W : Type.

(** What each call returns or raises, and the state it leaves. *)
Definition handler := forall c : call, W -> result (ret c) * W.

Variable h : handler.

Definition logged {R} (ev : event) (o : outcome W R) : outcome W R :=
  {| res := res o; lib_state := lib_state o; mod_state := mod_state o;
     log := ev :: log o |}.

Fixpoint run {R} (p : prog R) (s : W) (g : globals) : outcome W R :=
  match p with
  | Ret r => {| res := Ok r; lib_state := s; mod_state := g; log := [] |}
  | Throw e => {| res := Raise e; lib_state := s; mod_state := g; log := [] |}
  | Call c k =>
      match h c s with
      | (Ok a, s') => logged (Returned c a) (run (k a) s' g)
      | (Raise e, s') =>
          {| res := Raise e; lib_state := s'; mod_state := g;
             log := [Raised c e] |}
      end
  | ReadGlobal n k => run (k (lookup_global g n)) s g
  | WriteGlobal n v k => run k s ((n, v) :: g)
  end.

End Run.

(** ** plot_utility.py *)

Module plot_utility.

Local Open Scope string_scope.
Local Open Scope prog_scope.

(** [test_idx]: [None] when the argument is omitted, else a list of row
    indices. *)
Definition test_idx_t := option (list Z).

Definition markers : list string := ["s"; "x"; "o"; "^"; "v"]%list.
Definition colors : list string :=
  ["red"; "blue"; "lightgreen"; "gray"; "cyan"]%list.

(** [zip(colors, markers, labels)] stops at the shortest argument. *)
Definition zip3 {A B C} (a : list A) (b : list B) (c : list C)
  : list (A * B * C) :=
  combine (combine a b) c.

Definition class_kw (color marker : string) (label : Z) : scatter_kw :=
  {| kw_alpha := Some (8 # 10); kw_c := color; kw_marker := Some marker;
     kw_edgecolor := "black"; kw_linewidth := None; kw_s := None;
     kw_label := ClassLabel label |}.

Definition test_kw (size : Z) (label : string) : scatter_kw :=
  {| kw_alpha := Some 1%Q; kw_c := ""; kw_marker := Some "o";
     kw_edgecolor := "black"; kw_linewidth := Some 1%Z; kw_s := Some size;
     kw_label := TextLabel label |}.

(** The loop under [# plot training data] of [plot_features] and of
    [plot_decision_regions]. *)
Definition plot_training_data (X : fmat) (y : labels) : prog unit :=
  uniq <- call_ (CNp (np_unique y)) ;;
  for_each (zip3 colors markers uniq) (fun '(color, marker, label) =>
    plot_index <- call_ (CNp (np_eq y label)) ;;
    xs <- call_ (CNp (np_getitem_mask X plot_index 0)) ;;
    ys <- call_ (CNp (np_getitem_mask X plot_index 1)) ;;
    call_ (CPlt (plt_scatter xs ys (class_kw color marker label)))).

(** [if test_idx: plt.scatter(x=X[test_idx, 0], y=X[test_idx, 1], ...)]:
    the guard is the truth value of the list. *)
Definition plot_test_data (X : fmat) (test_idx : test_idx_t) : prog unit :=
  match test_idx with
  | Some (i :: rest) =>
      xs <- call_ (CNp (np_getitem_fancy X (i :: rest) 0)) ;;
      ys <- call_ (CNp (np_getitem_fancy X (i :: rest) 1)) ;;
      call_ (CPlt (plt_scatter xs ys (test_kw 100 "test_set")))
  | Some [] | None => Ret tt
  end.

(** [if title is not None: plt.title(title)]. *)
Definition set_title (title : option string) : prog unit :=
  match title with
  | Some t => call_ (CPlt (plt_title t))
  | None => Ret tt
  end.

Definition plot_features
    (X : fmat) (y : labels) (test_idx : test_idx_t)
    (xlabel ylabel : string) (title : option string) (loc : legend_loc)
  : prog unit :=
  (* plot training data *)
  plot_training_data X y ;;
  (* plot test data *)
  plot_test_data X test_idx ;;
  (* configure plot area *)
  call_ (CPlt (plt_xlabel xlabel)) ;;
  call_ (CPlt (plt_ylabel ylabel)) ;;
  set_title title ;;
  call_ (CPlt (plt_legend loc)) ;;
  (* show plot *)
  call_ (CPlt plt_show).

Definition plot_decision_regions
    (X : fmat) (y : labels) (classifier : obj) (test_idx : test_idx_t)
    (resolution : Q)
    (xlabel ylabel : string) (title : option string) (loc : legend_loc)
  : prog unit :=
  (* prepare for markers and color maps *)
  uniq <- call_ (CNp (np_unique y)) ;;
  color_map <- call_ (CPlt (mpl_ListedColormap (firstn (List.length uniq) colors))) ;;
  (* prepare for plot area and generate grid points *)
  c0 <- call_ (CNp (np_getitem_col X 0)) ;;
  lo1 <- call_ (CNp (np_min c0)) ;;
  c0' <- call_ (CNp (np_getitem_col X 0)) ;;
  hi1 <- call_ (CNp (np_max c0')) ;;
  let x1_min := (lo1 - 1)%Q in
  let x1_max := (hi1 + 1)%Q in
  c1 <- call_ (CNp (np_getitem_col X 1)) ;;
  lo2 <- call_ (CNp (np_min c1)) ;;
  c1' <- call_ (CNp (np_getitem_col X 1)) ;;
  hi2 <- call_ (CNp (np_max c1')) ;;
  let x2_min := (lo2 - 1)%Q in
  let x2_max := (hi2 + 1)%Q in
  a1 <- call_ (CNp (np_arange x1_min x1_max resolution)) ;;
  a2 <- call_ (CNp (np_arange x2_min x2_max resolution)) ;;
  '(x1, x2) <- call_ (CNp (np_meshgrid a1 a2)) ;;
  (* predict each grid points *)
  predict <- call_ (CObj (py_getattr classifier "predict")) ;;
  r1 <- call_ (CNp (np_ravel x1)) ;;
  r2 <- call_ (CNp (np_ravel x2)) ;;
  pts <- call_ (CNp (np_array [r1; r2]%list)) ;;
  ptsT <- call_ (CNp (np_T pts)) ;;
  z <- call_ (CObj (py_call_clf predict ptsT)) ;;
  sh <- call_ (CNp (np_shape x1)) ;;
  z <- call_ (CNp (np_reshape z sh)) ;;
  (* plot the contour *)
  call_ (CPlt (plt_contourf x1 x2 z (3 # 10) color_map)) ;;
  (* plot training data *)
  plot_training_data X y ;;
  (* plot test data *)
  plot_test_data X test_idx ;;
  (* configure plot area *)
  xlo <- call_ (CNp (np_min2 x1)) ;;
  xhi <- call_ (CNp (np_max2 x1)) ;;
  call_ (CPlt (plt_xlim xlo xhi)) ;;
  ylo <- call_ (CNp (np_min2 x2)) ;;
  yhi <- call_ (CNp (np_max2 x2)) ;;
  call_ (CPlt (plt_ylim ylo yhi)) ;;
  call_ (CPlt (plt_xlabel xlabel)) ;;
  call_ (CPlt (plt_ylabel ylabel)) ;;
  set_title title ;;
  call_ (CPlt (plt_legend loc)) ;;
  (* show plot *)
  call_ (CPlt plt_show).

Definition training_kw (marker : option string) (size : option Z) : scatter_kw :=
  {| kw_alpha := None; kw_c := "steelblue"; kw_marker := marker;
     kw_edgecolor := "white"; kw_linewidth := None; kw_s := size;
     kw_label := TextLabel "training data" |}.

(** [if test_idx: plt.scatter(x=xs[test_idx], y=ys[test_idx], ...)] of the
    two regression helpers. *)
Definition mark_test_data (xs ys : farray) (test_idx : test_idx_t) (size : Z)
  : prog unit :=
  match test_idx with
  | Some (i :: rest) =>
      tx <- call_ (CNp (np_getitem_fancy1 xs (i :: rest))) ;;
      ty <- call_ (CNp (np_getitem_fancy1 ys (i :: rest))) ;;
      call_ (CPlt (plt_scatter tx ty (test_kw size "test data")))
  | Some [] | None => Ret tt
  end.

(** [if test_idx is not None: plt.legend(loc=loc)]. *)
Definition legend_if_given (test_idx : test_idx_t) (loc : legend_loc)
  : prog unit :=
  match test_idx with
  | Some _ => call_ (CPlt (plt_legend loc))
  | None => Ret tt
  end.

Definition plot_predictions
    (x y : farray) (regressor : obj) (test_idx : test_idx_t)
    (xlabel ylabel : string) (title : option string) (loc : legend_loc)
  : prog unit :=
  (* plot prediction of regressor *)
  predict <- call_ (CObj (py_getattr regressor "predict")) ;;
  xcol <- call_ (CNp (np_newaxis x)) ;;
  y_line <- call_ (CObj (py_call_reg predict xcol)) ;;
  call_ (CPlt (plt_plot x y_line "black" 1)) ;;
  (* plot training data *)
  call_ (CPlt (plt_scatter x y (training_kw None (Some 70%Z)))) ;;
  (* plot test data *)
  mark_test_data x y test_idx 100 ;;
  (* configure plot area *)
  call_ (CPlt (plt_xlabel xlabel)) ;;
  call_ (CPlt (plt_ylabel ylabel)) ;;
  set_title title ;;
  legend_if_given test_idx loc ;;
  (* show plot *)
  call_ (CPlt plt_show).

Definition plot_residuals
    (X : fmat) (y : farray) (regressor : obj) (test_idx : test_idx_t)
    (xlabel ylabel : string) (title : option string) (loc : legend_loc)
  : prog unit :=
  (* plot residual of training data *)
  predict <- call_ (CObj (py_getattr regressor "predict")) ;;
  y_pred <- call_ (CObj (py_call_reg predict X)) ;;
  let scatter_x := y_pred in
  scatter_y <- call_ (CNp (np_sub y_pred y)) ;;
  call_ (CPlt (plt_scatter scatter_x scatter_y (training_kw (Some "o") None))) ;;
  (* mark residual of test data *)
  mark_test_data scatter_x scatter_y test_idx 75 ;;
  (* plot perfect prediction *)
  call_ (CPlt (plt_hlines 0 (-10) 50 "black" 1)) ;;
  (* configure plot area *)
  call_ (CPlt (plt_xlabel xlabel)) ;;
  call_ (CPlt (plt_ylabel ylabel)) ;;
  set_title title ;;
  legend_if_given test_idx loc ;;
  (* show plot *)
  call_ (CPlt plt_show).

(** Default arguments of the four signatures. *)
Definition default_resolution : Q := 2 # 100.
Definition default_loc : legend_loc := LocName "best".

End plot_utility.

(** ** sklearn_knn.py *)

Module sklearn_knn.

Local Open Scope string_scope.
Local Open Scope prog_scope.

(** ['misclassified samples: {}'.format(n)]. *)
Definition format_misclassified (n : Z) : string :=
  "misclassified samples: " ++ NilZero.string_of_int (Z.to_int n).

(** [list(range(a, b))]. *)
Definition py_range (a b : nat) : list Z :=
  map Z.of_nat (seq a (b - a)).

(** [list(range(len(y_train), len(y)))]. *)
Definition test_idx (y_train y : labels) : list Z :=
  py_range (List.length y_train) (List.length y).

(** [KNeighborsClassifier(n_neighbors=n, p=p, metric='minkowski')
      .fit(X_train_std, y_train)]. *)
Definition fit_knn (n p : Z) (X_train_std : fmat) (y_train : labels)
  : prog obj :=
  clf <- call_ (CSk (sk_KNeighborsClassifier n p "minkowski")) ;;
  call_ (CSk (sk_fit clf X_train_std y_train)).

(** The lines under [# show accuracy]. *)
Definition show_accuracy (classifier : obj) (X_test_std : fmat)
    (y_test : labels) : prog unit :=
  predict <- call_ (CObj (py_getattr classifier "predict")) ;;
  y_pred <- call_ (CObj (py_call_clf predict X_test_std)) ;;
  differs <- call_ (CNp (np_ne y_test y_pred)) ;;
  n <- call_ (CNp (np_sum differs)) ;;
  call_ (CPrint (format_misclassified n)).

Definition main : prog unit :=
  (* prepare sample data and target variable *)
  let names := ["setosa"; "versicolor"; "virginica"]%list in
  let features := ["petal length (cm)"; "petal width (cm)"]%list in
  '(X, y) <- call_ (CSk (data_IrisData features names)) ;;
  (* split sample data into training data and test data and standardize them *)
  '(X_train, X_test, y_train, y_test) <-
      call_ (CSk (sk_train_test_split X y (3 # 10) 1 y)) ;;
  sc <- call_ (CSk sk_StandardScaler) ;;
  sc <- call_ (CSk (sk_scaler_fit sc X_train)) ;;
  X_train_std <- call_ (CSk (sk_transform sc X_train)) ;;
  X_test_std <- call_ (CSk (sk_transform sc X_test)) ;;
  (* combine training data and test data *)
  X_combined_std <- call_ (CNp (np_vstack X_train_std X_test_std)) ;;
  y_combined <- call_ (CNp (np_hstack y_train y_test)) ;;
  (* fit classifiers *)
  k4 <- fit_knn 4 2 X_train_std y_train ;;
  k5 <- fit_knn 5 2 X_train_std y_train ;;
  k6 <- fit_knn 6 2 X_train_std y_train ;;
  k5m <- fit_knn 5 1 X_train_std y_train ;;
  for_each [k4; k5; k6; k5m]%list (fun classifier =>
    (* show accuracy *)
    show_accuracy classifier X_test_std y_test ;;
    (* show decision regions *)
    plot_utility.plot_decision_regions X_combined_std y_combined classifier
      (Some (test_idx y_train y))
      plot_utility.default_resolution "x" "y" None
      plot_utility.default_loc).

End sklearn_knn.

(** ** A reference library

    numpy behaves as [Np]; the lookup of an attribute the object exposes
    yields the bound method, any other raises [AttributeError]; a
    classifier predicts by [clf], a regressor by [reg]; matplotlib and
    [print] accept every call.  The scikit-learn part is a stand-in with
    the shapes of the real one: the split puts the last [hold] samples
    aside (and rejects inputs of different lengths), the scaler leaves the
    data as it is. *)

Section Reference.

Variable exposes : string -> bool.
Variable clf : fmat -> result labels.
Variable reg : fmat -> result farray.
Variable dataset : fmat * labels.
Variable hold : nat.

Definition ref_plt (c : plt_call) : result (plt_ret c) :=
  match c with
  | mpl_ListedColormap colors => Ok (ListedColormapObj colors)
  | plt_contourf _ _ _ _ _ => Ok tt
  | plt_scatter _ _ _ => Ok tt
  | plt_plot _ _ _ _ => Ok tt
  | plt_hlines _ _ _ _ _ => Ok tt
  | plt_xlim _ _ => Ok tt
  | plt_ylim _ _ => Ok tt
  | plt_xlabel _ => Ok tt
  | plt_ylabel _ => Ok tt
  | plt_title _ => Ok tt
  | plt_legend _ => Ok tt
  | plt_show => Ok tt
  end.

Definition ref_obj (c : obj_call) : result (obj_ret c) :=
  match c with
  | py_getattr o name =>
      if exposes name then Ok (BoundMethod o name)
      else Raise AttributeError
  | py_call_clf _ X => clf X
  | py_call_reg _ X => reg X
  end.

Definition ref_sk (c : sk_call) : result (sk_ret c) :=
  match c with
  | data_IrisData _ _ => Ok dataset
  | sk_train_test_split X y _ _ _ =>
      let n := (List.length y - hold)%nat in
      if Nat.eqb (List.length X) (List.length y)
      then Ok (firstn n X, skipn n X, firstn n y, skipn n y)
      else Raise ValueError
  | sk_StandardScaler => Ok (Obj 0)
  | sk_scaler_fit sc _ => Ok sc
  | sk_transform _ X => Ok X
  | sk_KNeighborsClassifier n p _ => Ok (Obj (Z.to_nat (10 * n + p)))
  | sk_fit o _ _ => Ok o
  end.

Definition ref_handler : handler unit :=
  fun c s =>
    (match c return result (ret c) with
     | CNp c => np_sem c
     | CPlt c => ref_plt c
     | CObj c => ref_obj c
     | CSk c => ref_sk c
     | CPrint _ => Ok tt
     end, s).

End Reference.

(** ** Reasoning about programs *)

(** An assumption on the library: [Q c a] holds of every value [a] that a
    call [c] returns. *)
Definition contract := forall c : call, ret c -> Prop.

Definition any_library : contract := fun _ _ => True.

Definition respects {W} (h : handler W) (Q : contract) : Prop :=
  forall c s a s', h c s = (Ok a, s') -> Q c a.

(** numpy behaves as the reference semantics says. *)
Definition numpy_contract : contract :=
  fun c =>
    match c return ret c -> Prop with
    | CNp c' => fun a => np_sem c' = Ok a
    | _ => fun _ => True
    end.

Definition both (Q1 Q2 : contract) : contract :=
  fun c a => Q1 c a /\ Q2 c a.

(** [guarded P Q p]: under a library that keeps [Q], program [p] only
    makes calls that satisfy [P], raises nothing of its own and leaves the
    module-level variables alone. *)
Inductive guarded {R} (P : call -> Prop) (Q : contract) : prog R -> Prop :=
| guarded_Ret r : guarded P Q (Ret r)
| guarded_Call c k :
    P c -> (forall a, Q c a -> guarded P Q (k a)) -> guarded P Q (Call c k).

(** [at_most n p]: no run of [p] makes more than [n] library calls. *)
Inductive at_most {R} : nat -> prog R -> Prop :=
| at_most_Ret n r : at_most n (Ret r)
| at_most_Throw n e : at_most n (Throw e)
| at_most_Call n c k :
    (forall a, at_most n (k a)) -> at_most (S n) (Call c k)
| at_most_Read n name k :
    (forall v, at_most n (k v)) -> at_most n (ReadGlobal name k)
| at_most_Write n name v k :
    at_most n k -> at_most n (WriteGlobal name v k).

(** [wp Q p post]: every run of [p] that returns, under a library that
    keeps [Q], ends with a log and a value that satisfy [post]. *)
Fixpoint wp {R} (Q : contract) (p : prog R) (post : list event -> R -> Prop)
  : Prop :=
  match p with
  | Ret r => post [] r
  | Call c k => forall a, Q c a -> wp Q (k a) (fun l r => post (Returned c a :: l) r)
  | Throw _ => True
  | ReadGlobal _ k => forall v, wp Q (k v) post
  | WriteGlobal _ _ k => wp Q k post
  end.

(** ** The four helpers, one call at a time *)

(** A call of one of the four helpers with its arguments. *)
Inductive invocation : Type :=
| call_plot_features
    (X : fmat) (y : labels) (test_idx : plot_utility.test_idx_t)
    (xlabel ylabel : string) (title : option string) (loc : legend_loc)
| call_plot_decision_regions
    (X : fmat) (y : labels) (classifier : obj)
    (test_idx : plot_utility.test_idx_t) (resolution : Q)
    (xlabel ylabel : string) (title : option string) (loc : legend_loc)
| call_plot_predictions
    (x y : farray) (regressor : obj) (test_idx : plot_utility.test_idx_t)
    (xlabel ylabel : string) (title : option string) (loc : legend_loc)
| call_plot_residuals
    (X : fmat) (y : farray) (regressor : obj)
    (test_idx : plot_utility.test_idx_t)
    (xlabel ylabel : string) (title : option string) (loc : legend_loc).

Definition body (i : invocation) : prog unit :=
  match i with
  | call_plot_features X y t xl yl ti loc =>
      plot_utility.plot_features X y t xl yl ti loc
  | call_plot_decision_regions X y o t r xl yl ti loc =>
      plot_utility.plot_decision_regions X y o t r xl yl ti loc
  | call_plot_predictions x y o t xl yl ti loc =>
      plot_utility.plot_predictions x y o t xl yl ti loc
  | call_plot_residuals X y o t xl yl ti loc =>
      plot_utility.plot_residuals X y o t xl yl ti loc
  end.

(** The [test_idx] argument of an invocation. *)
Definition test_idx_of (i : invocation) : plot_utility.test_idx_t :=
  match i with
  | call_plot_features _ _ t _ _ _ _ => t
  | call_plot_decision_regions _ _ _ t _ _ _ _ _ => t
  | call_plot_predictions _ _ _ t _ _ _ _ => t
  | call_plot_residuals _ _ _ t _ _ _ _ => t
  end.

(** The classifier or regressor handed to an invocation, if it takes one. *)
Definition predictor_of (i : invocation) : option obj :=
  match i with
  | call_plot_features _ _ _ _ _ _ _ => None
  | call_plot_decision_regions _ _ o _ _ _ _ _ _ => Some o
  | call_plot_predictions _ _ o _ _ _ _ _ => Some o
  | call_plot_residuals _ _ o _ _ _ _ _ => Some o
  end.

(** The number of library calls a helper can make. *)
Definition call_budget (i : invocation) : nat :=
  match i with
  | call_plot_features _ _ _ _ _ _ _ => 29
  | call_plot_decision_regions _ _ _ _ _ _ _ _ _ => 57
  | call_plot_predictions _ _ _ _ _ _ _ _ => 13
  | call_plot_residuals _ _ _ _ _ _ _ _ => 13
  end.

(** *** What a helper does with the object it is given *)

(** Every touch of a Python object in the log concerns [o.predict]: the
    attribute looked up is [predict] of [o], and the method called is that
    bound method. *)
Definition uses_only_predict (o : obj) (c : call) : Prop :=
  match c with
  | CObj (py_getattr o' name) => o' = o /\ name = "predict"%string
  | CObj (py_call_clf m _) => m = BoundMethod o "predict"
  | CObj (py_call_reg m _) => m = BoundMethod o "predict"
  | _ => True
  end.

(** Python's attribute lookup of a method yields the method bound to the
    object. *)
Definition lookup_contract : contract :=
  fun c =>
    match c return ret c -> Prop with
    | CObj (py_getattr o name) => fun m => m = BoundMethod o name
    | _ => fun _ => True
    end.

(** A lookup of an attribute other than [predict]. *)
Definition other_attribute (c : call) : bool :=
  match c with
  | CObj (py_getattr _ name) => negb (String.eqb name "predict")
  | _ => false
  end.

(** *** Reading a log *)

(** The entries of a log that [f] selects, in order. *)
Definition pick {T} (f : event -> option T) (l : list event) : list T :=
  flat_map (fun ev => match f ev with Some t => [t] | None => [] end) l.

(** The highlight of the held-out samples: the scatter call labelled
    ['test_set'] (classification helpers) or ['test data'] (regression
    helpers). *)
Definition is_overlay (c : call) : bool :=
  match c with
  | CPlt (plt_scatter _ _ kw) =>
      match kw_label kw with
      | TextLabel s => (String.eqb s "test_set" || String.eqb s "test data")%bool
      | ClassLabel _ => false
      end
  | _ => false
  end.

Definition is_legend (c : call) : bool :=
  match c with
  | CPlt (plt_legend _) => true
  | _ => false
  end.

Definition is_show (c : call) : bool :=
  match c with
  | CPlt plt_show => true
  | _ => false
  end.

(** The helpers whose legend is guarded by [test_idx is not None]. *)
Definition legend_is_optional (i : invocation) : bool :=
  match i with
  | call_plot_predictions _ _ _ _ _ _ _ _ => true
  | call_plot_residuals _ _ _ _ _ _ _ _ => true
  | _ => false
  end.

(** The calls of a log that satisfy [f]. *)
Definition calls_where (f : call -> bool) (l : list event) : list call :=
  filter f (map call_of l).

(** An invocation with another [test_idx] argument. *)
Definition with_test_idx (i : invocation) (t : plot_utility.test_idx_t)
  : invocation :=
  match i with
  | call_plot_features X y _ xl yl ti loc =>
      call_plot_features X y t xl yl ti loc
  | call_plot_decision_regions X y o _ r xl yl ti loc =>
      call_plot_decision_regions X y o t r xl yl ti loc
  | call_plot_predictions x y o _ xl yl ti loc =>
      call_plot_predictions x y o t xl yl ti loc
  | call_plot_residuals X y o _ xl yl ti loc =>
      call_plot_residuals X y o t xl yl ti loc
  end.

(** The [loc] argument of an invocation. *)
Definition loc_of (i : invocation) : legend_loc :=
  match i with
  | call_plot_features _ _ _ _ _ _ loc => loc
  | call_plot_decision_regions _ _ _ _ _ _ _ _ loc => loc
  | call_plot_predictions _ _ _ _ _ _ _ loc => loc
  | call_plot_residuals _ _ _ _ _ _ _ loc => loc
  end.

(** *** The scatter calls of the training data *)

(** A scatter call of the loop over the class labels: its [label] keyword
    is the class label. *)
Definition is_class_scatter (c : call) : bool :=
  match c with
  | CPlt (plt_scatter _ _ kw) =>
      match kw_label kw with
      | ClassLabel _ => true
      | TextLabel _ => false
      end
  | _ => false
  end.

(** The rows of [X] whose entry of [y] equals [l]. *)
Definition rows_with_label (X : fmat) (y : labels) (l : Z) : fmat :=
  map fst (filter (fun p => (snd p =? l)%Z) (combine X y)).

(** Column [c] of some rows. *)
Definition coords (c : nat) (rows : fmat) : farray :=
  map (fun row => nth c row 0%Q) rows.

(** The scatter call for one class: the points are the rows of that
    class. *)
Definition class_scatter (X : fmat) (y : labels) (z : string * string * Z)
  : call :=
  let '(color, marker, l) := z in
  CPlt (plt_scatter (coords 0 (rows_with_label X y l))
                    (coords 1 (rows_with_label X y l))
                    (plot_utility.class_kw color marker l)).

Definition expected_training (X : fmat) (y : labels) : list call :=
  map (class_scatter X y)
      (plot_utility.zip3 plot_utility.colors plot_utility.markers (Np.unique y)).

(** The class label of a scatter call of the loop. *)
Definition class_of (c : call) : option Z :=
  match c with
  | CPlt (plt_scatter _ _ kw) =>
      match kw_label kw with
      | ClassLabel l => Some l
      | TextLabel _ => None
      end
  | _ => None
  end.

(** The labels that got a scatter call. *)
Definition plotted_labels (l : list event) : list Z :=
  pick (fun ev => class_of (call_of ev)) l.

(** Every label present in [y] has a scatter call in the log. *)
Definition scatter_for_every_label (y : labels) (l : list event) : Prop :=
  forall lab, In lab y -> In lab (plotted_labels l).

(** The feature matrix and label vector of the two classification
    helpers. *)
Definition samples_of (i : invocation) : option (fmat * labels) :=
  match i with
  | call_plot_features X y _ _ _ _ _ => Some (X, y)
  | call_plot_decision_regions X y _ _ _ _ _ _ _ => Some (X, y)
  | _ => None
  end.

(** ** Sample inputs *)

Module Samples.

Local Open Scope string_scope.

(** An estimator object with the usual scikit-learn surface, and one that
    has nothing but [predict]. *)
Definition full_estimator (name : string) : bool := true.
Definition predict_only (name : string) : bool := String.eqb name "predict".

(** A classifier that answers class 0 for every sample, and a regressor
    that answers the first feature. *)
Definition zero_clf (X : fmat) : result labels := Ok (map (fun _ => 0%Z) X).
Definition first_feature (X : fmat) : result farray :=
  Ok (map (fun row => nth 0 row 0%Q) X).

Definition three_points : fmat := [[0; 0]; [1; 1]; [5 # 2; 5 # 2]]%Q.
Definition three_labels : labels := [1; 0; 1]%Z.
Definition three_targets : farray := [0; 1; 2]%Q.

Definition six_points : fmat :=
  [[0; 0]; [1; 1]; [2; 2]; [3; 3]; [4; 4]; [5; 5]]%Q.
Definition six_labels : labels := [0; 1; 2; 3; 4; 5]%Z.

(** The library the samples are run against: three samples, of which the
    last is held out. *)
Definition lib (exposes : string -> bool) : handler unit :=
  ref_handler exposes zero_clf first_feature (three_points, three_labels) 1.

Definition features3 : invocation :=
  call_plot_features three_points three_labels (Some [2%Z]) "x" "y" None
    plot_utility.default_loc.

Definition features6 : invocation :=
  call_plot_features six_points six_labels None "x" "y" None
    plot_utility.default_loc.

Definition regions6 : invocation :=
  call_plot_decision_regions six_points six_labels (Obj 1) None 1 "x" "y" None
    plot_utility.default_loc.

(** A coarse grid: [resolution=3]. *)
Definition regions3 (resolution : Q) : invocation :=
  call_plot_decision_regions three_points three_labels (Obj 1) (Some [2%Z])
    resolution "x" "y" (Some "regions") plot_utility.default_loc.

Definition predictions3 : invocation :=
  call_plot_predictions [0; 1; 2]%Q three_targets (Obj 2) (Some [2%Z])
    "x" "y" None plot_utility.default_loc.

Definition residuals3 : invocation :=
  call_plot_residuals three_points three_targets (Obj 2) (Some [2%Z])
    "predicted values" "residuals" None plot_utility.default_loc.

End Samples.

(** *** What [plot_residuals] predicts and plots *)

(** The entries of interest in a log of [plot_residuals]: a call of the
    regressor's method together with what it returned, and a scatter call
    labelled ['training data'] (made, whether or not it returned). *)
Inductive residual_obs : Type :=
| Predicted (X : fmat) (y_pred : farray)
| Plotted (xs ys : farray) (kw : scatter_kw).

Definition is_training_scatter (c : call) : option residual_obs :=
  match c with
  | CPlt (plt_scatter xs ys kw) =>
      match kw_label kw with
      | TextLabel s =>
          if String.eqb s "training data" then Some (Plotted xs ys kw) else None
      | ClassLabel _ => None
      end
  | _ => None
  end.

Definition observe_residuals (ev : event) : option residual_obs :=
  match ev with
  | Returned c a =>
      match c return ret c -> option residual_obs with
      | CObj (py_call_reg _ X) => fun y_pred => Some (Predicted X y_pred)
      | c' => fun _ => is_training_scatter c'
      end a
  | Raised c _ => is_training_scatter c
  end.

(** Elementwise [prediction - actual]. *)
Definition residuals (y_pred y : farray) : farray :=
  map (fun p => (fst p - snd p)%Q) (combine y_pred y).

(** *** The axis limits of [plot_decision_regions] *)

Definition xlim_of (ev : event) : option (Q * Q) :=
  match call_of ev with
  | CPlt (plt_xlim lo hi) => Some (lo, hi)
  | _ => None
  end.

Definition ylim_of (ev : event) : option (Q * Q) :=
  match call_of ev with
  | CPlt (plt_ylim lo hi) => Some (lo, hi)
  | _ => None
  end.

(** A value lies within limits. *)
Definition within (lim : Q * Q) (v : Q) : Prop :=
  (fst lim <= v /\ v <= snd lim)%Q.

(** Every sample lies within the limits the log sets on the two axes. *)
Definition samples_within_limits (X : fmat) (l : list event) : Prop :=
  exists xl yl,
    pick xlim_of l = [xl] /\ pick ylim_of l = [yl] /\
    forall row, In row X -> within xl (nth 0 row 0) /\ within yl (nth 1 row 0).

Definition is_limit (c : call) : bool :=
  match c with
  | CPlt (plt_xlim _ _) => true
  | CPlt (plt_ylim _ _) => true
  | _ => false
  end.

(** The coordinate grids a contour call was given. *)
Definition contour_grid_of (ev : event) : option (fmat * fmat) :=
  match call_of ev with
  | CPlt (plt_contourf x1 x2 _ _ _) => Some (x1, x2)
  | _ => None
  end.

(** A call that draws the contour or sets a limit. *)
Definition is_view (c : call) : bool :=
  match c with
  | CPlt (plt_contourf _ _ _ _ _) => true
  | _ => is_limit c
  end.

(** What a returning run of [plot_decision_regions] sets as limits.  The
    axes of the grid are [arange(min - 1, max + 1, step)] over the two
    columns of [X]; the contour is drawn on their mesh; each axis gets as
    limits the smallest and the largest coordinate of that mesh; and the
    lower limit is [min - 1]. *)
Definition limits_from_grid (X : fmat) (step : Q) (l : list event) : Prop :=
  exists lo1 hi1 lo2 hi2 a1 a2 xlo xhi ylo yhi,
    Np.amin (coords 0 X) = Ok lo1 /\ Np.amax (coords 0 X) = Ok hi1 /\
    Np.amin (coords 1 X) = Ok lo2 /\ Np.amax (coords 1 X) = Ok hi2 /\
    Np.arange (lo1 - 1) (hi1 + 1) step = Ok a1 /\
    Np.arange (lo2 - 1) (hi2 + 1) step = Ok a2 /\
    pick contour_grid_of l = [Np.meshgrid a1 a2] /\
    Np.amin (Np.ravel (fst (Np.meshgrid a1 a2))) = Ok xlo /\
    Np.amax (Np.ravel (fst (Np.meshgrid a1 a2))) = Ok xhi /\
    Np.amin (Np.ravel (snd (Np.meshgrid a1 a2))) = Ok ylo /\
    Np.amax (Np.ravel (snd (Np.meshgrid a1 a2))) = Ok yhi /\
    pick xlim_of l = [(xlo, xhi)] /\ pick ylim_of l = [(ylo, yhi)] /\
    (xlo == lo1 - 1 /\ ylo == lo2 - 1)%Q.

(** No sample lies below the lower limits the log sets on the two axes. *)
Definition samples_above_lower_limits (X : fmat) (l : list event) : Prop :=
  exists xl yl,
    pick xlim_of l = [xl] /\ pick ylim_of l = [yl] /\
    forall row, In row X ->
      (fst xl <= nth 0 row 0 /\ fst yl <= nth 1 row 0)%Q.

(** *** What the example script reports *)

(** A position at which prediction and true label differ. *)
Definition differs (p : Z * Z) : bool := negb (fst p =? snd p)%Z.

(** The number of test-set positions at which the prediction differs from
    the true label. *)
Definition count_mismatches (y_test y_pred : labels) : Z :=
  Z.of_nat (List.length (filter differs (combine y_test y_pred))).

(** The line of the report for a count, in the spec's words: the text
    [misclassified samples: ] followed by the count in decimal. *)
Definition report_line (n : Z) : string :=
  ("misclassified samples: " ++ NilZero.string_of_int (Z.to_int n))%string.

(** A line that reads [misclassified samples: n]: the text, then a decimal
    numeral whose value is [n]. *)
Definition reads_misclassified (line : string) (n : Z) : Prop :=
  exists numeral,
    line = ("misclassified samples: " ++ numeral)%string /\
    option_map Z.of_int (NilZero.int_of_string numeral) = Some n.

(** The four parameterizations of the script, as [(n_neighbors, p)]. *)
Definition parameterizations : list (Z * Z) :=
  [(4, 2); (5, 2); (6, 2); (5, 1)]%Z.

(** What happens to a k-nearest-neighbours classifier: it is constructed
    (and the constructor returns the object [clf]), and [fit] is called on
    an object (and returns the fitted classifier). *)
Inductive knn_obs : Type :=
| Built (n_neighbors p : Z) (metric : string) (clf : obj)
| Fitted (clf : obj) (X : fmat) (y : labels) (fitted : obj).

Definition observe_knn (ev : event) : option knn_obs :=
  match ev with
  | Returned c a =>
      match c return ret c -> option knn_obs with
      | CSk (sk_KNeighborsClassifier n p metric) =>
          fun clf => Some (Built n p metric clf)
      | CSk (sk_fit clf X y) => fun fitted => Some (Fitted clf X y fitted)
      | _ => fun _ => None
      end a
  | Raised _ _ => None
  end.

(** One parameterization: constructed with the Minkowski metric, and the
    object so constructed fitted on [X], [y]. *)
Definition built_and_fitted (X : fmat) (y : labels)
    (z : Z * Z * (obj * obj)) : list knn_obs :=
  let '(n, p, (clf, fitted)) := z in
  [Built n p "minkowski" clf; Fitted clf X y fitted].

(** What scikit-learn promises about shapes: one prediction per sample,
    a split into parts whose samples and labels agree in number and whose
    labels add up to the whole, a transformation that keeps the rows. *)
Definition sklearn_contract : contract :=
  fun c =>
    match c return ret c -> Prop with
    | CObj (py_call_clf _ X) =>
        fun y_pred => List.length y_pred = List.length X
    | CSk (sk_train_test_split X y _ _ _) =>
        fun parts =>
          let '(X_train, X_test, y_train, y_test) := parts in
          List.length X_train = List.length y_train /\
          List.length X_test = List.length y_test /\
          List.length y = (List.length y_train + List.length y_test)%nat
    | CSk (sk_transform _ X) => fun X' => List.length X' = List.length X
    | _ => fun _ => True
    end.

(** The log of the lines under [# show accuracy] for one classifier: the
    lookup of [predict], the prediction [y_pred] on the standardized test
    samples, the comparison with the true test labels, the count, and the
    printed line. *)
Definition accuracy_log (classifier : obj) (X_test_std : fmat)
    (y_test : labels) (m : meth) (y_pred : labels) : list event :=
  let d : mask := map differs (combine y_test y_pred) in
  [Returned (CObj (py_getattr classifier "predict")) m;
   Returned (CObj (py_call_clf m X_test_std)) y_pred;
   Returned (CNp (np_ne y_test y_pred)) d;
   Returned (CNp (np_sum d)) (Np.sum d);
   Returned (CPrint (report_line (Np.sum d))) tt].

(** One turn of the loop over the classifiers: the classifier, its bound
    method, its prediction on the test samples, and the log of the call of
    [plot_decision_regions]. *)
Record iteration : Type := {
  it_classifier : obj;
  it_method : meth;
  it_pred : labels;
  it_plot : list event
}.

Definition iteration_log (X_test_std : fmat) (y_test : labels)
    (it : iteration) : list event :=
  accuracy_log (it_classifier it) X_test_std y_test (it_method it) (it_pred it)
  ++ it_plot it.

(** Calls that [plot_decision_regions] does not make: printing,
    scikit-learn, comparisons of label arrays. *)
Definition quiet (c : call) : Prop :=
  match c with
  | CPrint _ => False
  | CSk _ => False
  | CNp (np_ne _ _) => False
  | _ => True
  end.

Definition fitted_of (ev : event) : option (Z * Z * string) :=
  match call_of ev with
  | CSk (sk_KNeighborsClassifier n p metric) => Some (n, p, metric)
  | _ => None
  end.

Definition printed_of (ev : event) : option string :=
  match call_of ev with
  | CPrint line => Some line
  | _ => None
  end.

(** The classifier a [fit] call returned. *)
Definition classifier_of (ev : event) : option obj :=
  match ev with
  | Returned c a =>
      match c return ret c -> option obj with
      | CSk (sk_fit _ _ _) => fun k => Some k
      | _ => fun _ => None
      end a
  | Raised _ _ => None
  end.

(** The test labels the split returned. *)
Definition test_labels_of (ev : event) : option labels :=
  match ev with
  | Returned c a =>
      match c return ret c -> option labels with
      | CSk (sk_train_test_split _ _ _ _ _) => fun parts => Some (snd parts)
      | _ => fun _ => None
      end a
  | Raised _ _ => None
  end.

(** The standardized samples a [transform] call returned. *)
Definition transformed_of (ev : event) : option fmat :=
  match ev with
  | Returned c a =>
      match c return ret c -> option fmat with
      | CSk (sk_transform _ _) => fun X' => Some X'
      | _ => fun _ => None
      end a
  | Raised _ _ => None
  end.

(** The calls of [main] before its loop: loading, splitting, scaling,
    stacking, and constructing and fitting the four classifiers. *)
Definition setup_calls : nat := 16.

(** The shape of the log of a returning run of [main]: the setup, then one
    turn of the loop for each fitted classifier, in order. *)
Definition main_shape (l : list event) (X_train_std X_test_std : fmat)
    (y_test : labels) (its : list iteration) : Prop :=
  skipn setup_calls l = flat_map (iteration_log X_test_std y_test) its /\
  pick fitted_of (firstn setup_calls l)
  = [(4, 2, "minkowski"); (5, 2, "minkowski");
     (6, 2, "minkowski"); (5, 1, "minkowski")]%Z%string /\
  pick printed_of (firstn setup_calls l) = [] /\
  pick test_labels_of (firstn setup_calls l) = [y_test] /\
  pick transformed_of (firstn setup_calls l) = [X_train_std; X_test_std] /\
  pick classifier_of (firstn setup_calls l) = map it_classifier its /\
  Forall (fun it => List.length (it_pred it) = List.length y_test /\
                    Forall (fun ev => quiet (call_of ev)) (it_plot it)) its.

(** The last call of a log is [c]. *)
Definition ends_with (c : call) (l : list event) : Prop :=
  exists pre, map call_of l = pre ++ [c].

(** *** What [plot_predictions] asks and draws *)

(** The entries of interest in a log of [plot_predictions]: what the
    regressor's method returned on its argument, the line, and the scatter
    labelled ['training data'] (drawn, whether or not the call returned). *)
Inductive line_obs : Type :=
| AskedLine (X : fmat) (y_line : farray)
| DrewLine (x y : farray) (color : string) (lw : Z)
| DrewTraining (xs ys : farray) (kw : scatter_kw).

Definition drawn_of (c : call) : option line_obs :=
  match c with
  | CPlt (plt_plot x y color lw) => Some (DrewLine x y color lw)
  | CPlt (plt_scatter xs ys kw) =>
      match kw_label kw with
      | TextLabel s =>
          if String.eqb s "training data" then Some (DrewTraining xs ys kw)
          else None
      | ClassLabel _ => None
      end
  | _ => None
  end.

Definition observe_line (ev : event) : option line_obs :=
  match ev with
  | Returned c a =>
      match c return ret c -> option line_obs with
      | CObj (py_call_reg _ X) => fun y_line => Some (AskedLine X y_line)
      | c' => fun _ => drawn_of c'
      end a
  | Raised c _ => drawn_of c
  end.

(** *** The highlighted samples *)

(** Every scatter call of a log, with its coordinates and keywords. *)
Definition scatter_of (ev : event) : option (farray * farray * scatter_kw) :=
  match call_of ev with
  | CPlt (plt_scatter xs ys kw) => Some (xs, ys, kw)
  | _ => None
  end.

(** The marker size of the highlight in the two regression helpers. *)
Definition highlight_size (i : invocation) : Z :=
  match i with
  | call_plot_residuals _ _ _ _ _ _ _ _ => 75
  | _ => 100
  end.

(** *** The decision contour *)

(** The grid points in the order the classifier gets them: for every
    second coordinate, every first coordinate. *)
Definition grid_points (a1 a2 : farray) : fmat :=
  flat_map (fun v => map (fun u => [u; v]) a1) a2.

(** The coordinates of the grid along one axis, from a column of [X]. *)
Definition grid_axis (col : farray) (step : Q) (a : farray) : Prop :=
  exists lo hi,
    Np.amin col = Ok lo /\ Np.amax col = Ok hi /\
    Np.arange (lo - 1) (hi + 1) step = Ok a.

(** The entries of interest in a log of [plot_decision_regions]: the
    colormap that was built, what the classifier answered on its argument,
    and the contour call. *)
Inductive region_obs : Type :=
| MadeColormap (palette : list string) (cmap : colormap)
| AskedGrid (points : fmat) (answer : labels)
| Contour (x1 x2 : fmat) (z : label_grid) (alpha : Q) (cmap : colormap).

Definition is_region (c : call) : bool :=
  match c with
  | CPlt (mpl_ListedColormap _) => true
  | CPlt (plt_contourf _ _ _ _ _) => true
  | CObj (py_call_clf _ _) => true
  | _ => false
  end.

Definition observe_region (ev : event) : option region_obs :=
  match ev with
  | Returned c a =>
      match c return ret c -> option region_obs with
      | CPlt (mpl_ListedColormap palette) =>
          fun cmap => Some (MadeColormap palette cmap)
      | CObj (py_call_clf _ points) =>
          fun answer => Some (AskedGrid points answer)
      | CPlt (plt_contourf x1 x2 z alpha cmap) =>
          fun _ => Some (Contour x1 x2 z alpha cmap)
      | _ => fun _ => None
      end a
  | Raised _ _ => None
  end.

(** A [pyplot] function (not the colormap constructor). *)
Definition is_pyplot (c : call) : bool :=
  match c with
  | CPlt (mpl_ListedColormap _) => false
  | CPlt _ => true
  | _ => false
  end.

(** A classifier that answers with another number of labels than it was
    given samples. *)
Definition wrong_count : contract :=
  fun c =>
    match c return ret c -> Prop with
    | CObj (py_call_clf _ X) =>
        fun answer => List.length answer <> List.length X
    | _ => fun _ => True
    end.

(** *** Libraries for statements about runs that raise *)

(** numpy returns and raises exactly as the reference semantics says. *)
Definition numpy_reference {W} (h : handler W) : Prop :=
  forall c s, fst (h (CNp c) s) = np_sem c.

(** matplotlib accepts every call. *)
Definition matplotlib_accepts {W} (h : handler W) : Prop :=
  forall c s, exists a, fst (h (CPlt c) s) = Ok a.

(** A call on the supplied classifier or regressor. *)
Definition is_object_call (c : call) : bool :=
  match c with
  | CObj _ => true
  | _ => false
  end.

(** The exceptions the numpy calls of a helper can raise. *)
Definition numpy_errors (i : invocation) : list exn :=
  match i with
  | call_plot_features _ _ _ _ _ _ _ => [IndexError]
  | call_plot_predictions _ _ _ _ _ _ _ _ => [IndexError]
  | call_plot_decision_regions _ _ _ _ _ _ _ _ _ => [IndexError; ValueError]
  | call_plot_residuals _ _ _ _ _ _ _ _ => [IndexError; ValueError]
  end.

(** A call that is not of scikit-learn or [print], and that, when it is a
    numpy call, raises nothing but the [allowed] exceptions. *)
Definition raises_within (allowed : list exn) (c : call) : Prop :=
  match c with
  | CNp c' => forall e, np_sem c' = Raise e -> In e allowed
  | CSk _ => False
  | CPrint _ => False
  | _ => True
  end.

(** A classifier that answers one label too many. *)
Definition one_too_many (X : fmat) : result labels :=
  Ok (0%Z :: map (fun _ => 0%Z) X).

(** A call that puts samples on the figure, or shows it. *)
Definition draws_samples (c : call) : bool :=
  match c with
  | CPlt (plt_scatter _ _ _) => true
  | CPlt plt_show => true
  | _ => false
  end.

(** *** Decoration of the figure *)

(** The calls that label, title, caption and show the figure. *)
Definition is_decoration (c : call) : bool :=
  match c with
  | CPlt (plt_xlabel _) => true
  | CPlt (plt_ylabel _) => true
  | CPlt (plt_title _) => true
  | CPlt (plt_legend _) => true
  | CPlt plt_show => true
  | _ => false
  end.

Definition xlabel_of (i : invocation) : string :=
  match i with
  | call_plot_features _ _ _ xl _ _ _ => xl
  | call_plot_decision_regions _ _ _ _ _ xl _ _ _ => xl
  | call_plot_predictions _ _ _ _ xl _ _ _ => xl
  | call_plot_residuals _ _ _ _ xl _ _ _ => xl
  end.

Definition ylabel_of (i : invocation) : string :=
  match i with
  | call_plot_features _ _ _ _ yl _ _ => yl
  | call_plot_decision_regions _ _ _ _ _ _ yl _ _ => yl
  | call_plot_predictions _ _ _ _ _ yl _ _ => yl
  | call_plot_residuals _ _ _ _ _ yl _ _ => yl
  end.

Definition title_of (i : invocation) : option string :=
  match i with
  | call_plot_features _ _ _ _ _ ti _ => ti
  | call_plot_decision_regions _ _ _ _ _ _ _ ti _ => ti
  | call_plot_predictions _ _ _ _ _ _ ti _ => ti
  | call_plot_residuals _ _ _ _ _ _ ti _ => ti
  end.

(** The legend is drawn always by the two classification helpers, and by
    the two regression helpers when [test_idx] is not [None]. *)
Definition draws_legend (i : invocation) : bool :=
  if legend_is_optional i
  then match test_idx_of i with Some _ => true | None => false end
  else true.

Definition expected_decoration (i : invocation) : list call :=
  [CPlt (plt_xlabel (xlabel_of i)); CPlt (plt_ylabel (ylabel_of i))]
  ++ match title_of i with
     | Some t => [CPlt (plt_title t)]
     | None => []
     end
  ++ (if draws_legend i then [CPlt (plt_legend (loc_of i))] else [])
  ++ [CPlt plt_show].

(** *** What the script puts out *)

(** The output of the script: a printed line, the highlight of the test
    samples, a figure on screen. *)
Inductive script_obs : Type :=
| Printed (line : string)
| Highlighted (xs ys : farray)
| Figure.

Definition script_call (c : call) : option script_obs :=
  match c with
  | CPrint line => Some (Printed line)
  | CPlt (plt_scatter xs ys kw) =>
      if is_overlay (CPlt (plt_scatter xs ys kw))
      then Some (Highlighted xs ys) else None
  | CPlt plt_show => Some Figure
  | _ => None
  end.

Definition observe_script (ev : event) : option script_obs :=
  script_call (call_of ev).

(** The output of one turn of the loop over the classifiers. *)
Definition turn_obs (X_test_std : fmat) (line : string) : list script_obs :=
  Printed line
  :: match X_test_std with
     | [] => []
     | _ :: _ => [Highlighted (coords 0 X_test_std) (coords 1 X_test_std)]
     end
  ++ [Figure].

(** *** What the script fits, and on what *)




(** *** Indices outside the samples *)

(** An index numpy accepts for an axis of [n] entries. *)
Definition in_range (n : nat) (j : Z) : Prop :=
  (- Z.of_nat n <= j < Z.of_nat n)%Z.

(** The number of samples a helper is given. *)
Definition sample_count (i : invocation) : nat :=
  match i with
  | call_plot_features X _ _ _ _ _ _ => List.length X
  | call_plot_decision_regions X _ _ _ _ _ _ _ _ => List.length X
  | call_plot_predictions x _ _ _ _ _ _ _ => List.length x
  | call_plot_residuals X _ _ _ _ _ _ _ => List.length X
  end.

(** A regressor that answers one target per sample. *)
Definition one_target_per_sample : contract :=
  fun c =>
    match c return ret c -> Prop with
    | CObj (py_call_reg _ X) =>
        fun answer => List.length answer = List.length X
    | _ => fun _ => True
    end.

Definition highlights_or_shows (c : call) : bool :=
  (is_overlay c || is_show c)%bool.

(** *** What the script hands to [plot_decision_regions] *)

(** The data of the script on its way to the plot: the split and its
    parts, a standardization and its result, the two stacking calls and
    what they returned; and, inside [plot_decision_regions], the label
    vector handed to [np.unique], the matrix a column is taken of, and the
    rows picked by a list of indices, with the column they gave. *)
Inductive flow_obs : Type :=
| SplitParts (X : fmat) (y : labels) (X_train X_test : fmat)
    (y_train y_test : labels)
| Scaled (X X' : fmat)
| StackedSamples (A B C : fmat)
| StackedLabels (a b c : labels)
| LabelsSeen (y : labels)
| ColumnSeen (X : fmat) (c : nat)
| RowsPicked (X : fmat) (idx : list Z) (c : nat) (picked : farray).

Definition observe_flow (ev : event) : option flow_obs :=
  match ev with
  | Returned c a =>
      match c return ret c -> option flow_obs with
      | CSk (sk_train_test_split X y _ _ _) =>
          fun parts =>
            let '(X_train, X_test, y_train, y_test) := parts in
            Some (SplitParts X y X_train X_test y_train y_test)
      | CSk (sk_transform _ X) => fun X' => Some (Scaled X X')
      | CNp (np_vstack A B) => fun C => Some (StackedSamples A B C)
      | CNp (np_hstack a b) => fun c => Some (StackedLabels a b c)
      | CNp (np_unique y) => fun _ => Some (LabelsSeen y)
      | CNp (np_getitem_col X c) => fun _ => Some (ColumnSeen X c)
      | CNp (np_getitem_fancy X idx c) =>
          fun picked => Some (RowsPicked X idx c picked)
      | _ => fun _ => None
      end a
  | Raised _ _ => None
  end.

Definition is_flow (c : call) : bool :=
  match c with
  | CSk (sk_train_test_split _ _ _ _ _) => true
  | CSk (sk_transform _ _) => true
  | CNp (np_vstack _ _) => true
  | CNp (np_hstack _ _) => true
  | CNp (np_unique _) => true
  | CNp (np_getitem_col _ _) => true
  | CNp (np_getitem_fancy _ _ _) => true
  | _ => false
  end.

(** The indices [a, a + 1, ..., b - 1]. *)
Definition indices_from_to (a b : nat) : list Z :=
  map Z.of_nat (seq a (b - a)).

(** What one call of [plot_decision_regions] on [X], [y] shows of its
    arguments before it comes to [test_idx]. *)
Definition regions_seen (X : fmat) (y : labels) : list flow_obs :=
  [LabelsSeen y; ColumnSeen X 0; ColumnSeen X 0; ColumnSeen X 1;
   ColumnSeen X 1; LabelsSeen y].

(** One call of [plot_decision_regions] by the script: the combined arrays
    go in, and the rows picked by the indices are the test samples. *)
Definition regions_inputs (X_combined : fmat) (y_combined : labels)
    (idx : list Z) (X_test : fmat) : list flow_obs :=
  regions_seen X_combined y_combined
  ++ match X_test with
     | [] => []
     | _ :: _ => [RowsPicked X_combined idx 0 (coords 0 X_test);
                  RowsPicked X_combined idx 1 (coords 1 X_test)]
     end.

(** *** The helpers do not look at their data *)

Inductive helper : Type :=
| Features
| DecisionRegions
| Predictions
| Residuals.

Definition helper_of (i : invocation) : helper :=
  match i with
  | call_plot_features _ _ _ _ _ _ _ => Features
  | call_plot_decision_regions _ _ _ _ _ _ _ _ _ => DecisionRegions
  | call_plot_predictions _ _ _ _ _ _ _ _ => Predictions
  | call_plot_residuals _ _ _ _ _ _ _ _ => Residuals
  end.





(** The library function a call invokes, without the data it is given. *)
Definition call_name (c : call) : string :=
  match c with
  | CNp (np_unique _) => "np.unique"
  | CNp (np_eq _ _) => "y == label"
  | CNp (np_getitem_mask _ _ _) => "X[mask, col]"
  | CNp (np_getitem_fancy _ _ _) => "X[idx, col]"
  | CNp (np_getitem_col _ _) => "X[:, col]"
  | CNp (np_getitem_fancy1 _ _) => "a[idx]"
  | CNp (np_newaxis _) => "x[:, np.newaxis]"
  | CNp (np_min _) => "a.min"
  | CNp (np_max _) => "a.max"
  | CNp (np_min2 _) => "g.min"
  | CNp (np_max2 _) => "g.max"
  | CNp (np_arange _ _ _) => "np.arange"
  | CNp (np_meshgrid _ _) => "np.meshgrid"
  | CNp (np_ravel _) => "g.ravel"
  | CNp (np_array _) => "np.array"
  | CNp (np_T _) => "m.T"
  | CNp (np_shape _) => "g.shape"
  | CNp (np_reshape _ _) => "z.reshape"
  | CNp (np_sub _ _) => "a - b"
  | CNp (np_ne _ _) => "a != b"
  | CNp (np_sum _) => "np.sum"
  | CNp (np_vstack _ _) => "np.vstack"
  | CNp (np_hstack _ _) => "np.hstack"
  | CPlt (mpl_ListedColormap _) => "ListedColormap"
  | CPlt (plt_contourf _ _ _ _ _) => "plt.contourf"
  | CPlt (plt_scatter _ _ _) => "plt.scatter"
  | CPlt (plt_plot _ _ _ _) => "plt.plot"
  | CPlt (plt_hlines _ _ _ _ _) => "plt.hlines"
  | CPlt (plt_xlim _ _) => "plt.xlim"
  | CPlt (plt_ylim _ _) => "plt.ylim"
  | CPlt (plt_xlabel _) => "plt.xlabel"
  | CPlt (plt_ylabel _) => "plt.ylabel"
  | CPlt (plt_title _) => "plt.title"
  | CPlt (plt_legend _) => "plt.legend"
  | CPlt plt_show => "plt.show"
  | CObj (py_getattr _ name) => "." ++ name
  | CObj (py_call_clf _ _) => "classifier method"
  | CObj (py_call_reg _ _) => "regressor method"
  | CSk (data_IrisData _ _) => "IrisData"
  | CSk (sk_train_test_split _ _ _ _ _) => "train_test_split"
  | CSk sk_StandardScaler => "StandardScaler"
  | CSk (sk_scaler_fit _ _) => "scaler.fit"
  | CSk (sk_transform _ _) => "scaler.transform"
  | CSk (sk_KNeighborsClassifier _ _ _) => "KNeighborsClassifier"
  | CSk (sk_fit _ _ _) => "classifier.fit"
  | CPrint _ => "print"
  end%string.

(** The functions a log calls, in order. *)
Definition names (l : list event) : list string :=
  map (fun ev => call_name (call_of ev)) l.




(** A library that accepts every call and answers with fixed values. *)
Module Mock.

Definition np_answer (c : np_call) : np_ret c :=
  match c return np_ret c with
  | np_unique _ => [0; 1]%Z
  | np_eq _ _ => []
  | np_getitem_mask _ _ _ => []
  | np_getitem_fancy _ _ _ => []
  | np_getitem_col _ _ => []
  | np_getitem_fancy1 _ _ => []
  | np_newaxis _ => []
  | np_min _ => 0%Q
  | np_max _ => 0%Q
  | np_min2 _ => 0%Q
  | np_max2 _ => 0%Q
  | np_arange _ _ _ => []
  | np_meshgrid _ _ => ([], [])
  | np_ravel _ => []
  | np_array _ => []
  | np_T _ => []
  | np_shape _ => (0%nat, 0%nat)
  | np_reshape _ _ => []
  | np_sub _ _ => []
  | np_ne _ _ => []
  | np_sum _ => 0%Z
  | np_vstack _ _ => []
  | np_hstack _ _ => []
  end.

Definition plt_answer (c : plt_call) : plt_ret c :=
  match c return plt_ret c with
  | mpl_ListedColormap colors => ListedColormapObj colors
  | plt_contourf _ _ _ _ _ => tt
  | plt_scatter _ _ _ => tt
  | plt_plot _ _ _ _ => tt
  | plt_hlines _ _ _ _ _ => tt
  | plt_xlim _ _ => tt
  | plt_ylim _ _ => tt
  | plt_xlabel _ => tt
  | plt_ylabel _ => tt
  | plt_title _ => tt
  | plt_legend _ => tt
  | plt_show => tt
  end.

Definition obj_answer (c : obj_call) : obj_ret c :=
  match c return obj_ret c with
  | py_getattr o name => BoundMethod o name
  | py_call_clf _ _ => []
  | py_call_reg _ _ => []
  end.

Definition sk_answer (c : sk_call) : sk_ret c :=
  match c return sk_ret c with
  | data_IrisData _ _ => ([], [])
  | sk_train_test_split _ _ _ _ _ => ([], [], [], [])
  | sk_StandardScaler => Obj 0
  | sk_scaler_fit sc _ => sc
  | sk_transform _ _ => []
  | sk_KNeighborsClassifier _ _ _ => Obj 0
  | sk_fit o _ _ => o
  end.

Definition answer (c : call) : ret c :=
  match c return ret c with
  | CNp c => np_answer c
  | CPlt c => plt_answer c
  | CObj c => obj_answer c
  | CSk c => sk_answer c
  | CPrint _ => tt
  end.

Definition lib : handler unit := fun c s => (Ok (answer c), s).

End Mock.

(** *** The helpers are independent *)

(** A library whose answers do not depend on its state. *)
Definition stateless {W} (h : handler W) : Prop :=
  forall c s s', fst (h c s) = fst (h c s').

(** Calls that tell the helpers apart: each helper starts with one of
    them, ends with [plt.show()], and makes the others in its own order. *)
Inductive landmark : Type :=
| AtUnique
| AtLookup
| AtPlot
| AtHlines
| AtXlim
| AtShow.

Definition landmark_of (c : call) : option landmark :=
  match c with
  | CNp (np_unique _) => Some AtUnique
  | CObj (py_getattr _ _) => Some AtLookup
  | CPlt (plt_plot _ _ _ _) => Some AtPlot
  | CPlt (plt_hlines _ _ _ _ _) => Some AtHlines
  | CPlt (plt_xlim _ _) => Some AtXlim
  | CPlt plt_show => Some AtShow
  | _ => None
  end.

Definition landmarks (l : list event) : list landmark :=
  pick (fun ev => landmark_of (call_of ev)) l.

(** The landmarks of a complete run of each helper. *)
Definition signature (k : helper) : list landmark :=
  match k with
  | Features => [AtUnique; AtShow]
  | DecisionRegions => [AtUnique; AtLookup; AtUnique; AtXlim; AtShow]
  | Predictions => [AtLookup; AtPlot; AtShow]
  | Residuals => [AtLookup; AtHlines; AtShow]
  end.

(** Calls that satisfy [f] are made only as the last call of a program. *)
Inductive only_last {R} (f : call -> bool) : prog R -> Prop :=
| only_last_Ret r : only_last f (Ret r)
| only_last_end c k :
    (forall a, exists r, k a = Ret r) -> only_last f (Call c k)
| only_last_Call c k :
    f c = false -> (forall a, only_last f (k a)) -> only_last f (Call c k).

(** ** Soundness of the reasoning principles *)

Section Theory.

Variable W : Type.
Variable h : handler W.

Lemma wp_sound R (Q : contract) (p : prog R) post s g r :
  respects h Q ->
  wp Q p post -> res (run h p s g) = Ok r -> post (log (run h p s g)) r.
Proof.
  intros HQ. revert post s g r.
  induction p as [r0|c k IH|e|n k IH|n v k IH]; intros post s g r Hwp Hres.
  - simpl in *. inversion Hres; subst. exact Hwp.
  - simpl in *. destruct (h c s) as [[a|e] s'] eqn:E.
    + simpl in *. apply (IH a (fun l r => post (Returned c a :: l) r)).
      * apply Hwp. eapply HQ; eauto.
      * exact Hres.
    + simpl in Hres. discriminate.
  - simpl in Hres. discriminate.
  - simpl in *. apply IH; auto.
  - simpl in *. apply IH; auto.
Qed.

Lemma guarded_log R P Q (p : prog R) :
  respects h Q -> guarded P Q p ->
  forall s g, Forall (fun ev => P (call_of ev)) (log (run h p s g)).
Proof.
  intros HQ Hg. induction Hg as [r|c k Hc Hk IH]; intros s g; simpl.
  - constructor.
  - destruct (h c s) as [[a|e] s'] eqn:E; simpl.
    + constructor; [exact Hc|]. apply IH. eapply HQ; eauto.
    + constructor; [exact Hc|constructor].
Qed.

(** A run of a guarded program either returns with every call answered,
    or stops at the first call that raised, with that call's exception. *)
Lemma guarded_outcome R P (p : prog R) :
  guarded P any_library p ->
  forall s g,
    let o := run h p s g in
    (exists r, res o = Ok r /\ forallb returned (log o) = true) \/
    (exists pre c e, res o = Raise e /\ log o = pre ++ [Raised c e] /\
                     forallb returned pre = true).
Proof.
  intros Hg. induction Hg as [r|c k Hc Hk IH]; intros s g; simpl.
  - left. exists r. auto.
  - destruct (h c s) as [[a|e] s'] eqn:E; simpl.
    + destruct (IH a I s' g) as [(r & Hr & Hl)|(pre & c' & e & Hr & Hl & Hp)].
      * left. exists r. simpl. auto.
      * right. exists (Returned c a :: pre), c', e. simpl.
        rewrite Hl. auto.
    + right. exists [], c, e. auto.
Qed.

(** The module-level variables are neither read nor written. *)
Lemma guarded_globals R P (p : prog R) :
  guarded P any_library p ->
  forall s g g',
    mod_state (run h p s g) = g /\
    res (run h p s g') = res (run h p s g) /\
    log (run h p s g') = log (run h p s g) /\
    lib_state (run h p s g') = lib_state (run h p s g).
Proof.
  intros Hg. induction Hg as [r|c k Hc Hk IH]; intros s g g'; simpl.
  - auto.
  - destruct (h c s) as [[a|e] s'] eqn:E; simpl.
    + destruct (IH a I s' g g') as (H1 & H2 & H3 & H4).
      rewrite H1, H2, H3, H4. auto.
    + auto.
Qed.

(** Two libraries that answer alike on the calls a guarded program may
    make cannot be told apart by it. *)
Lemma guarded_agree R P (p : prog R) (h' : handler W) :
  guarded P any_library p ->
  (forall c s, P c -> h' c s = h c s) ->
  forall s g, run h' p s g = run h p s g.
Proof.
  intros Hg Hh. induction Hg as [r|c k Hc Hk IH]; intros s g; simpl.
  - reflexivity.
  - rewrite (Hh c s Hc). destruct (h c s) as [[a|e] s'] eqn:E; simpl.
    + rewrite (IH a I). reflexivity.
    + reflexivity.
Qed.

Lemma at_most_log R n (p : prog R) :
  at_most n p -> forall s g, (List.length (log (run h p s g)) <= n)%nat.
Proof.
  intros Hn. induction Hn as [n r|n e|n c k Hk IH|n name k Hk IH|n name v k Hk IH];
    intros s g; simpl.
  - lia.
  - lia.
  - destruct (h c s) as [[a|e] s'] eqn:E; simpl.
    + specialize (IH a s' g). lia.
    + lia.
  - apply IH.
  - apply IH.
Qed.

End Theory.

(** *** Structural rules *)

Lemma wp_mono R Q (p : prog R) (post post' : list event -> R -> Prop) :
  (forall l r, post l r -> post' l r) -> wp Q p post -> wp Q p post'.
Proof.
  revert post post'. induction p as [r0|c k IH|e|n k IH|n v k IH];
    intros post post' Himp Hwp; simpl in *.
  - auto.
  - intros a Ha. eapply IH; [|apply Hwp; exact Ha]. simpl. auto.
  - exact I.
  - intros v. eapply IH; eauto.
  - eapply IH; eauto.
Qed.

Lemma wp_bind A B Q (p : prog A) (f : A -> prog B) post :
  wp Q p (fun l a => wp Q (f a) (fun l' r => post (l ++ l') r)) ->
  wp Q (bind p f) post.
Proof.
  revert post. induction p as [r0|c k IH|e|n k IH|n v k IH];
    intros post Hwp; simpl in *.
  - exact Hwp.
  - intros a Ha. apply IH. exact (Hwp a Ha).
  - exact I.
  - intros v. apply IH. apply Hwp.
  - apply IH. exact Hwp.
Qed.

Lemma guarded_bind A B P Q (p : prog A) (f : A -> prog B) :
  guarded P Q p -> (forall a, guarded P Q (f a)) -> guarded P Q (bind p f).
Proof.
  intros Hp Hf. induction Hp as [r|c k Hc Hk IH]; simpl.
  - apply Hf.
  - constructor; auto.
Qed.

Lemma guarded_for_each A P Q (l : list A) (body : A -> prog unit) :
  (forall v, guarded P Q (body v)) -> guarded P Q (for_each l body).
Proof.
  intros Hb. induction l as [|v l IH]; simpl.
  - constructor.
  - apply guarded_bind; auto.
Qed.

(** A guarded program that returns has made only calls that satisfy [P]. *)
Lemma guarded_wp R P Q (p : prog R) :
  guarded P Q p ->
  wp Q p (fun l _ => Forall (fun ev => P (call_of ev)) l).
Proof.
  intros Hg. induction Hg as [r|c k Hc Hk IH]; simpl.
  - constructor.
  - intros a Ha. eapply wp_mono; [|apply IH; exact Ha].
    simpl. intros l _ Hl. constructor; auto.
Qed.

Lemma at_most_le R n m (p : prog R) :
  at_most n p -> (n <= m)%nat -> at_most m p.
Proof.
  intros Hn. revert m.
  induction Hn as [n r|n e|n c k Hk IH|n name k Hk IH|n name v k Hk IH];
    intros m Hle.
  - constructor.
  - constructor.
  - destruct m as [|m]; [lia|]. constructor. intros a. apply IH. lia.
  - constructor. intros v. apply IH. exact Hle.
  - constructor. apply IH. exact Hle.
Qed.

Lemma at_most_bind A B n m (p : prog A) (f : A -> prog B) :
  at_most n p -> (forall a, at_most m (f a)) -> at_most (n + m) (bind p f).
Proof.
  intros Hp Hf.
  induction Hp as [n r|n e|n c k Hk IH|n name k Hk IH|n name v k Hk IH]; simpl.
  - eapply at_most_le; [apply Hf|lia].
  - constructor.
  - constructor. exact IH.
  - constructor. exact IH.
  - constructor. exact IH.
Qed.

Lemma at_most_for_each A n (l : list A) (body : A -> prog unit) :
  (forall v, at_most n (body v)) ->
  at_most (List.length l * n) (for_each l body).
Proof.
  intros Hb. induction l as [|v l IH]; simpl.
  - constructor.
  - apply at_most_bind; auto.
Qed.

(** Steps through a program to establish [guarded]; [tac] settles the side
    conditions on the calls. *)
Ltac guard_step tac :=
  match goal with
  | |- guarded _ _ (Ret _) => constructor
  | |- guarded _ _ (Call _ _) =>
      constructor; [try solve [tac] | intros ? ?; cbn [bind]]
  | |- guarded _ _ (bind _ _) => apply guarded_bind; [|intros ?; cbn [bind]]
  | |- guarded _ _ (for_each _ _) => apply guarded_for_each; intros ?
  | |- guarded _ _ (match ?x with _ => _ end) =>
      first [progress cbv iota | destruct x]
  end.

Ltac walk tac :=
  unfold plot_utility.plot_training_data, plot_utility.plot_test_data,
    plot_utility.mark_test_data, plot_utility.set_title,
    plot_utility.legend_if_given, call_; cbn [bind];
  repeat guard_step tac.


(** Every helper is built from library calls alone. *)
Lemma body_guarded (i : invocation) :
  guarded (fun _ => True) any_library (body i).
Proof.
  destruct i; simpl;
    [unfold plot_utility.plot_features
    |unfold plot_utility.plot_decision_regions
    |unfold plot_utility.plot_predictions
    |unfold plot_utility.plot_residuals];
    walk ltac:(exact I).
Qed.

(** *** Counting calls *)

Lemma at_most_seq A B n N (p : prog A) (f : A -> prog B) :
  at_most n p -> (n <= N)%nat -> (forall a, at_most (N - n) (f a)) ->
  at_most N (bind p f).
Proof.
  intros Hp Hle Hf. eapply at_most_le; [eapply at_most_bind; eauto|lia].
Qed.

Lemma zip3_length A B C (a : list A) (b : list B) (c : list C) :
  List.length (plot_utility.zip3 a b c)
  = Nat.min (Nat.min (List.length a) (List.length b)) (List.length c).
Proof. unfold plot_utility.zip3. rewrite !length_combine. reflexivity. Qed.

Ltac count_step :=
  match goal with
  | |- at_most _ (Ret _) => constructor
  | |- at_most _ (Call _ _) => constructor; intros ?; cbn [bind]
  | |- at_most _ (match ?x with _ => _ end) =>
      first [progress cbv iota | destruct x]
  end.

Ltac count := unfold call_; cbn [bind]; repeat count_step.

Lemma plot_training_data_at_most X y :
  at_most 21 (plot_utility.plot_training_data X y).
Proof.
  unfold plot_utility.plot_training_data, call_; cbn [bind].
  constructor. intros uniq.
  eapply at_most_le; [apply at_most_for_each with (n := 4%nat)|].
  - intros v. count.
  - rewrite zip3_length.
    change (List.length plot_utility.colors) with 5%nat.
    change (List.length plot_utility.markers) with 5%nat.
    lia.
Qed.

Lemma plot_test_data_at_most X t : at_most 3 (plot_utility.plot_test_data X t).
Proof. unfold plot_utility.plot_test_data. count. Qed.

Lemma mark_test_data_at_most xs ys t n :
  at_most 3 (plot_utility.mark_test_data xs ys t n).
Proof. unfold plot_utility.mark_test_data. count. Qed.

Lemma set_title_at_most t : at_most 1 (plot_utility.set_title t).
Proof. unfold plot_utility.set_title. count. Qed.

Lemma legend_if_given_at_most t loc :
  at_most 1 (plot_utility.legend_if_given t loc).
Proof. unfold plot_utility.legend_if_given. count. Qed.

Ltac count_pieces :=
  unfold call_; cbn [bind];
  repeat first
    [ count_step
    | eapply at_most_seq;
      [ first [ apply plot_training_data_at_most
              | apply plot_test_data_at_most
              | apply mark_test_data_at_most
              | apply set_title_at_most
              | apply legend_if_given_at_most ]
      | simpl; lia
      | intros ?; cbn [bind Nat.sub] ] ].

Lemma body_at_most (i : invocation) : at_most (call_budget i) (body i).
Proof.
  destruct i; simpl;
    [unfold plot_utility.plot_features
    |unfold plot_utility.plot_decision_regions
    |unfold plot_utility.plot_predictions
    |unfold plot_utility.plot_residuals];
    count_pieces.
Qed.

(** ** Errors, termination and independence of the helpers *)

(** C6.  A helper is one pass over its arguments: every run ends, returning
    or raising, after at most [call_budget] library calls, a number that
    does not depend on the arguments; the only repetition, the loop over
    the zipped colours, markers and labels, runs at most five times. *)
Theorem helpers_single_pass (i : invocation) W (h : handler W) s g :
  let o := run h (body i) s g in
  (res o = Ok tt \/ exists e, res o = Raise e) /\
  (List.length (log o) <= call_budget i)%nat /\
  (call_budget i <= 57)%nat /\
  forall y : labels,
    (List.length (plot_utility.zip3 plot_utility.colors plot_utility.markers
                    (Np.unique y)) <= 5)%nat.
Proof.
  simpl. split; [|split; [|split]].
  - destruct (res (run h (body i) s g)) as [[]|e]; eauto.
  - apply at_most_log. apply body_at_most.
  - destruct i; simpl; lia.
  - intros y. rewrite zip3_length.
    change (List.length plot_utility.colors) with 5%nat. lia.
Qed.


(** *** The predictor object *)

Ltac object_side :=
  simpl in *; subst; auto.

Lemma body_only_predict (i : invocation) (o : obj) :
  predictor_of i = Some o ->
  guarded (uses_only_predict o) lookup_contract (body i).
Proof.
  destruct i; simpl; intros Ho; inversion Ho; subst;
    [unfold plot_utility.plot_decision_regions
    |unfold plot_utility.plot_predictions
    |unfold plot_utility.plot_residuals];
    walk object_side.
Qed.

Lemma body_no_other_attribute (i : invocation) :
  guarded (fun c => other_attribute c = false) any_library (body i).
Proof.
  destruct i; simpl;
    [unfold plot_utility.plot_features
    |unfold plot_utility.plot_decision_regions
    |unfold plot_utility.plot_predictions
    |unfold plot_utility.plot_residuals];
    walk ltac:(reflexivity).
Qed.

(** C5.  Of the classifier or regressor it is given, a helper uses the
    [predict] operation and nothing else: the only attribute it looks up is
    [predict] of that object and the only method it calls is that bound
    method; and a library that differs only in what other attribute lookups
    do (an object that exposes [predict] alone raises on them) gives the
    same run. *)
Theorem helpers_use_predict_only (i : invocation) (o : obj) W (h h' : handler W) s g :
  predictor_of i = Some o ->
  respects h lookup_contract ->
  (forall c s, other_attribute c = false -> h' c s = h c s) ->
  Forall (fun ev => uses_only_predict o (call_of ev)) (log (run h (body i) s g))
  /\ run h' (body i) s g = run h (body i) s g.
Proof.
  intros Ho Hh Hagree. split.
  - apply guarded_log with (Q := lookup_contract); [exact Hh|].
    apply body_only_predict. exact Ho.
  - apply guarded_agree with (P := fun c => other_attribute c = false).
    + apply body_no_other_attribute.
    + exact Hagree.
Qed.

(** ** Completed runs *)

Lemma pick_app T (f : event -> option T) l l' :
  pick f (l ++ l') = pick f l ++ pick f l'.
Proof. unfold pick. apply flat_map_app. Qed.

Lemma pick_none T (f : event -> option T) l :
  Forall (fun ev => f ev = None) l -> pick f l = [].
Proof.
  induction 1 as [|ev l Hev _ IH]; simpl; [reflexivity|].
  rewrite Hev. exact IH.
Qed.

Lemma calls_where_app f l l' :
  calls_where f (l ++ l') = calls_where f l ++ calls_where f l'.
Proof. unfold calls_where. rewrite map_app, filter_app. reflexivity. Qed.

Lemma calls_where_none f l :
  Forall (fun ev => f (call_of ev) = false) l -> calls_where f l = [].
Proof.
  unfold calls_where. induction 1 as [|ev l Hev _ IH]; simpl; [reflexivity|].
  rewrite Hev. exact IH.
Qed.

(** Skipping over a piece of a program whose calls all satisfy [P]. *)
Lemma wp_skip A B P Q (p : prog A) (f : A -> prog B) post :
  guarded P Q p ->
  (forall l a, Forall (fun ev => P (call_of ev)) l ->
               wp Q (f a) (fun l' r => post (l ++ l') r)) ->
  wp Q (bind p f) post.
Proof.
  intros Hg Hf. apply wp_bind. eapply wp_mono; [|apply (guarded_wp Hg)].
  simpl. intros l a Hl. apply Hf. exact Hl.
Qed.

Ltac wp_step :=
  match goal with
  | |- wp _ (Ret _) _ => cbn [wp]
  | |- wp _ (Call _ _) _ => cbn [wp bind]; intros
  | |- wp _ (match ?x with _ => _ end) _ =>
      first [progress cbv iota | destruct x]; cbn [wp bind]; intros
  | |- wp _ (bind (match ?x with _ => _ end) _) _ =>
      first [progress cbv iota | destruct x]; cbn [wp bind]; intros
  end.

Ltac unfold_helpers :=
  unfold plot_utility.plot_features, plot_utility.plot_decision_regions,
    plot_utility.plot_predictions, plot_utility.plot_residuals.

Ltac unfold_pieces :=
  unfold plot_utility.plot_test_data,
    plot_utility.mark_test_data, plot_utility.set_title,
    plot_utility.legend_if_given, call_; cbn [bind].

(** *** The guard on [test_idx] *)

Lemma calls_where_skip f ev l :
  f (call_of ev) = false -> calls_where f (ev :: l) = calls_where f l.
Proof. unfold calls_where. simpl. intros ->. reflexivity. Qed.

Lemma calls_where_keep f ev l :
  f (call_of ev) = true ->
  calls_where f (ev :: l) = call_of ev :: calls_where f l.
Proof. unfold calls_where. simpl. intros ->. reflexivity. Qed.

Lemma pick_skip T (f : event -> option T) ev l :
  f ev = None -> pick f (ev :: l) = pick f l.
Proof. unfold pick. simpl. intros ->. reflexivity. Qed.

Lemma pick_keep T (f : event -> option T) ev l t :
  f ev = Some t -> pick f (ev :: l) = t :: pick f l.
Proof. unfold pick. simpl. intros ->. reflexivity. Qed.

Lemma calls_where_nil f : calls_where f [] = [].
Proof. reflexivity. Qed.

Lemma pick_nil T (f : event -> option T) : pick f [] = [].
Proof. reflexivity. Qed.

(** Brings [calls_where f (e1 :: ... :: (l ++ ...))] to the calls selected
    from the unknown pieces. *)
Ltac read_log :=
  repeat first
    [ rewrite calls_where_skip by reflexivity
    | rewrite calls_where_keep by reflexivity
    | rewrite pick_skip by reflexivity
    | erewrite pick_keep by reflexivity
    | rewrite calls_where_app
    | rewrite pick_app
    | rewrite calls_where_nil
    | rewrite pick_nil ];
  cbn [app call_of].

Ltac skip_piece pred tac :=
  apply wp_skip with (P := pred);
  [ unfold plot_utility.plot_training_data; walk tac
  | intros; cbn [bind] ].

Ltac wp_walk pred tac :=
  unfold_helpers; unfold_pieces;
  repeat first
    [ wp_step
    | match goal with
      | |- wp _ (bind (plot_utility.plot_training_data _ _) _) _ =>
          skip_piece pred tac
      end ].

Lemma no_overlay_without_indices (i : invocation) :
  test_idx_of i = None \/ test_idx_of i = Some [] ->
  guarded (fun c => is_overlay c = false) any_library (body i).
Proof.
  destruct i; cbn [body test_idx_of]; intros [Ht|Ht]; subst; unfold_helpers;
    walk ltac:(reflexivity).
Qed.

Lemma no_legend_without_argument (i : invocation) :
  legend_is_optional i = true -> test_idx_of i = None ->
  guarded (fun c => is_legend c = false) any_library (body i).
Proof.
  destruct i; cbn [body test_idx_of legend_is_optional]; intros Hopt Ht;
    try discriminate; subst; unfold_helpers; walk ltac:(reflexivity).
Qed.

Lemma one_legend_with_empty_list (i : invocation) :
  legend_is_optional i = true -> test_idx_of i = Some [] ->
  wp any_library (body i)
     (fun l _ => calls_where is_legend l = [CPlt (plt_legend (loc_of i))]).
Proof.
  destruct i; cbn [body test_idx_of legend_is_optional loc_of]; intros Hopt Ht;
    try discriminate; subst; unfold_helpers;
    unfold_pieces; repeat wp_step; reflexivity.
Qed.

Lemma one_overlay_with_indices (i : invocation) j rest :
  test_idx_of i = Some (j :: rest) ->
  wp any_library (body i)
     (fun l _ => List.length (calls_where is_overlay l) = 1%nat).
Proof.
  destruct i; cbn [body test_idx_of]; intros Ht; subst;
    wp_walk (fun c => is_overlay c = false) ltac:(reflexivity);
    read_log;
    repeat match goal with
      | H : Forall _ _ |- _ => rewrite (calls_where_none _ H); clear H
      end;
    reflexivity.
Qed.

Lemma respects_any W (h : handler W) : respects h any_library.
Proof. intros c s a s' _. exact I. Qed.

Lemma test_idx_of_with i t : test_idx_of (with_test_idx i t) = t.
Proof. destruct i; reflexivity. Qed.

Lemma legend_is_optional_with i t :
  legend_is_optional (with_test_idx i t) = legend_is_optional i.
Proof. destruct i; reflexivity. Qed.

Lemma loc_of_with i t : loc_of (with_test_idx i t) = loc_of i.
Proof. destruct i; reflexivity. Qed.

(** C8.  The overlay is guarded by the truth value of [test_idx], the
    legend of [plot_predictions] and [plot_residuals] by [test_idx is not
    None].  With [test_idx=[]] and with [test_idx=None] no helper draws the
    highlight of the test samples; in the two regression helpers
    [test_idx=None] draws no legend, while [test_idx=[]] still draws it
    (once, at [loc]) in every run that returns.  A non-empty list draws the
    highlight once in every run that returns. *)
Theorem empty_test_idx_guard (i : invocation) W (h : handler W) s g :
  let o_empty := run h (body (with_test_idx i (Some []))) s g in
  let o_none := run h (body (with_test_idx i None)) s g in
  calls_where is_overlay (log o_empty) = [] /\
  calls_where is_overlay (log o_none) = [] /\
  (legend_is_optional i = true ->
   calls_where is_legend (log o_none) = [] /\
   (res o_empty = Ok tt ->
    calls_where is_legend (log o_empty) = [CPlt (plt_legend (loc_of i))])) /\
  (forall j rest,
      let o := run h (body (with_test_idx i (Some (j :: rest)))) s g in
      res o = Ok tt -> List.length (calls_where is_overlay (log o)) = 1%nat).
Proof.
  cbv zeta. split; [|split; [|split]].
  - apply calls_where_none.
    apply guarded_log with (P := fun c => is_overlay c = false)
                           (Q := any_library); [apply respects_any|].
    apply no_overlay_without_indices. right. apply test_idx_of_with.
  - apply calls_where_none.
    apply guarded_log with (P := fun c => is_overlay c = false)
                           (Q := any_library); [apply respects_any|].
    apply no_overlay_without_indices. left. apply test_idx_of_with.
  - intros Hopt. split.
    + apply calls_where_none.
      apply guarded_log with (P := fun c => is_legend c = false)
                             (Q := any_library); [apply respects_any|].
      apply no_legend_without_argument.
      * rewrite legend_is_optional_with. exact Hopt.
      * apply test_idx_of_with.
    + intros Hres.
      rewrite <- (loc_of_with i (Some [])).
      apply wp_sound
        with (Q := any_library) (r := tt)
             (post := fun l _ =>
                calls_where is_legend l
                = [CPlt (plt_legend (loc_of (with_test_idx i (Some []))))]).
      * apply respects_any.
      * apply one_legend_with_empty_list.
        -- rewrite legend_is_optional_with. exact Hopt.
        -- apply test_idx_of_with.
      * exact Hres.
  - intros j rest Hres.
    apply wp_sound
      with (Q := any_library) (r := tt)
           (post := fun l _ => List.length (calls_where is_overlay l) = 1%nat).
    + apply respects_any.
    + apply one_overlay_with_indices with (j := j) (rest := rest).
      apply test_idx_of_with.
    + exact Hres.
Qed.

(** ** The training-data scatter calls *)

(** *** [np.unique] *)

Lemma insert_In z l x : In x (Np.insert z l) <-> x = z \/ In x l.
Proof.
  induction l as [|h t IH]; simpl.
  - intuition.
  - destruct (z <? h)%Z eqn:E1; [simpl; intuition|].
    destruct (z =? h)%Z eqn:E2.
    + apply Z.eqb_eq in E2. subst. simpl. intuition.
    + simpl. rewrite IH. intuition.
Qed.

Lemma unique_In y x : In x (Np.unique y) <-> In x y.
Proof.
  induction y as [|v y IH]; simpl.
  - tauto.
  - rewrite insert_In, IH. intuition.
Qed.

Lemma insert_sorted z l :
  StronglySorted Z.lt l -> StronglySorted Z.lt (Np.insert z l).
Proof.
  induction 1 as [|h t Hs IH Hh]; simpl.
  - constructor; constructor.
  - destruct (z <? h)%Z eqn:E1.
    + apply Z.ltb_lt in E1. constructor.
      * constructor; assumption.
      * constructor; [exact E1|].
        eapply Forall_impl; [|exact Hh]. intros a Ha. lia.
    + destruct (z =? h)%Z eqn:E2.
      * constructor; assumption.
      * apply Z.ltb_ge in E1. apply Z.eqb_neq in E2.
        constructor; [exact IH|].
        apply Forall_forall. intros a Ha. apply insert_In in Ha.
        destruct Ha as [->|Ha]; [lia|].
        rewrite Forall_forall in Hh. auto.
Qed.

Lemma unique_sorted y : StronglySorted Z.lt (Np.unique y).
Proof.
  induction y as [|v y IH]; simpl; [constructor|].
  apply insert_sorted. exact IH.
Qed.

Lemma sorted_NoDup l : StronglySorted Z.lt l -> NoDup l.
Proof.
  induction 1 as [|h t Hs IH Hh]; constructor; [|exact IH].
  intros Hin. rewrite Forall_forall in Hh. specialize (Hh h Hin). lia.
Qed.

Lemma unique_NoDup y : NoDup (Np.unique y).
Proof. apply sorted_NoDup, unique_sorted. Qed.

(** *** Selection by [y == label] *)

Lemma column_coords X c col : Np.column X c = Ok col -> col = coords c X.
Proof.
  revert col. induction X as [|row X IH]; simpl; intros col H.
  - inversion H. reflexivity.
  - destruct (nth_error row c) as [v|] eqn:E; [|discriminate].
    destruct (Np.column X c) as [vs|e]; simpl in H; [|discriminate].
    inversion H; subst. rewrite (IH vs eq_refl).
    rewrite (nth_error_nth _ _ 0%Q E). reflexivity.
Qed.

Lemma select_rows (g : list Q -> Q) X y l :
  Np.select (Np.eq_scalar y l) (map g X) = map g (rows_with_label X y l).
Proof.
  unfold rows_with_label, Np.eq_scalar.
  revert X. induction y as [|v y IH]; intros [|row X]; simpl; try reflexivity.
  destruct (v =? l)%Z; simpl; rewrite IH; reflexivity.
Qed.

Lemma getitem_mask_rows X y l c xs :
  Np.getitem_mask X (Np.eq_scalar y l) c = Ok xs ->
  xs = coords c (rows_with_label X y l).
Proof.
  unfold Np.getitem_mask. destruct (Nat.eqb _ _); [|discriminate].
  destruct (Np.column X c) as [col|e] eqn:E; simpl; [|discriminate].
  intros H. inversion H; subst. rewrite (column_coords _ _ E).
  apply select_rows.
Qed.

(** *** The loop *)

Lemma training_loop_wp X y zs :
  wp numpy_contract
     (for_each zs (fun '(color, marker, label) =>
        bind (call_ (CNp (np_eq y label))) (fun plot_index =>
        bind (call_ (CNp (np_getitem_mask X plot_index 0))) (fun xs =>
        bind (call_ (CNp (np_getitem_mask X plot_index 1))) (fun ys =>
        call_ (CPlt (plt_scatter xs ys (plot_utility.class_kw color marker label))))))))
     (fun l _ => calls_where is_class_scatter l = map (class_scatter X y) zs).
Proof.
  induction zs as [|[[color marker] label] zs IH]; cbn [for_each].
  - reflexivity.
  - unfold call_ at 1 2 3 4. cbn [bind]. repeat wp_step.
    eapply wp_mono; [|exact IH]. cbv beta. intros l _ Hl.
    simpl in H, H0, H1. inversion H; subst.
    apply getitem_mask_rows in H0, H1. subst.
    read_log. cbn. rewrite Hl. reflexivity.
Qed.

Lemma plot_training_data_wp X y :
  wp numpy_contract (plot_utility.plot_training_data X y)
     (fun l _ => calls_where is_class_scatter l = expected_training X y).
Proof.
  unfold plot_utility.plot_training_data. unfold call_ at 1. cbn [bind].
  wp_step. simpl in H. inversion H; subst.
  eapply wp_mono; [|apply training_loop_wp]. cbv beta. intros l _ Hl.
  read_log. cbn. exact Hl.
Qed.

Ltac forget_pieces :=
  repeat match goal with
    | H : Forall _ _ |- _ => rewrite (calls_where_none _ H); clear H
    end.

Lemma body_training_wp (i : invocation) X y :
  samples_of i = Some (X, y) ->
  wp numpy_contract (body i)
     (fun l _ => calls_where is_class_scatter l = expected_training X y).
Proof.
  destruct i; cbn [body samples_of]; intros Hs; inversion Hs; subst;
    unfold_helpers; unfold call_; cbn [bind]; repeat wp_step;
    (apply wp_bind; eapply wp_mono; [|apply plot_training_data_wp];
     cbv beta; intros l _ Hl);
    (apply wp_skip with (P := fun c => is_class_scatter c = false);
     [walk ltac:(reflexivity)|intros; cbn [bind]]);
    unfold_pieces; repeat wp_step;
    read_log; cbn; forget_pieces; rewrite Hl, app_nil_r; reflexivity.
Qed.

Lemma zip3_labels (u : labels) :
  map (fun z : string * string * Z => snd z)
      (plot_utility.zip3 plot_utility.colors plot_utility.markers u)
  = firstn 5 u.
Proof.
  unfold plot_utility.zip3, plot_utility.colors, plot_utility.markers.
  do 5 (destruct u as [|? u]; [reflexivity|]). reflexivity.
Qed.

Lemma plotted_labels_calls l :
  plotted_labels l
  = flat_map (fun c => match class_of c with Some z => [z] | None => [] end)
             (calls_where is_class_scatter l).
Proof.
  unfold plotted_labels, pick, calls_where.
  induction l as [|ev l IH]; simpl; [reflexivity|].
  rewrite IH. destruct (call_of ev) as [c|c|c|c|line]; simpl; try reflexivity.
  destruct c; simpl; try reflexivity.
  destruct (kw_label kw) eqn:E; simpl; rewrite ?E; reflexivity.
Qed.

Lemma expected_training_labels X y :
  flat_map (fun c => match class_of c with Some z => [z] | None => [] end)
           (expected_training X y)
  = firstn 5 (Np.unique y).
Proof.
  rewrite <- zip3_labels. unfold expected_training.
  induction (plot_utility.zip3 _ _ _) as [|[[c m] l] zs IH]; simpl;
    [reflexivity|]. rewrite IH. reflexivity.
Qed.

(** C1 (as amended).  In every run of [plot_features] or
    [plot_decision_regions] that returns, against a numpy that behaves as
    the reference semantics, the scatter calls of the training data are, in
    order, one for each of the first five distinct labels of [y] in
    ascending order, and the points of the call for a label are exactly the
    rows of [X] whose entry of [y] equals that label.  [np.unique(y)] holds
    every label of [y] once; so when [y] has at most five distinct labels
    there is one call per distinct label. *)
Theorem training_scatter_per_label (i : invocation) X y W (h : handler W) s g :
  samples_of i = Some (X, y) ->
  respects h numpy_contract ->
  res (run h (body i) s g) = Ok tt ->
  let l := log (run h (body i) s g) in
  calls_where is_class_scatter l = expected_training X y /\
  plotted_labels l = firstn 5 (Np.unique y) /\
  NoDup (Np.unique y) /\
  (forall lab, In lab (Np.unique y) <-> In lab y) /\
  ((List.length (Np.unique y) <= 5)%nat ->
   plotted_labels l = Np.unique y /\ scatter_for_every_label y l).
Proof.
  intros Hs Hh Hres l.
  assert (Hl : calls_where is_class_scatter l = expected_training X y).
  { apply wp_sound
      with (Q := numpy_contract) (r := tt)
           (post := fun l _ => calls_where is_class_scatter l
                               = expected_training X y).
    - exact Hh.
    - apply body_training_wp. exact Hs.
    - exact Hres. }
  assert (Hp : plotted_labels l = firstn 5 (Np.unique y)).
  { rewrite plotted_labels_calls, Hl. apply expected_training_labels. }
  split; [exact Hl|]. split; [exact Hp|].
  split; [apply unique_NoDup|]. split; [intros lab; apply unique_In|].
  intros Hle. rewrite firstn_all2 in Hp by exact Hle. split; [exact Hp|].
  intros lab Hin. rewrite Hp. apply unique_In. exact Hin.
Qed.

(** *** The reference library keeps the contracts *)

Lemma ref_handler_numpy exposes clf reg ds hold :
  respects (ref_handler exposes clf reg ds hold) numpy_contract.
Proof.
  intros c s a s' H. destruct c; simpl; auto.
  unfold ref_handler in H. inversion H. reflexivity.
Qed.

Lemma ref_handler_lookup exposes clf reg ds hold :
  respects (ref_handler exposes clf reg ds hold) lookup_contract.
Proof.
  intros c s a s' H. destruct c as [c|c|c|c|line]; simpl; auto.
  destruct c as [o name|m X|m X]; simpl; auto.
  unfold ref_handler in H. simpl in H.
  destruct (exposes name); inversion H. reflexivity.
Qed.

Lemma training_scatter_per_label_witness :
  plotted_labels (log (run (Samples.lib Samples.predict_only)
                           (body Samples.features3) tt []))
  = firstn 5 (Np.unique Samples.three_labels).
Proof.
  refine (proj1 (proj2
    (@training_scatter_per_label Samples.features3 Samples.three_points
       Samples.three_labels unit (Samples.lib Samples.predict_only) tt [] _ _ _))).
  - reflexivity.
  - apply ref_handler_numpy.
  - vm_compute. reflexivity.
Defined.

(** C1 as stated fails on six classes: the run returns, [y] has six distinct
    labels, five scatter calls are made and label 5 gets none; the same in
    [plot_decision_regions]. *)
Lemma six_labels_five_scatters :
  let o := run (Samples.lib Samples.predict_only) (body Samples.features6) tt [] in
  let o' := run (Samples.lib Samples.predict_only) (body Samples.regions6) tt [] in
  (res o = Ok tt /\
   List.length (Np.unique Samples.six_labels) = 6%nat /\
   List.length (calls_where is_class_scatter (log o)) = 5%nat /\
   ~ scatter_for_every_label Samples.six_labels (log o)) /\
  (res o' = Ok tt /\
   List.length (calls_where is_class_scatter (log o')) = 5%nat /\
   ~ scatter_for_every_label Samples.six_labels (log o')).
Proof.
  cbv zeta. split; [split; [|split; [|split]]|split; [|split]];
    try (vm_compute; reflexivity).
  - intros H. specialize (H 5%Z).
    assert (Hin : In 5%Z Samples.six_labels) by (vm_compute; tauto).
    apply H in Hin. vm_compute in Hin.
    repeat (destruct Hin as [Hin|Hin]; [discriminate|]). exact Hin.
  - intros H. specialize (H 5%Z).
    assert (Hin : In 5%Z Samples.six_labels) by (vm_compute; tauto).
    apply H in Hin. vm_compute in Hin.
    repeat (destruct Hin as [Hin|Hin]; [discriminate|]). exact Hin.
Qed.

(** ** Residuals *)

Lemma sub_same_length y_pred y d :
  Np.sub y_pred y = Ok d -> List.length y_pred = List.length y ->
  d = residuals y_pred y.
Proof.
  unfold Np.sub, Np.broadcast. intros H Hlen.
  rewrite Hlen, Nat.eqb_refl in H. inversion H. reflexivity.
Qed.

Lemma residuals_tail_silent xs ys t loc xl yl ti :
  guarded (fun c => is_training_scatter c = None) any_library
    (bind (plot_utility.mark_test_data xs ys t 75) (fun _ =>
     bind (call_ (CPlt (plt_hlines 0 (-10) 50 "black" 1))) (fun _ =>
     bind (call_ (CPlt (plt_xlabel xl))) (fun _ =>
     bind (call_ (CPlt (plt_ylabel yl))) (fun _ =>
     bind (plot_utility.set_title ti) (fun _ =>
     bind (plot_utility.legend_if_given t loc) (fun _ =>
     call_ (CPlt plt_show)))))))).
Proof. walk ltac:(reflexivity). Qed.

Lemma observe_silent l :
  Forall (fun ev => is_training_scatter (call_of ev) = None) l ->
  Forall (fun ev => match call_of ev with
                    | CObj (py_call_reg _ _) => False
                    | _ => True
                    end) l ->
  pick observe_residuals l = [].
Proof.
  intros H1 H2. apply pick_none. rewrite Forall_forall in *.
  intros ev Hin. specialize (H1 ev Hin). specialize (H2 ev Hin).
  destruct ev as [c a|c e]; simpl in *; [|exact H1].
  destruct c as [c|c|c|c|line]; try exact H1.
  destruct c; try exact H1. contradiction.
Qed.

Lemma residuals_tail_no_call xs ys t loc xl yl ti :
  guarded (fun c => match c with
                    | CObj (py_call_reg _ _) => False
                    | _ => True
                    end) any_library
    (bind (plot_utility.mark_test_data xs ys t 75) (fun _ =>
     bind (call_ (CPlt (plt_hlines 0 (-10) 50 "black" 1))) (fun _ =>
     bind (call_ (CPlt (plt_xlabel xl))) (fun _ =>
     bind (call_ (CPlt (plt_ylabel yl))) (fun _ =>
     bind (plot_utility.set_title ti) (fun _ =>
     bind (plot_utility.legend_if_given t loc) (fun _ =>
     call_ (CPlt plt_show)))))))).
Proof. walk ltac:(exact I). Qed.

(** C2.  In every run of [plot_residuals] against a numpy that behaves as
    the reference semantics, the regressor's method is called on [X] and
    nothing else, and the scatter call labelled ['training data'] gets the
    returned predictions as x-coordinates and numpy's [y_pred - y] as
    y-coordinates: prediction minus actual, entry by entry, when the two
    have the same length.  A run that makes no such call raised before
    it. *)
Theorem residuals_are_prediction_minus_actual
    X y regressor t xl yl ti loc W (h : handler W) s g :
  respects h numpy_contract ->
  let o := run h (plot_utility.plot_residuals X y regressor t xl yl ti loc) s g in
  let obs := pick observe_residuals (log o) in
  (exists y_pred d,
      obs = [Predicted X y_pred;
             Plotted y_pred d (plot_utility.training_kw (Some "o"%string) None)] /\
      Np.sub y_pred y = Ok d /\
      (List.length y_pred = List.length y -> d = residuals y_pred y)) \/
  ((obs = [] \/ exists y_pred, obs = [Predicted X y_pred]) /\
   exists e, res o = Raise e).
Proof.
  intros Hh. cbv zeta.
  unfold plot_utility.plot_residuals. unfold call_. cbn [bind run].
  destruct (h (CObj (py_getattr regressor "predict")) s) as [[m|e] s0] eqn:E0;
    cbn [log logged res]; [|right; split; [left; reflexivity|eauto]].
  destruct (h (CObj (py_call_reg m X)) s0) as [[p|e] s1] eqn:E1;
    cbn [log logged res]; [|right; split; [left; reflexivity|eauto]].
  destruct (h (CNp (np_sub p y)) s1) as [[d|e] s2] eqn:E2;
    cbn [log logged res]; [|right; split; [right; exists p; reflexivity|eauto]].
  pose proof (Hh _ _ _ _ E2) as Hd. simpl in Hd.
  left. exists p, d. split; [|split; [exact Hd|apply sub_same_length; exact Hd]].
  destruct (h (CPlt (plt_scatter p d _)) s2) as [[u|e] s3] eqn:E3;
    cbn [log logged]; [|reflexivity].
  change (Predicted X p :: Plotted p d (plot_utility.training_kw (Some "o"%string) None)
            :: pick observe_residuals
                 (log (run h
                    (bind (plot_utility.mark_test_data p d t 75) (fun _ =>
                     bind (call_ (CPlt (plt_hlines 0 (-10) 50 "black" 1))) (fun _ =>
                     bind (call_ (CPlt (plt_xlabel xl))) (fun _ =>
                     bind (call_ (CPlt (plt_ylabel yl))) (fun _ =>
                     bind (plot_utility.set_title ti) (fun _ =>
                     bind (plot_utility.legend_if_given t loc) (fun _ =>
                     call_ (CPlt plt_show))))))))
                    s3 g))
          = [Predicted X p;
             Plotted p d (plot_utility.training_kw (Some "o"%string) None)]).
  rewrite observe_silent; [reflexivity| |].
  - apply guarded_log with (P := fun c => is_training_scatter c = None)
                           (Q := any_library); [apply respects_any|].
    apply residuals_tail_silent.
  - apply guarded_log
      with (P := fun c => match c with
                          | CObj (py_call_reg _ _) => False
                          | _ => True
                          end)
           (Q := any_library); [apply respects_any|].
    apply residuals_tail_no_call.
Qed.

(** ** The grid of [plot_decision_regions] *)


Lemma qmin_cases x y : Qmin x y = x \/ Qmin x y = y.
Proof.
  unfold Qmin, GenericMinMax.gmin. destruct (x ?= y); auto.
Qed.

Lemma qmax_cases x y : Qmax x y = x \/ Qmax x y = y.
Proof.
  unfold Qmax, GenericMinMax.gmax. destruct (x ?= y); auto.
Qed.

Lemma fold_min_spec rest v :
  In (fold_left Qmin rest v) (v :: rest) /\
  forall u, In u (v :: rest) -> fold_left Qmin rest v <= u.
Proof.
  revert v. induction rest as [|w rest IH]; intros v; simpl.
  - split; [auto|]. intros u [<-|[]]. apply Qle_refl.
  - destruct (IH (Qmin v w)) as [Hin Hle]. split.
    + destruct Hin as [Hin|Hin]; [|auto].
      rewrite <- Hin. destruct (qmin_cases v w) as [->| ->]; auto.
    + intros u [<-|[<-|Hu]].
      * eapply Qle_trans; [apply Hle; left; reflexivity|apply Q.le_min_l].
      * eapply Qle_trans; [apply Hle; left; reflexivity|apply Q.le_min_r].
      * apply Hle. right. exact Hu.
Qed.

Lemma fold_max_spec rest v :
  In (fold_left Qmax rest v) (v :: rest) /\
  forall u, In u (v :: rest) -> u <= fold_left Qmax rest v.
Proof.
  revert v. induction rest as [|w rest IH]; intros v; simpl.
  - split; [auto|]. intros u [<-|[]]. apply Qle_refl.
  - destruct (IH (Qmax v w)) as [Hin Hle]. split.
    + destruct Hin as [Hin|Hin]; [|auto].
      rewrite <- Hin. destruct (qmax_cases v w) as [->| ->]; auto.
    + intros u [<-|[<-|Hu]].
      * eapply Qle_trans; [apply Q.le_max_l|apply Hle; left; reflexivity].
      * eapply Qle_trans; [apply Q.le_max_r|apply Hle; left; reflexivity].
      * apply Hle. right. exact Hu.
Qed.

Lemma amin_spec a m :
  Np.amin a = Ok m -> In m a /\ forall u, In u a -> m <= u.
Proof.
  destruct a as [|v rest]; simpl; [discriminate|].
  intros H. inversion H. apply fold_min_spec.
Qed.

Lemma amax_spec a m :
  Np.amax a = Ok m -> In m a /\ forall u, In u a -> u <= m.
Proof.
  destruct a as [|v rest]; simpl; [discriminate|].
  intros H. inversion H. apply fold_max_spec.
Qed.

Lemma arange_spec start stop step a :
  0 < step -> start < stop -> Np.arange start stop step = Ok a ->
  (exists v, In v a /\ v == start) /\
  (exists v, In v a /\ stop - step <= v) /\
  (forall v, In v a -> start <= v /\ v < stop).
Proof.
  intros Hstep Hlt. unfold Np.arange.
  destruct (Qeq_bool step 0) eqn:E.
  { apply Qeq_bool_iff in E. lra. }
  intros H. inversion H as [Ha]. clear H Ha.
  unfold Np.arange_len.
  set (r := (stop - start) / step).
  assert (Hr : r * step == stop - start).
  { unfold r. field. lra. }
  assert (Hc1 : r <= inject_Z (Qceiling r)) by apply Qle_ceiling.
  assert (Hc2 : inject_Z (Qceiling r - 1) < r) by apply Qceiling_lt.
  assert (Hrpos : 0 < r).
  { unfold r. apply Qlt_shift_div_l; lra. }
  assert (Hc : (1 <= Qceiling r)%Z).
  { assert (Hpos : (0 < Qceiling r)%Z).
    { rewrite Zlt_Qlt. change (inject_Z 0) with 0. lra. }
    lia. }
  set (n := Z.to_nat (Qceiling r)).
  assert (Hn : Z.of_nat n = Qceiling r) by (unfold n; lia).
  split; [|split].
  - exists (start + inject_Z (Z.of_nat 0) * step). split.
    + apply in_map_iff. exists 0%nat. split; [reflexivity|].
      apply in_seq. lia.
    + change (inject_Z (Z.of_nat 0)) with 0. ring.
  - exists (start + inject_Z (Z.of_nat (n - 1)) * step). split.
    + apply in_map_iff. exists (n - 1)%nat. split; [reflexivity|].
      apply in_seq. lia.
    + replace (Z.of_nat (n - 1)) with (Qceiling r - 1)%Z by lia.
      unfold Z.sub. rewrite inject_Z_plus, inject_Z_opp.
      assert ((stop - start) <= inject_Z (Qceiling r) * step).
      { rewrite <- Hr. apply Qmult_le_compat_r; lra. }
      change (inject_Z 1) with 1. lra.
  - intros v Hv. apply in_map_iff in Hv. destruct Hv as (i & <- & Hi).
    apply in_seq in Hi.
    assert (Hi0 : 0 <= inject_Z (Z.of_nat i)).
    { change 0 with (inject_Z 0). rewrite <- Zle_Qle. lia. }
    assert (Hi1 : inject_Z (Z.of_nat i) <= inject_Z (Qceiling r - 1)).
    { rewrite <- Zle_Qle. lia. }
    assert (0 <= inject_Z (Z.of_nat i) * step).
    { apply Qmult_le_0_compat; lra. }
    assert (inject_Z (Z.of_nat i) * step < r * step).
    { apply Qmult_lt_compat_r; lra. }
    lra.
Qed.

Lemma in_ravel_x1 a b v :
  In v (Np.ravel (fst (Np.meshgrid a b))) <-> In v a /\ b <> [].
Proof.
  unfold Np.ravel, Np.meshgrid. simpl. rewrite in_concat. split.
  - intros (row & Hrow & Hv). apply in_map_iff in Hrow.
    destruct Hrow as (w & <- & Hw). split; [exact Hv|].
    intros ->. destruct Hw.
  - intros [Hv Hb]. destruct b as [|w b]; [congruence|].
    exists a. split; [left; reflexivity|exact Hv].
Qed.

Lemma in_ravel_x2 a b v :
  In v (Np.ravel (snd (Np.meshgrid a b))) <-> In v b /\ a <> [].
Proof.
  unfold Np.ravel, Np.meshgrid. simpl. rewrite in_concat. split.
  - intros (row & Hrow & Hv). apply in_map_iff in Hrow.
    destruct Hrow as (w & <- & Hw). apply in_map_iff in Hv.
    destruct Hv as (u & <- & Hu). split; [exact Hw|].
    intros ->. destruct Hu.
  - intros [Hv Ha]. destruct a as [|u a]; [congruence|].
    exists (map (fun _ => v) (u :: a)). split.
    + apply in_map_iff. exists v. auto.
    + left. reflexivity.
Qed.

(** [arange] yields values only for a step in the direction of [stop]. *)
Lemma arange_positive start stop step a :
  start < stop -> Np.arange start stop step = Ok a -> a <> [] -> 0 < step.
Proof.
  intros Hlt. unfold Np.arange.
  destruct (Qeq_bool step 0) eqn:E; [discriminate|].
  apply Qeq_bool_neq in E. intros H Hne. inversion H as [Ha]. clear H.
  destruct (Qlt_le_dec 0 step) as [Hpos|Hneg]; [exact Hpos|].
  exfalso. apply Hne. rewrite <- Ha. clear Ha Hne.
  assert (Hstep : step < 0).
  { apply Qle_lteq in Hneg. destruct Hneg as [H|H]; [exact H|contradiction]. }
  unfold Np.arange_len.
  set (r := (stop - start) / step).
  assert (Hr : r * step == stop - start) by (unfold r; field; exact E).
  assert (Hrneg : r < 0).
  { destruct (Qlt_le_dec r 0) as [H|H]; [exact H|].
    assert (0 <= r * - step) by (apply Qmult_le_0_compat; lra).
    lra. }
  assert (Hc : inject_Z (Qceiling r - 1) < r) by apply Qceiling_lt.
  assert (Hz : (Qceiling r <= 0)%Z).
  { assert (H : (Qceiling r - 1 < 0)%Z).
    { rewrite Zlt_Qlt. change (inject_Z 0) with 0. lra. }
    lia. }
  replace (Z.to_nat (Qceiling r)) with 0%nat by lia. reflexivity.
Qed.

(** One axis: the lower limit taken from the grid is [min - 1], and no
    entry of the column lies below it; a grid with a smallest coordinate
    needs a positive step. *)
Lemma lower_limit col lo hi step a g glo :
  Np.amin col = Ok lo -> Np.amax col = Ok hi ->
  Np.arange (lo - 1) (hi + 1) step = Ok a ->
  (forall v, In v g -> In v a) ->
  (g <> [] -> forall v, In v a -> In v g) ->
  Np.amin g = Ok glo ->
  0 < step /\ glo == lo - 1 /\ forall v, In v col -> glo <= v.
Proof.
  intros Hlo Hhi Ha Hga Hag Hglo.
  apply amin_spec in Hlo, Hglo. apply amax_spec in Hhi.
  destruct Hlo as [Hlo_in Hlo]. destruct Hhi as [Hhi_in Hhi].
  destruct Hglo as [Hglo_in Hglo].
  assert (Hlohi : lo <= hi) by (apply Hhi; exact Hlo_in).
  assert (Hne : g <> []) by (intros ->; destruct Hglo_in).
  assert (Hane : a <> []).
  { intros ->. apply (Hga glo Hglo_in). }
  assert (Hlt : lo - 1 < hi + 1) by lra.
  assert (Hstep : 0 < step) by (eapply arange_positive; eassumption).
  destruct (arange_spec Hstep Hlt Ha) as ((v0 & Hv0 & Hv0eq) & _ & Hall).
  assert (H0 : glo <= v0) by (apply Hglo, Hag; assumption).
  destruct (Hall glo (Hga _ Hglo_in)) as [Hg1 _].
  assert (Heq : glo == lo - 1) by lra.
  split; [exact Hstep|]. split; [exact Heq|].
  intros v Hv. specialize (Hlo v Hv). lra.
Qed.

Lemma no_view l :
  Forall (fun ev => is_view (call_of ev) = false) l ->
  pick xlim_of l = [] /\ pick ylim_of l = [] /\ pick contour_grid_of l = [].
Proof.
  intros H. repeat split; apply pick_none; eapply Forall_impl; try exact H;
    intros ev; unfold xlim_of, ylim_of, contour_grid_of;
    destruct (call_of ev) as [c|c|c|c|line]; try reflexivity;
    destruct c; try reflexivity; simpl; discriminate.
Qed.

Lemma meshgrid_axes a b x1 x2 :
  Np.meshgrid a b = (x1, x2) ->
  (forall v, In v (Np.ravel x1) -> In v a) /\
  (Np.ravel x1 <> [] -> forall v, In v a -> In v (Np.ravel x1)) /\
  (forall v, In v (Np.ravel x2) -> In v b) /\
  (Np.ravel x2 <> [] -> forall v, In v b -> In v (Np.ravel x2)).
Proof.
  intros Hm.
  assert (E1 : x1 = fst (Np.meshgrid a b)) by (rewrite Hm; reflexivity).
  assert (E2 : x2 = snd (Np.meshgrid a b)) by (rewrite Hm; reflexivity).
  subst x1 x2. clear Hm. repeat split.
  - intros v Hv. apply in_ravel_x1 in Hv. tauto.
  - intros Hne v Hv. apply in_ravel_x1. split; [exact Hv|].
    destruct (Np.ravel (fst (Np.meshgrid a b))) as [|w g] eqn:E; [congruence|].
    assert (Hw : In w (Np.ravel (fst (Np.meshgrid a b))))
      by (rewrite E; left; reflexivity).
    apply in_ravel_x1 in Hw. tauto.
  - intros v Hv. apply in_ravel_x2 in Hv. tauto.
  - intros Hne v Hv. apply in_ravel_x2. split; [exact Hv|].
    destruct (Np.ravel (snd (Np.meshgrid a b))) as [|w g] eqn:E; [congruence|].
    assert (Hw : In w (Np.ravel (snd (Np.meshgrid a b))))
      by (rewrite E; left; reflexivity).
    apply in_ravel_x2 in Hw. tauto.
Qed.

Lemma decision_regions_limits_wp X y o t r xl yl ti loc :
  wp numpy_contract
     (plot_utility.plot_decision_regions X y o t r xl yl ti loc)
     (fun l _ => limits_from_grid X r l /\ samples_above_lower_limits X l /\
                 0 < r).
Proof.
  unfold plot_utility.plot_decision_regions.
  unfold call_. cbn [bind wp].
  intros uniq _ cmap _ c0 Hc0 lo1 Hlo1 c0' Hc0' hi1 Hhi1
         c1 Hc1 lo2 Hlo2 c1' Hc1' hi2 Hhi2 a1 Ha1 a2 Ha2 [x1 x2] Hmesh.
  cbn [bind wp]. intros predict _ r1 _ r2 _ pts _ ptsT _ z _ sh _ zz _ u _.
  cbn [numpy_contract np_sem] in *.
  apply column_coords in Hc0, Hc0', Hc1, Hc1'. subst c0 c0' c1 c1'.
  assert (Hm : Np.meshgrid a1 a2 = (x1, x2)) by (inversion Hmesh; reflexivity).
  clear Hmesh.
  apply wp_skip with (P := fun c => is_view c = false);
    [unfold plot_utility.plot_training_data; walk ltac:(reflexivity)|].
  intros l1 _ Hl1.
  apply wp_skip with (P := fun c => is_view c = false);
    [walk ltac:(reflexivity)|].
  intros l2 _ Hl2.
  unfold_pieces. repeat wp_step.
  all: cbn [numpy_contract np_sem] in *.
  all: destruct (no_view Hl1) as (Hx1 & Hy1 & Hg1).
  all: destruct (no_view Hl2) as (Hx2 & Hy2 & Hg2).
  all: destruct (meshgrid_axes Hm) as (M1 & M2 & M3 & M4).
  all: pose proof (fun glo =>
         @lower_limit _ _ _ _ _ _ glo Hlo1 Hhi1 Ha1 M1 M2) as AX.
  all: pose proof (fun glo =>
         @lower_limit _ _ _ _ _ _ glo Hlo2 Hhi2 Ha2 M3 M4) as AY.
  all: destruct (AX _ ltac:(eassumption)) as (Hr & Gx & Cx).
  all: destruct (AY _ ltac:(eassumption)) as (_ & Gy & Cy).
  all: assert (Hxl : forall lo hi, pick xlim_of
         (Returned (CPlt (plt_xlim lo hi)) tt :: nil) = [(lo, hi)])
         by reflexivity.
  all: split; [|split; [|exact Hr]].
  all: try (unfold limits_from_grid;
            exists lo1, hi1, lo2, hi2, a1, a2; do 4 eexists;
            rewrite Hm; cbn [fst snd];
            repeat (split; [eassumption|]);
            split; [read_log; rewrite ?Hg1, ?Hg2; reflexivity|];
            repeat (split; [eassumption|]);
            split; [read_log; rewrite ?Hx1, ?Hx2; reflexivity|];
            split; [read_log; rewrite ?Hy1, ?Hy2; reflexivity|];
            split; assumption).
  all: unfold samples_above_lower_limits; do 2 eexists;
       (split; [read_log; rewrite ?Hx1, ?Hx2; reflexivity|]);
       (split; [read_log; rewrite ?Hy1, ?Hy2; reflexivity|]);
       intros row Hrow; cbn [fst]; split; [apply Cx|apply Cy]; unfold coords;
       apply (in_map (fun row => nth _ row 0)); exact Hrow.
Qed.

(** C9 (as amended).  Every run of [plot_decision_regions] that returns,
    against a numpy that behaves as the reference semantics, has drawn the
    contour on the mesh of [arange(min - 1, max + 1, resolution)] over the
    two columns of [X] and has set the limits of each axis once, to the
    smallest and the largest coordinate of that mesh.  The lower limit is
    [min - 1], so no sample lies below the limits.  Nothing is promised
    about the upper limit: it is the last coordinate of the grid.  A run
    returns only for a positive resolution and a non-empty [X]. *)
Theorem limits_are_grid_extremes
    X y o t r xl yl ti loc W (h : handler W) s g :
  respects h numpy_contract ->
  res (run h (plot_utility.plot_decision_regions X y o t r xl yl ti loc) s g)
  = Ok tt ->
  let l := log (run h (plot_utility.plot_decision_regions
                         X y o t r xl yl ti loc) s g) in
  limits_from_grid X r l /\ samples_above_lower_limits X l /\
  0 < r /\ X <> [].
Proof.
  intros Hh Hres l.
  assert (Hl : limits_from_grid X r l /\ samples_above_lower_limits X l /\
               0 < r).
  { apply wp_sound
      with (Q := numpy_contract) (r := tt)
           (post := fun l _ => limits_from_grid X r l /\
                               samples_above_lower_limits X l /\ 0 < r).
    - exact Hh.
    - apply decision_regions_limits_wp.
    - exact Hres. }
  destruct Hl as (Hl & Hs & Hr).
  repeat (split; [assumption|]).
  destruct Hl as (lo1 & _ & _ & _ & _ & _ & _ & _ & _ & _ & Hlo & _).
  intros ->. simpl in Hlo. discriminate.
Qed.

Lemma limits_are_grid_extremes_witness :
  let l := log (run (Samples.lib Samples.predict_only)
                    (body (Samples.regions3 3)) tt []) in
  limits_from_grid Samples.three_points 3 l /\
  samples_above_lower_limits Samples.three_points l /\
  0 < 3 /\ Samples.three_points <> [].
Proof.
  refine (@limits_are_grid_extremes Samples.three_points Samples.three_labels
            (Obj 1) (Some [2%Z]) 3 "x" "y" (Some "regions"%string)
            plot_utility.default_loc
            unit (Samples.lib Samples.predict_only) tt [] _ _).
  - apply ref_handler_numpy.
  - vm_compute. reflexivity.
Defined.

(** C9 as stated fails for a coarse grid: with [resolution=3] and the
    samples (0, 0), (1, 1), (2.5, 2.5) the run returns and sets both axes
    to [-1, 2], which leaves the third sample outside. *)
Lemma coarse_grid_leaves_sample_outside :
  let o := run (Samples.lib Samples.predict_only)
               (body (Samples.regions3 3)) tt [] in
  Samples.three_points <> [] /\
  res o = Ok tt /\
  pick xlim_of (log o) = [(-1, 2)] /\
  ~ samples_within_limits Samples.three_points (log o).
Proof.
  cbv zeta. split; [discriminate|]. split; [vm_compute; reflexivity|].
  split; [vm_compute; reflexivity|].
  intros (xlim & ylim & Hx & _ & Hall).
  vm_compute in Hx. inversion Hx; subst. clear Hx.
  destruct (Hall [5 # 2; 5 # 2]) as [[_ Hhi] _].
  - right. right. left. reflexivity.
  - vm_compute in Hhi. apply Hhi. reflexivity.
Qed.

(** ** The held-out indices of the example script *)

Lemma index_nth_error A (a : list A) (i : nat) v :
  nth_error a i = Some v -> Np.index a (Z.of_nat i) = Ok v.
Proof.
  intros H. unfold Np.index.
  assert (Hlt : (i < List.length a)%nat).
  { apply nth_error_Some. congruence. }
  destruct (Z.of_nat i <? 0)%Z eqn:E; [apply Z.ltb_lt in E; lia|].
  replace ((0 <=? Z.of_nat i)%Z && (Z.of_nat i <? Z.of_nat (List.length a))%Z)
    with true.
  - rewrite Nat2Z.id, H. reflexivity.
  - symmetry. apply andb_true_intro. split.
    + apply Z.leb_le. lia.
    + apply Z.ltb_lt. lia.
Qed.

Lemma take_seq A (a : list A) len : forall start,
  (start + len <= List.length a)%nat ->
  Np.take a (map Z.of_nat (seq start len)) = Ok (firstn len (skipn start a)).
Proof.
  induction len as [|len IH]; intros start Hle; simpl.
  - reflexivity.
  - destruct (nth_error a start) as [v|] eqn:E.
    + rewrite (index_nth_error _ _ E). simpl.
      rewrite IH by lia. simpl.
      assert (Hs : skipn start a = v :: skipn (S start) a).
      { clear -E. revert a E. induction start as [|n IHn]; intros [|x a] E;
          simpl in *; try discriminate.
        - inversion E. reflexivity.
        - apply IHn. exact E. }
      rewrite Hs. reflexivity.
    + apply nth_error_None in E. lia.
Qed.

Lemma take_appended A (front back : list A) :
  Np.take (front ++ back)
          (sklearn_knn.py_range (List.length front)
                                (List.length front + List.length back))
  = Ok back.
Proof.
  unfold sklearn_knn.py_range.
  replace (List.length front + List.length back - List.length front)%nat
    with (List.length back) by lia.
  rewrite take_seq by (rewrite length_app; lia).
  rewrite skipn_app, skipn_all, Nat.sub_diag. simpl.
  apply f_equal, firstn_all.
Qed.

Lemma column_app X X' c col col' :
  Np.column X c = Ok col -> Np.column X' c = Ok col' ->
  Np.column (X ++ X') c = Ok (col ++ col').
Proof.
  revert col. induction X as [|row X IH]; simpl; intros col H H'.
  - inversion H. exact H'.
  - destruct (nth_error row c); [|discriminate].
    destruct (Np.column X c) as [vs|e]; simpl in H; [|discriminate].
    inversion H; subst. rewrite (IH vs eq_refl H'). reflexivity.
Qed.

Lemma column_length X c col :
  Np.column X c = Ok col -> List.length col = List.length X.
Proof.
  intros H. rewrite (column_coords _ _ H). apply length_map.
Qed.

(** ** Sample runs *)

Lemma residuals_are_prediction_minus_actual_witness :
  let o := run (Samples.lib Samples.predict_only)
               (body Samples.residuals3) tt [] in
  let obs := pick observe_residuals (log o) in
  (exists y_pred d,
      obs = [Predicted Samples.three_points y_pred;
             Plotted y_pred d (plot_utility.training_kw (Some "o"%string) None)] /\
      Np.sub y_pred Samples.three_targets = Ok d /\
      (List.length y_pred = List.length Samples.three_targets ->
       d = residuals y_pred Samples.three_targets)) \/
  ((obs = [] \/ exists y_pred, obs = [Predicted Samples.three_points y_pred]) /\
   exists e, res o = Raise e).
Proof.
  refine (@residuals_are_prediction_minus_actual
            Samples.three_points Samples.three_targets (Obj 2) (Some [2%Z])
            "predicted values" "residuals" None plot_utility.default_loc
            unit (Samples.lib Samples.predict_only) tt [] _).
  apply ref_handler_numpy.
Defined.

Lemma helpers_use_predict_only_witness :
  run (Samples.lib Samples.predict_only) (body Samples.residuals3) tt []
  = run (Samples.lib Samples.full_estimator) (body Samples.residuals3) tt [].
Proof.
  refine (proj2
    (@helpers_use_predict_only Samples.residuals3 (Obj 2) unit
       (Samples.lib Samples.full_estimator) (Samples.lib Samples.predict_only)
       tt [] _ _ _)).
  - reflexivity.
  - apply ref_handler_lookup.
  - intros c s H. destruct c as [c|c|c|c|line]; try reflexivity.
    destruct c as [o name|m X|m X]; try reflexivity.
    simpl in H. unfold Samples.lib, ref_handler. simpl.
    unfold Samples.predict_only, Samples.full_estimator.
    destruct (String.eqb name "predict"); [reflexivity|discriminate].
Defined.

(** ** The example script *)

Lemma sum_mismatches y_test y_pred :
  Np.sum (map differs (combine y_test y_pred)) = count_mismatches y_test y_pred.
Proof.
  unfold Np.sum, count_mismatches. apply f_equal.
  induction (combine y_test y_pred) as [|p l IH]; simpl; [reflexivity|].
  destruct (differs p); simpl; rewrite IH; reflexivity.
Qed.

Lemma ne_same_length y_test y_pred d :
  Np.ne y_test y_pred = Ok d -> List.length y_pred = List.length y_test ->
  d = map differs (combine y_test y_pred).
Proof.
  unfold Np.ne, Np.broadcast. intros H Hlen.
  rewrite Hlen, Nat.eqb_refl in H. inversion H. reflexivity.
Qed.

Lemma respects_both W (h : handler W) Q1 Q2 :
  respects h Q1 -> respects h Q2 -> respects h (both Q1 Q2).
Proof. intros H1 H2 c s a s' E. split; [eapply H1|eapply H2]; eauto. Qed.

Lemma show_accuracy_wp classifier X_test_std y_test :
  List.length X_test_std = List.length y_test ->
  wp (both numpy_contract sklearn_contract)
     (sklearn_knn.show_accuracy classifier X_test_std y_test)
     (fun l _ => exists m y_pred,
          l = accuracy_log classifier X_test_std y_test m y_pred /\
          List.length y_pred = List.length y_test).
Proof.
  intros Hlen. unfold sklearn_knn.show_accuracy, call_. cbn [bind wp].
  intros m _ y_pred [_ Hp] d [Hd _] n [Hn _] u _.
  cbn [numpy_contract sklearn_contract np_sem] in *.
  assert (Hlp : List.length y_pred = List.length y_test) by congruence.
  apply (ne_same_length _ _ Hd) in Hlp as Ed. subst d.
  inversion Hn; subst n. destruct u.
  exists m, y_pred. split; [reflexivity|exact Hlp].
Qed.

Lemma plot_decision_regions_quiet Q X y o t r xl yl ti loc :
  guarded quiet Q (plot_utility.plot_decision_regions X y o t r xl yl ti loc).
Proof. unfold plot_utility.plot_decision_regions. walk ltac:(exact I). Qed.

(** One turn of the loop of [main]: the accuracy lines, then the plot. *)
Ltac turn m p Hp lp Hq :=
  apply wp_bind; apply wp_bind;
  (eapply wp_mono; [|apply show_accuracy_wp; assumption]);
  cbv beta; intros ? _ (m & p & -> & Hp);
  (eapply wp_mono; [|apply guarded_wp; apply plot_decision_regions_quiet]);
  cbv beta; intros lp _ Hq.

Lemma main_wp :
  wp (both numpy_contract sklearn_contract) sklearn_knn.main
     (fun l _ => exists X_train_std X_test_std y_train y_test its cs,
          main_shape l X_train_std X_test_std y_test its /\
          List.length its = 4%nat /\ List.length cs = 4%nat /\
          pick observe_knn (firstn setup_calls l)
          = flat_map (built_and_fitted X_train_std y_train)
              (combine parameterizations
                 (combine cs (map it_classifier its)))).
Proof.
  unfold sklearn_knn.main, sklearn_knn.fit_knn, call_. cbn [bind wp].
  intros [X y] _ [[[X_train X_test] y_train] y_test] [_ Hsplit].
  cbn [bind wp].
  intros sc0 _ sc _ X_train_std [_ Htr] X_test_std [_ Hte]
         X_combined_std _ y_combined _
         c4 _ k4 _ c5 _ k5 _ c6 _ k6 _ c5m _ k5m _.
  cbn [sklearn_contract] in Hsplit, Htr, Hte.
  destruct Hsplit as (Hs1 & Hs2 & Hs3).
  assert (Hlen : List.length X_test_std = List.length y_test) by congruence.
  cbn [for_each].
  turn m1 p1 Hp1 lp1 Hq1.
  turn m2 p2 Hp2 lp2 Hq2.
  turn m3 p3 Hp3 lp3 Hq3.
  turn m4 p4 Hp4 lp4 Hq4.
  cbn [wp].
  exists X_train_std, X_test_std, y_train, y_test,
    [ {| it_classifier := k4; it_method := m1; it_pred := p1; it_plot := lp1 |};
      {| it_classifier := k5; it_method := m2; it_pred := p2; it_plot := lp2 |};
      {| it_classifier := k6; it_method := m3; it_pred := p3; it_plot := lp3 |};
      {| it_classifier := k5m; it_method := m4; it_pred := p4; it_plot := lp4 |} ],
    [c4; c5; c6; c5m].
  split; [|repeat split].
  unfold main_shape, setup_calls. cbn [skipn firstn].
  repeat split; try reflexivity.
  repeat constructor; assumption.
Qed.

Lemma quiet_silent l :
  Forall (fun ev => quiet (call_of ev)) l ->
  pick printed_of l = [] /\ pick fitted_of l = [] /\ pick observe_knn l = [].
Proof.
  intros H. repeat split; apply pick_none; eapply Forall_impl; try exact H.
  - intros ev; unfold printed_of;
      destruct (call_of ev) as [c|c|c|c|line]; simpl; try reflexivity;
      contradiction.
  - intros ev; unfold fitted_of;
      destruct (call_of ev) as [c|c|c|c|line]; simpl; try reflexivity;
      contradiction.
  - intros [c a|c e]; [|reflexivity].
    destruct c as [c|c|c|c|line]; simpl; try reflexivity. contradiction.
Qed.

Lemma iterations_report X_test_std y_test its :
  Forall (fun it => List.length (it_pred it) = List.length y_test /\
                    Forall (fun ev => quiet (call_of ev)) (it_plot it)) its ->
  pick printed_of (flat_map (iteration_log X_test_std y_test) its)
  = map (fun it => report_line (count_mismatches y_test (it_pred it))) its /\
  pick fitted_of (flat_map (iteration_log X_test_std y_test) its) = [] /\
  pick observe_knn (flat_map (iteration_log X_test_std y_test) its) = [].
Proof.
  induction 1 as [|it its [_ Hq] _ (IH1 & IH2 & IH3)]; cbn [flat_map map];
    [repeat split; reflexivity|].
  destruct (quiet_silent Hq) as (Hp & Hf & Hk).
  rewrite !pick_app, IH1, IH2, IH3. unfold iteration_log.
  rewrite !pick_app, Hp, Hf, Hk. unfold accuracy_log.
  split; [|split].
  - read_log. rewrite sum_mismatches. reflexivity.
  - read_log. reflexivity.
  - read_log. reflexivity.
Qed.

(** The decimal numeral of the report reads back as the count. *)
Lemma report_line_reads n : reads_misclassified (report_line n) n.
Proof.
  exists (NilZero.string_of_int (Z.to_int n)). split; [reflexivity|].
  rewrite NilZero.isi.
  - simpl. rewrite DecimalZ.of_to. reflexivity.
  - destruct n; simpl; try discriminate.
    intros H. inversion H as [E]. revert E.
    apply DecimalPos.Unsigned.to_uint_nonnil.
  - destruct n; simpl; try discriminate.
    intros H. inversion H as [E]. revert E.
    apply DecimalPos.Unsigned.to_uint_nonnil.
Qed.

(** C3.  In every run of the script that returns, against a numpy that
    behaves as the reference semantics and a scikit-learn that keeps its
    shapes, exactly four k-nearest-neighbours classifiers are constructed,
    with (n_neighbors, p) = (4, 2), (5, 2), (6, 2), (5, 1) and the
    Minkowski metric; [fit] is called on each object so constructed, with
    the standardized training samples, and on nothing else; what the four
    [fit] calls return are the classifiers of the loop.  For each in turn,
    its prediction on the standardized test samples is compared with the
    test labels of the split, and the line printed reads
    [misclassified samples: ] followed by the decimal numeral of the number
    of positions at which the two differ. *)
Theorem main_reports_misclassifications W (h : handler W) s g :
  respects h numpy_contract ->
  respects h sklearn_contract ->
  res (run h sklearn_knn.main s g) = Ok tt ->
  let l := log (run h sklearn_knn.main s g) in
  exists X_train_std X_test_std y_train y_test its cs,
    main_shape l X_train_std X_test_std y_test its /\
    List.length its = 4%nat /\ List.length cs = 4%nat /\
    pick observe_knn l
    = flat_map (built_and_fitted X_train_std y_train)
        (combine parameterizations (combine cs (map it_classifier its))) /\
    pick printed_of l
    = map (fun it => report_line (count_mismatches y_test (it_pred it))) its /\
    Forall2 (fun line it =>
               reads_misclassified line
                 (count_mismatches y_test (it_pred it)))
            (pick printed_of l) its.
Proof.
  intros Hnp Hsk Hres l.
  assert (Hshape : exists X_train_std X_test_std y_train y_test its cs,
             main_shape l X_train_std X_test_std y_test its /\
             List.length its = 4%nat /\ List.length cs = 4%nat /\
             pick observe_knn (firstn setup_calls l)
             = flat_map (built_and_fitted X_train_std y_train)
                 (combine parameterizations
                    (combine cs (map it_classifier its)))).
  { apply wp_sound
      with (Q := both numpy_contract sklearn_contract) (r := tt)
           (post := fun l _ =>
              exists X_train_std X_test_std y_train y_test its cs,
                main_shape l X_train_std X_test_std y_test its /\
                List.length its = 4%nat /\ List.length cs = 4%nat /\
                pick observe_knn (firstn setup_calls l)
                = flat_map (built_and_fitted X_train_std y_train)
                    (combine parameterizations
                       (combine cs (map it_classifier its)))).
    - apply respects_both; assumption.
    - apply main_wp.
    - exact Hres. }
  destruct Hshape
    as (X_train_std & X_test_std & y_train & y_test & its & cs
        & Hshape & Hn & Hc & Hknn).
  exists X_train_std, X_test_std, y_train, y_test, its, cs.
  split; [exact Hshape|]. split; [exact Hn|]. split; [exact Hc|].
  destruct Hshape as (Hloop & Hfit & Hprint & _ & _ & _ & Hits).
  destruct (@iterations_report X_test_std y_test its Hits) as (Hp & Hf & Hk).
  assert (Hlines :
    pick printed_of l
    = map (fun it => report_line (count_mismatches y_test (it_pred it))) its).
  { rewrite <- (firstn_skipn setup_calls l), !pick_app.
    rewrite Hprint, Hloop, Hp. reflexivity. }
  split; [|split; [exact Hlines|]].
  - rewrite <- (firstn_skipn setup_calls l), !pick_app.
    rewrite Hknn, Hloop, Hk. apply app_nil_r.
  - rewrite Hlines. clear. induction its as [|it its IH]; simpl; constructor.
    + apply report_line_reads.
    + exact IH.
Qed.

Lemma lib_keeps_shapes exposes :
  respects (Samples.lib exposes) sklearn_contract.
Proof.
  intros c s a s' H. unfold Samples.lib, ref_handler in H.
  destruct c as [c|c|c|c|line]; simpl; auto.
  - destruct c as [o name|m X|m X]; simpl; auto.
    simpl in H. unfold Samples.zero_clf in H. inversion H.
    apply length_map.
  - destruct c; simpl; auto; simpl in H.
    + destruct (Nat.eqb (List.length X) (List.length y)) eqn:E;
        inversion H; subst. clear H. apply Nat.eqb_eq in E.
      rewrite !length_firstn, !length_skipn. lia.
    + inversion H. reflexivity.
Qed.

Lemma main_reports_misclassifications_witness :
  let l := log (run (Samples.lib Samples.predict_only) sklearn_knn.main tt []) in
  exists X_train_std X_test_std y_train y_test its cs,
    main_shape l X_train_std X_test_std y_test its /\
    List.length its = 4%nat /\ List.length cs = 4%nat /\
    pick observe_knn l
    = flat_map (built_and_fitted X_train_std y_train)
        (combine parameterizations (combine cs (map it_classifier its))) /\
    pick printed_of l
    = map (fun it => report_line (count_mismatches y_test (it_pred it))) its /\
    Forall2 (fun line it =>
               reads_misclassified line
                 (count_mismatches y_test (it_pred it)))
            (pick printed_of l) its.
Proof.
  refine (@main_reports_misclassifications unit
            (Samples.lib Samples.predict_only) tt [] _ _ _).
  - apply ref_handler_numpy.
  - apply lib_keeps_shapes.
  - vm_compute. reflexivity.
Defined.

(** The sample run: the held-out sample has label 1 and the sample
    classifier answers 0, so every line reports one misclassification. *)
Example sample_report :
  pick printed_of
    (log (run (Samples.lib Samples.predict_only) sklearn_knn.main tt []))
  = ["misclassified samples: 1"; "misclassified samples: 1";
     "misclassified samples: 1"; "misclassified samples: 1"]%string.
Proof. vm_compute. reflexivity. Qed.

(** ** One figure per call *)

Lemma ends_with_single c ev : call_of ev = c -> ends_with c [ev].
Proof. intros <-. exists []. reflexivity. Qed.

Lemma ends_with_cons c ev l : ends_with c l -> ends_with c (ev :: l).
Proof.
  intros [pre H]. exists (call_of ev :: pre). simpl. rewrite H. reflexivity.
Qed.

Lemma ends_with_app c l l' : ends_with c l' -> ends_with c (l ++ l').
Proof.
  intros [pre H]. exists (map call_of l ++ pre).
  rewrite map_app, H, app_assoc. reflexivity.
Qed.

Ltac find_last :=
  repeat first
    [ apply ends_with_single; reflexivity
    | apply ends_with_cons
    | apply ends_with_app ].

Lemma body_shows_once (i : invocation) :
  wp any_library (body i)
     (fun l _ => calls_where is_show l = [CPlt plt_show] /\
                 ends_with (CPlt plt_show) l).
Proof.
  destruct i; cbn [body];
    wp_walk (fun c => is_show c = false) ltac:(reflexivity);
    (split; [read_log; forget_pieces; reflexivity|find_last]).
Qed.

(** ** More sample runs *)

(** Malformed input surfaces as the library's exception: a label vector
    longer than [X] fails in numpy's boolean indexing, an empty [X] in
    numpy's [min]; each is the last call of its run. *)
Example mismatched_shapes_raise_IndexError :
  let o := run (Samples.lib Samples.predict_only)
               (plot_utility.plot_features Samples.three_points [0; 1]%Z None
                  "x" "y" None plot_utility.default_loc) tt [] in
  res o = Raise IndexError /\
  map call_of (skipn 2 (log o))
  = [CNp (np_getitem_mask Samples.three_points [true; false] 0)].
Proof. split; reflexivity. Qed.

Example empty_input_raises_ValueError :
  let o := run (Samples.lib Samples.predict_only)
               (plot_utility.plot_decision_regions [] [] (Obj 1) None
                  plot_utility.default_resolution
                  "x" "y" None plot_utility.default_loc) tt [] in
  res o = Raise ValueError /\
  map call_of (skipn 3 (log o)) = [CNp (np_min [])].
Proof. split; reflexivity. Qed.

(** The budget of [plot_decision_regions] is reached: five classes, a
    highlighted sample and a title take all 57 calls. *)
Example budget_is_reached :
  let o := run (Samples.lib Samples.predict_only)
               (plot_utility.plot_decision_regions
                  Samples.six_points [0; 1; 2; 3; 4; 4]%Z (Obj 1)
                  (Some [5%Z]) 1 "x" "y" (Some "regions"%string)
                  plot_utility.default_loc) tt [] in
  res o = Ok tt /\ List.length (log o) = 57%nat.
Proof. split; vm_compute; reflexivity. Qed.

Lemma empty_test_idx_guard_witness :
  calls_where is_legend
    (log (run (Samples.lib Samples.predict_only)
              (body (with_test_idx Samples.residuals3 (Some []))) tt []))
  = [CPlt (plt_legend plot_utility.default_loc)].
Proof.
  refine (proj2 (proj1 (proj2 (proj2
    (@empty_test_idx_guard Samples.residuals3 unit
       (Samples.lib Samples.predict_only) tt []))) _) _).
  - reflexivity.
  - vm_compute. reflexivity.
Defined.

(** ** The regression line *)

Lemma predictions_tail_silent xs ys t loc xl yl ti :
  guarded (fun c => drawn_of c = None /\
                    match c with CObj (py_call_reg _ _) => False | _ => True end)
    any_library
    (bind (plot_utility.mark_test_data xs ys t 100) (fun _ =>
     bind (call_ (CPlt (plt_xlabel xl))) (fun _ =>
     bind (call_ (CPlt (plt_ylabel yl))) (fun _ =>
     bind (plot_utility.set_title ti) (fun _ =>
     bind (plot_utility.legend_if_given t loc) (fun _ =>
     call_ (CPlt plt_show))))))).
Proof. walk ltac:(split; [reflexivity|exact I]). Qed.

Lemma observe_line_silent l :
  Forall (fun ev =>
            drawn_of (call_of ev) = None /\
            match call_of ev with CObj (py_call_reg _ _) => False | _ => True end)
         l ->
  pick observe_line l = [].
Proof.
  intros H. apply pick_none. eapply Forall_impl; [|exact H].
  intros ev [H1 H2]. destruct ev as [c a|c e]; simpl in *; [|exact H1].
  destruct c as [c|c|c|c|line]; try exact H1.
  destruct c; try exact H1. contradiction.
Qed.

(** X1.  In every run of [plot_predictions] the regressor is asked once, about
    the column vector [x[:, np.newaxis]]; the line is drawn through [x] and
    what it answered, in black with width 1; the training scatter gets [x]
    and [y] as they were passed.  A run that draws less raised before. *)
Theorem predictions_line_and_scatter
    x y regressor t xl yl ti loc W (h : handler W) s g :
  respects h numpy_contract ->
  let o := run h (plot_utility.plot_predictions x y regressor t xl yl ti loc) s g in
  let obs := pick observe_line (log o) in
  (exists y_line,
      obs = [AskedLine (Np.newaxis x) y_line;
             DrewLine x y_line "black" 1;
             DrewTraining x y (plot_utility.training_kw None (Some 70%Z))]) \/
  ((obs = [] \/
    exists y_line, obs = [AskedLine (Np.newaxis x) y_line;
                          DrewLine x y_line "black" 1]) /\
   exists e, res o = Raise e).
Proof.
  intros Hh. cbv zeta.
  unfold plot_utility.plot_predictions. unfold call_. cbn [bind run].
  destruct (h (CObj (py_getattr regressor "predict")) s) as [[m|e] s0] eqn:E0;
    cbn [log logged res]; [|right; split; [left; reflexivity|eauto]].
  destruct (h (CNp (np_newaxis x)) s0) as [[xc|e] s1] eqn:E1;
    cbn [log logged res]; [|right; split; [left; reflexivity|eauto]].
  pose proof (Hh _ _ _ _ E1) as Hxc. simpl in Hxc. inversion Hxc; subst xc.
  destruct (h (CObj (py_call_reg m (Np.newaxis x))) s1) as [[p|e] s2] eqn:E2;
    cbn [log logged res]; [|right; split; [left; reflexivity|eauto]].
  destruct (h (CPlt (plt_plot x p "black" 1)) s2) as [[u|e] s3] eqn:E3;
    cbn [log logged res];
    [|right; split; [right; exists p; reflexivity|eauto]].
  left. exists p.
  destruct (h (CPlt (plt_scatter x y _)) s3) as [[u'|e] s4] eqn:E4;
    cbn [log logged]; [|reflexivity].
  change (AskedLine (Np.newaxis x) p :: DrewLine x p "black" 1
            :: DrewTraining x y (plot_utility.training_kw None (Some 70%Z))
            :: pick observe_line
                 (log (run h
                    (bind (plot_utility.mark_test_data x y t 100) (fun _ =>
                     bind (call_ (CPlt (plt_xlabel xl))) (fun _ =>
                     bind (call_ (CPlt (plt_ylabel yl))) (fun _ =>
                     bind (plot_utility.set_title ti) (fun _ =>
                     bind (plot_utility.legend_if_given t loc) (fun _ =>
                     call_ (CPlt plt_show)))))))
                    s4 g))
          = [AskedLine (Np.newaxis x) p; DrewLine x p "black" 1;
             DrewTraining x y (plot_utility.training_kw None (Some 70%Z))]).
  rewrite observe_line_silent; [reflexivity|].
  apply guarded_log
    with (P := fun c => drawn_of c = None /\
                        match c with
                        | CObj (py_call_reg _ _) => False
                        | _ => True
                        end)
         (Q := any_library); [apply respects_any|].
  apply predictions_tail_silent.
Qed.

Lemma predictions_line_and_scatter_witness :
  let o := run (Samples.lib Samples.predict_only)
               (body Samples.predictions3) tt [] in
  let obs := pick observe_line (log o) in
  (exists y_line,
      obs = [AskedLine (Np.newaxis [0; 1; 2]%Q) y_line;
             DrewLine [0; 1; 2]%Q y_line "black" 1;
             DrewTraining [0; 1; 2]%Q Samples.three_targets
               (plot_utility.training_kw None (Some 70%Z))]) \/
  ((obs = [] \/
    exists y_line, obs = [AskedLine (Np.newaxis [0; 1; 2]%Q) y_line;
                          DrewLine [0; 1; 2]%Q y_line "black" 1]) /\
   exists e, res o = Raise e).
Proof.
  refine (@predictions_line_and_scatter
            [0; 1; 2]%Q Samples.three_targets (Obj 2) (Some [2%Z])
            "x" "y" None plot_utility.default_loc
            unit (Samples.lib Samples.predict_only) tt [] _).
  apply ref_handler_numpy.
Defined.

(** ** The highlighted samples *)

Lemma wp_and R Q (p : prog R) (post1 post2 : list event -> R -> Prop) :
  wp Q p post1 -> wp Q p post2 -> wp Q p (fun l r => post1 l r /\ post2 l r).
Proof.
  revert post1 post2. induction p as [r0|c k IH|e|n k IH|n v k IH];
    intros post1 post2 H1 H2; simpl in *; auto.
Qed.

Lemma wp_under R (Q Q' : contract) (p : prog R) post :
  (forall c a, Q' c a -> Q c a) -> wp Q p post -> wp Q' p post.
Proof.
  intros HQ. revert post. induction p as [r0|c k IH|e|n k IH|n v k IH];
    intros post Hwp; simpl in *; auto.
Qed.

Lemma index_map A B (f : A -> B) (a : list A) i :
  Np.index (map f a) i
  = match Np.index a i with Ok v => Ok (f v) | Raise e => Raise e end.
Proof.
  unfold Np.index. rewrite length_map.
  destruct ((0 <=? _)%Z && _)%bool; [|reflexivity].
  rewrite nth_error_map. destruct (nth_error a _); reflexivity.
Qed.

Lemma take_map A B (f : A -> B) (a : list A) t :
  Np.take (map f a) t
  = match Np.take a t with Ok vs => Ok (map f vs) | Raise e => Raise e end.
Proof.
  induction t as [|i t IH]; simpl; [reflexivity|].
  rewrite index_map. destruct (Np.index a i) as [v|e]; simpl; [|reflexivity].
  rewrite IH. destruct (Np.take a t); reflexivity.
Qed.

Lemma index_In A (a : list A) i v : Np.index a i = Ok v -> In v a.
Proof.
  unfold Np.index. destruct ((0 <=? _)%Z && _)%bool; [|discriminate].
  destruct (nth_error a _) as [w|] eqn:E; [|discriminate].
  intros H. inversion H; subst. eapply nth_error_In; eauto.
Qed.

Lemma take_spec A (a : list A) t vs :
  Np.take a t = Ok vs -> List.length vs = List.length t /\ incl vs a.
Proof.
  revert vs. induction t as [|i t IH]; simpl; intros vs H.
  - inversion H. split; [reflexivity|]. intros v [].
  - destruct (Np.index a i) as [v|e] eqn:E; simpl in H; [|discriminate].
    destruct (Np.take a t) as [ws|e]; simpl in H; [|discriminate].
    inversion H; subst. destruct (IH ws eq_refl) as [Hl Hi]. split.
    + simpl. rewrite Hl. reflexivity.
    + intros w [<-|Hw]; [eapply index_In; eauto|auto].
Qed.

Lemma fancy_rows X t c xs :
  Np.getitem_fancy X t c = Ok xs ->
  exists rows, Np.take X t = Ok rows /\ xs = coords c rows.
Proof.
  unfold Np.getitem_fancy. destruct (Np.column X c) as [col|e] eqn:E;
    simpl; [|discriminate].
  apply column_coords in E. subst col. unfold coords. rewrite take_map.
  destruct (Np.take X t) as [rows|e]; [|discriminate].
  intros H. inversion H. exists rows. auto.
Qed.

Lemma classification_overlay_wp (i : invocation) X y j rest :
  samples_of i = Some (X, y) ->
  test_idx_of i = Some (j :: rest) ->
  wp numpy_contract (body i)
     (fun l _ => exists rows,
          Np.take X (j :: rest) = Ok rows /\
          calls_where is_overlay l
          = [CPlt (plt_scatter (coords 0 rows) (coords 1 rows)
                               (plot_utility.test_kw 100 "test_set"))]).
Proof.
  destruct i; cbn [body samples_of test_idx_of]; intros Hs Ht;
    inversion Hs; subst;
    wp_walk (fun c => is_overlay c = false) ltac:(reflexivity);
    cbn [numpy_contract np_sem] in *;
    match goal with
    | H0 : Np.getitem_fancy _ _ 0 = Ok _,
      H1 : Np.getitem_fancy _ _ 1 = Ok _ |- _ =>
        destruct (fancy_rows _ _ _ H0) as (rows & Hr & ->);
        destruct (fancy_rows _ _ _ H1) as (rows' & Hr' & ->);
        assert (rows' = rows) by congruence; subst rows';
        exists rows; split; [exact Hr|read_log; forget_pieces; reflexivity]
    end.
Qed.

(** X2.  In every run of [plot_features] or [plot_decision_regions] that returns
    with a non-empty [test_idx], against a numpy that behaves as the
    reference semantics, the highlight is one scatter call whose points are
    the rows of [X] at the given indices, in the given order (a negative
    index counts from the end), with the fixed hollow-circle styling. *)
Theorem highlight_marks_indexed_rows
    (i : invocation) X y j rest W (h : handler W) s g :
  samples_of i = Some (X, y) ->
  test_idx_of i = Some (j :: rest) ->
  respects h numpy_contract ->
  res (run h (body i) s g) = Ok tt ->
  exists rows,
    Np.take X (j :: rest) = Ok rows /\
    List.length rows = List.length (j :: rest) /\
    incl rows X /\
    calls_where is_overlay (log (run h (body i) s g))
    = [CPlt (plt_scatter (coords 0 rows) (coords 1 rows)
                         (plot_utility.test_kw 100 "test_set"))].
Proof.
  intros Hs Ht Hh Hres.
  assert (H : exists rows,
             Np.take X (j :: rest) = Ok rows /\
             calls_where is_overlay (log (run h (body i) s g))
             = [CPlt (plt_scatter (coords 0 rows) (coords 1 rows)
                                  (plot_utility.test_kw 100 "test_set"))]).
  { apply wp_sound
      with (Q := numpy_contract) (r := tt)
           (post := fun l _ => exists rows,
                Np.take X (j :: rest) = Ok rows /\
                calls_where is_overlay l
                = [CPlt (plt_scatter (coords 0 rows) (coords 1 rows)
                                     (plot_utility.test_kw 100 "test_set"))]).
    - exact Hh.
    - apply classification_overlay_wp with (y := y); assumption.
    - exact Hres. }
  destruct H as (rows & Hr & Hl).
  exists rows. destruct (take_spec _ _ Hr) as [H1 H2]. auto.
Qed.

Lemma highlight_marks_indexed_rows_witness :
  exists rows,
    Np.take Samples.three_points [2%Z] = Ok rows /\
    List.length rows = 1%nat /\
    incl rows Samples.three_points /\
    calls_where is_overlay
      (log (run (Samples.lib Samples.predict_only)
                (body Samples.features3) tt []))
    = [CPlt (plt_scatter (coords 0 rows) (coords 1 rows)
                         (plot_utility.test_kw 100 "test_set"))].
Proof.
  refine (@highlight_marks_indexed_rows Samples.features3
            Samples.three_points Samples.three_labels 2%Z [] unit
            (Samples.lib Samples.predict_only) tt [] _ _ _ _).
  - reflexivity.
  - reflexivity.
  - apply ref_handler_numpy.
  - vm_compute. reflexivity.
Defined.

Lemma regression_overlay_wp (i : invocation) j rest :
  legend_is_optional i = true ->
  test_idx_of i = Some (j :: rest) ->
  wp numpy_contract (body i)
     (fun l _ => exists xs ys kw tx ty,
          pick scatter_of l
          = [(xs, ys, kw);
             (tx, ty, plot_utility.test_kw (highlight_size i) "test data")] /\
          Np.take xs (j :: rest) = Ok tx /\
          Np.take ys (j :: rest) = Ok ty).
Proof.
  destruct i; cbn [body legend_is_optional test_idx_of highlight_size];
    intros Hopt Ht; try discriminate; subst;
    unfold_helpers; unfold_pieces; repeat wp_step;
    cbn [numpy_contract np_sem] in *;
    match goal with
    | H0 : Np.take ?xs _ = Ok ?tx, H1 : Np.take ?ys _ = Ok ?ty |- _ =>
        exists xs, ys;
        eexists; exists tx, ty;
        split; [read_log; reflexivity|split; assumption]
    end.
Qed.

(** X3.  In every run of [plot_predictions] or [plot_residuals] that returns with
    a non-empty [test_idx], against a numpy that behaves as the reference
    semantics, exactly two scatter calls are made: the training data, and
    the highlight, whose coordinates are the coordinates of the first call
    at the given indices (so every highlighted point is one of the plotted
    points), labelled ['test data'], with marker size 100 in
    [plot_predictions] and 75 in [plot_residuals]. *)
Theorem highlight_marks_plotted_points
    (i : invocation) j rest W (h : handler W) s g :
  legend_is_optional i = true ->
  test_idx_of i = Some (j :: rest) ->
  respects h numpy_contract ->
  res (run h (body i) s g) = Ok tt ->
  exists xs ys kw tx ty,
    pick scatter_of (log (run h (body i) s g))
    = [(xs, ys, kw);
       (tx, ty, plot_utility.test_kw (highlight_size i) "test data")] /\
    Np.take xs (j :: rest) = Ok tx /\
    Np.take ys (j :: rest) = Ok ty /\
    incl tx xs /\ incl ty ys.
Proof.
  intros Hopt Ht Hh Hres.
  assert (H : exists xs ys kw tx ty,
             pick scatter_of (log (run h (body i) s g))
             = [(xs, ys, kw);
                (tx, ty, plot_utility.test_kw (highlight_size i) "test data")] /\
             Np.take xs (j :: rest) = Ok tx /\
             Np.take ys (j :: rest) = Ok ty).
  { apply wp_sound
      with (Q := numpy_contract) (r := tt)
           (post := fun l _ => exists xs ys kw tx ty,
                pick scatter_of l
                = [(xs, ys, kw);
                   (tx, ty, plot_utility.test_kw (highlight_size i) "test data")] /\
                Np.take xs (j :: rest) = Ok tx /\
                Np.take ys (j :: rest) = Ok ty).
    - exact Hh.
    - apply regression_overlay_wp; assumption.
    - exact Hres. }
  destruct H as (xs & ys & kw & tx & ty & Hl & Hx & Hy).
  exists xs, ys, kw, tx, ty.
  destruct (take_spec _ _ Hx) as [_ Hix]. destruct (take_spec _ _ Hy) as [_ Hiy].
  auto.
Qed.

Lemma highlight_marks_plotted_points_witness :
  exists xs ys kw tx ty,
    pick scatter_of (log (run (Samples.lib Samples.predict_only)
                              (body Samples.residuals3) tt []))
    = [(xs, ys, kw); (tx, ty, plot_utility.test_kw 75 "test data")] /\
    Np.take xs [2%Z] = Ok tx /\
    Np.take ys [2%Z] = Ok ty /\
    incl tx xs /\ incl ty ys.
Proof.
  refine (@highlight_marks_plotted_points Samples.residuals3 2%Z [] unit
            (Samples.lib Samples.predict_only) tt [] _ _ _ _).
  - reflexivity.
  - reflexivity.
  - apply ref_handler_numpy.
  - vm_compute. reflexivity.
Defined.

(** ** The decision contour *)

Lemma ravel_meshgrid a b :
  Np.ravel (fst (Np.meshgrid a b)) = flat_map (fun _ => a) b /\
  Np.ravel (snd (Np.meshgrid a b)) = flat_map (fun v => map (fun _ => v) a) b.
Proof.
  unfold Np.ravel, Np.meshgrid. simpl.
  rewrite !flat_map_concat_map. split; reflexivity.
Qed.

Lemma transpose_pair r1 r2 :
  Np.transpose [r1; r2]
  = map (fun p => [fst p; snd p]) (combine r1 r2).
Proof.
  simpl. revert r2. induction r1 as [|u r1 IH]; intros [|v r2]; simpl;
    try reflexivity.
  rewrite IH. reflexivity.
Qed.

Lemma combine_appended A B (l1 l2 : list A) (m1 m2 : list B) :
  List.length l1 = List.length m1 ->
  combine (l1 ++ l2) (m1 ++ m2) = combine l1 m1 ++ combine l2 m2.
Proof.
  revert m1. induction l1 as [|x l1 IH]; intros [|y m1] H; simpl in *;
    try discriminate; [reflexivity|].
  rewrite IH by lia. reflexivity.
Qed.

Lemma grid_transposed a b :
  Np.transpose [flat_map (fun _ => a) b;
                flat_map (fun v => map (fun _ => v) a) b]
  = grid_points a b.
Proof.
  rewrite transpose_pair. unfold grid_points.
  induction b as [|v b IH]; simpl; [reflexivity|].
  rewrite combine_appended by (rewrite length_map; reflexivity).
  rewrite map_app, IH. f_equal.
  clear. induction a as [|u a IH]; simpl; [reflexivity|].
  rewrite IH. reflexivity.
Qed.

Lemma grid_points_length a b :
  List.length (grid_points a b) = (List.length b * List.length a)%nat.
Proof.
  unfold grid_points. apply flat_map_constant_length.
  intros v _. apply length_map.
Qed.

Lemma meshgrid_rows_agree a b :
  List.length (flat_map (fun _ : Q => a) b)
  = List.length (flat_map (fun v => map (fun _ : Q => v) a) b).
Proof.
  rewrite !(flat_map_constant_length (c := List.length a)); auto.
  intros v _. apply length_map.
Qed.

Lemma array_of_meshgrid a b :
  Np.array [flat_map (fun _ => a) b;
            flat_map (fun v => map (fun _ => v) a) b]
  = Ok [flat_map (fun _ => a) b;
        flat_map (fun v => map (fun _ => v) a) b].
Proof.
  unfold Np.array. simpl. rewrite <- meshgrid_rows_agree, Nat.eqb_refl.
  reflexivity.
Qed.

Lemma meshgrid_shape a b :
  let sh := Np.shape (fst (Np.meshgrid a b)) in
  (fst sh * snd sh)%nat = (List.length b * List.length a)%nat /\
  forall A (z : list A),
    Np.chunks (fst sh) (snd sh) z = Np.chunks (List.length b) (List.length a) z.
Proof.
  unfold Np.shape, Np.meshgrid. simpl. rewrite length_map.
  destruct b as [|v b]; simpl; split; auto.
Qed.

(** What the grid calls of [plot_decision_regions] amount to. *)
Lemma grid_calls a1 a2 x1 x2 r1 r2 pts ptsT sh :
  Ok (Np.meshgrid a1 a2) = Ok (x1, x2) ->
  Ok (Np.ravel x1) = Ok r1 -> Ok (Np.ravel x2) = Ok r2 ->
  Np.array [r1; r2] = Ok pts ->
  Ok (Np.transpose pts) = Ok ptsT ->
  Ok (Np.shape x1) = Ok sh ->
  x1 = fst (Np.meshgrid a1 a2) /\ x2 = snd (Np.meshgrid a1 a2) /\
  ptsT = grid_points a1 a2 /\
  (fst sh * snd sh)%nat = (List.length a2 * List.length a1)%nat /\
  forall A (z : list A),
    Np.chunks (fst sh) (snd sh) z
    = Np.chunks (List.length a2) (List.length a1) z.
Proof.
  intros Hm H1 H2 Ha Ht Hs.
  assert (Em : Np.meshgrid a1 a2 = (x1, x2)) by congruence.
  inversion H1; subst r1. inversion H2; subst r2.
  inversion Ht; subst ptsT. inversion Hs; subst sh.
  assert (E1 : x1 = fst (Np.meshgrid a1 a2)) by (rewrite Em; reflexivity).
  assert (E2 : x2 = snd (Np.meshgrid a1 a2)) by (rewrite Em; reflexivity).
  subst x1 x2. clear Em Hm H1 H2 Ht Hs.
  destruct (ravel_meshgrid a1 a2) as [R1 R2]. rewrite R1, R2 in Ha.
  rewrite array_of_meshgrid in Ha. inversion Ha; subst pts.
  destruct (meshgrid_shape a1 a2) as [S1 S2].
  repeat split; auto. apply grid_transposed.
Qed.

Lemma region_silent l :
  Forall (fun ev => is_region (call_of ev) = false) l ->
  pick observe_region l = [].
Proof.
  intros H. apply pick_none. eapply Forall_impl; [|exact H].
  intros ev. destruct ev as [c a|c e]; [|reflexivity].
  destruct c as [c|c|c|c|line]; try reflexivity;
    destruct c; try reflexivity; simpl; discriminate.
Qed.

Lemma decision_regions_contour_wp X y o t r xl yl ti loc :
  wp numpy_contract
     (plot_utility.plot_decision_regions X y o t r xl yl ti loc)
     (fun l _ => exists a1 a2 cmap answer,
          grid_axis (coords 0 X) r a1 /\ grid_axis (coords 1 X) r a2 /\
          List.length answer = (List.length a2 * List.length a1)%nat /\
          pick observe_region l
          = [MadeColormap
               (firstn (List.length (Np.unique y)) plot_utility.colors) cmap;
             AskedGrid (grid_points a1 a2) answer;
             Contour (fst (Np.meshgrid a1 a2)) (snd (Np.meshgrid a1 a2))
                     (Np.chunks (List.length a2) (List.length a1) answer)
                     (3 # 10) cmap]).
Proof.
  unfold plot_utility.plot_decision_regions.
  unfold call_. cbn [bind wp].
  intros uniq Huniq cmap _ c0 Hc0 lo1 Hlo1 c0' Hc0' hi1 Hhi1
         c1 Hc1 lo2 Hlo2 c1' Hc1' hi2 Hhi2 a1 Ha1 a2 Ha2 [x1 x2] Hmesh.
  cbn [bind wp].
  intros predict _ r1 Hr1 r2 Hr2 pts Hpts ptsT HptsT answer _ sh Hsh z Hz u _.
  cbn [numpy_contract np_sem] in *.
  apply column_coords in Hc0, Hc0', Hc1, Hc1'. subst c0 c0' c1 c1'.
  inversion Huniq; subst uniq.
  destruct (grid_calls Hmesh Hr1 Hr2 Hpts HptsT Hsh)
    as (E1 & E2 & E3 & Hsize & Hchunks).
  subst x1 x2 ptsT.
  unfold Np.reshape in Hz.
  destruct (Nat.eqb (List.length answer) (fst sh * snd sh)) eqn:E;
    [|discriminate].
  apply Nat.eqb_eq in E. inversion Hz; subst z. rewrite Hchunks.
  apply wp_skip with (P := fun c => is_region c = false);
    [unfold plot_utility.plot_training_data; walk ltac:(reflexivity)|].
  intros l1 _ Hl1.
  apply wp_skip with (P := fun c => is_region c = false);
    [walk ltac:(reflexivity)|].
  intros l2 _ Hl2.
  unfold_pieces. repeat wp_step.
  all: exists a1, a2, cmap, answer.
  all: split; [exists lo1, hi1; auto|].
  all: split; [exists lo2, hi2; auto|].
  all: split; [lia|].
  all: read_log; rewrite (region_silent Hl1), (region_silent Hl2); reflexivity.
Qed.

(** X4.  In every run of [plot_decision_regions] that returns, against a numpy
    that behaves as the reference semantics: the colormap is built from the
    first colours of the palette, as many as there are distinct labels (at
    most five); the classifier is asked once, about every point of the
    grid, second coordinate by second coordinate; it answered one label
    per grid point; and the one contour call gets the two coordinate grids,
    the answers laid out in the shape of the grid, opacity 0.3 and that
    colormap. *)
Theorem contour_of_grid_predictions
    X y o t r xl yl ti loc W (h : handler W) s g :
  respects h numpy_contract ->
  res (run h (plot_utility.plot_decision_regions X y o t r xl yl ti loc) s g)
  = Ok tt ->
  exists a1 a2 cmap answer,
    grid_axis (coords 0 X) r a1 /\ grid_axis (coords 1 X) r a2 /\
    List.length answer = (List.length a2 * List.length a1)%nat /\
    pick observe_region
      (log (run h (plot_utility.plot_decision_regions
                     X y o t r xl yl ti loc) s g))
    = [MadeColormap
         (firstn (List.length (Np.unique y)) plot_utility.colors) cmap;
       AskedGrid (grid_points a1 a2) answer;
       Contour (fst (Np.meshgrid a1 a2)) (snd (Np.meshgrid a1 a2))
               (Np.chunks (List.length a2) (List.length a1) answer)
               (3 # 10) cmap].
Proof.
  intros Hh Hres.
  apply wp_sound
    with (Q := numpy_contract) (r := tt)
         (post := fun l _ => exists a1 a2 cmap answer,
              grid_axis (coords 0 X) r a1 /\ grid_axis (coords 1 X) r a2 /\
              List.length answer = (List.length a2 * List.length a1)%nat /\
              pick observe_region l
              = [MadeColormap
                   (firstn (List.length (Np.unique y)) plot_utility.colors)
                   cmap;
                 AskedGrid (grid_points a1 a2) answer;
                 Contour (fst (Np.meshgrid a1 a2)) (snd (Np.meshgrid a1 a2))
                         (Np.chunks (List.length a2) (List.length a1) answer)
                         (3 # 10) cmap]).
  - exact Hh.
  - apply decision_regions_contour_wp.
  - exact Hres.
Qed.

Lemma contour_of_grid_predictions_witness :
  exists a1 a2 cmap answer,
    grid_axis (coords 0 Samples.three_points) 3 a1 /\
    grid_axis (coords 1 Samples.three_points) 3 a2 /\
    List.length answer = (List.length a2 * List.length a1)%nat /\
    pick observe_region
      (log (run (Samples.lib Samples.predict_only)
                (body (Samples.regions3 3)) tt []))
    = [MadeColormap
         (firstn (List.length (Np.unique Samples.three_labels))
                 plot_utility.colors) cmap;
       AskedGrid (grid_points a1 a2) answer;
       Contour (fst (Np.meshgrid a1 a2)) (snd (Np.meshgrid a1 a2))
               (Np.chunks (List.length a2) (List.length a1) answer)
               (3 # 10) cmap].
Proof.
  refine (@contour_of_grid_predictions Samples.three_points
            Samples.three_labels (Obj 1) (Some [2%Z]) 3 "x" "y"
            (Some "regions"%string) plot_utility.default_loc unit
            (Samples.lib Samples.predict_only) tt [] _ _).
  - apply ref_handler_numpy.
  - vm_compute. reflexivity.
Defined.

(** *** A classifier that answers with the wrong number of labels *)

Lemma reshape_refuses a1 a2 x1 x2 r1 r2 pts ptsT (answer : labels) sh
    (z : label_grid) :
  Ok (Np.meshgrid a1 a2) = Ok (x1, x2) ->
  Ok (Np.ravel x1) = Ok r1 -> Ok (Np.ravel x2) = Ok r2 ->
  Np.array [r1; r2] = Ok pts ->
  Ok (Np.transpose pts) = Ok ptsT ->
  List.length answer <> List.length ptsT ->
  Ok (Np.shape x1) = Ok sh ->
  Np.reshape answer sh = Ok z ->
  False.
Proof.
  intros Hm H1 H2 Ha Ht Hwrong Hs Hz.
  destruct (grid_calls Hm H1 H2 Ha Ht Hs) as (_ & _ & -> & Hsize & _).
  rewrite grid_points_length in Hwrong.
  unfold Np.reshape in Hz.
  destruct (Nat.eqb (List.length answer) (fst sh * snd sh)) eqn:E;
    [|discriminate].
  apply Nat.eqb_eq in E. lia.
Qed.

Ltac split_contracts :=
  repeat match goal with
    | H : both _ _ _ _ |- _ => destruct H
    end.

Lemma wrong_count_never_returns X y o t r xl yl ti loc :
  wp (both numpy_contract wrong_count)
     (plot_utility.plot_decision_regions X y o t r xl yl ti loc)
     (fun _ _ => False).
Proof.
  unfold plot_utility.plot_decision_regions.
  unfold call_. cbn [bind wp].
  intros uniq _ cmap _ c0 _ lo1 _ c0' _ hi1 _ c1 _ lo2 _ c1' _ hi2 _
         a1 _ a2 _ [x1 x2] [Hmesh _].
  cbn [bind wp].
  intros predict _ r1 [Hr1 _] r2 [Hr2 _] pts [Hpts _] ptsT [HptsT _]
         answer [_ Hwrong] sh [Hsh _] z [Hz _].
  cbn [numpy_contract wrong_count np_sem] in *.
  exfalso. eapply reshape_refuses; eassumption.
Qed.

Lemma wrong_count_draws_nothing X y o t r xl yl ti loc :
  guarded (fun c => is_pyplot c = false) (both numpy_contract wrong_count)
    (plot_utility.plot_decision_regions X y o t r xl yl ti loc).
Proof.
  unfold plot_utility.plot_decision_regions. unfold call_. cbn [bind].
  do 13 (constructor; [reflexivity|intros ? ?; cbn [bind]]).
  match goal with H : both _ _ (CNp (np_meshgrid _ _)) ?p |- _ =>
    destruct p as [x1 x2] end.
  do 8 (constructor; [reflexivity|intros ? ?; cbn [bind]]).
  exfalso. split_contracts.
  cbn [numpy_contract wrong_count np_sem] in *.
  eapply reshape_refuses; eassumption.
Qed.

(** X5.  When the classifier answers with another number of labels than it was
    given grid points, [plot_decision_regions] does not return (numpy's
    [reshape] refuses) and no [pyplot] function has been called: nothing is
    drawn. *)
Theorem wrong_number_of_predictions_draws_nothing
    X y o t r xl yl ti loc W (h : handler W) s g :
  respects h numpy_contract ->
  respects h wrong_count ->
  let o' := run h (plot_utility.plot_decision_regions
                     X y o t r xl yl ti loc) s g in
  (exists e, res o' = Raise e) /\ calls_where is_pyplot (log o') = [].
Proof.
  intros Hn Hw. cbv zeta.
  assert (Hb : respects h (both numpy_contract wrong_count))
    by (apply respects_both; assumption).
  split.
  - destruct (res (run h _ s g)) as [[]|e] eqn:E; [|eauto].
    exfalso.
    apply wp_sound
      with (Q := both numpy_contract wrong_count) (r := tt)
           (post := fun (_ : list event) (_ : unit) => False) in E;
      [exact E|exact Hb|].
    apply wrong_count_never_returns.
  - apply calls_where_none.
    apply guarded_log
      with (P := fun c => is_pyplot c = false)
           (Q := both numpy_contract wrong_count); [exact Hb|].
    apply wrong_count_draws_nothing.
Qed.

Lemma one_too_many_is_wrong exposes reg ds hold :
  respects (ref_handler exposes one_too_many reg ds hold) wrong_count.
Proof.
  intros c s a s' H. unfold ref_handler in H.
  destruct c as [c|c|c|c|line]; simpl; auto.
  destruct c as [o name|m X|m X]; simpl; auto.
  simpl in H. unfold one_too_many in H. inversion H. simpl.
  rewrite length_map. lia.
Qed.

Lemma wrong_number_of_predictions_draws_nothing_witness :
  let o' := run (ref_handler Samples.predict_only one_too_many
                   Samples.first_feature
                   (Samples.three_points, Samples.three_labels) 1)
                (body (Samples.regions3 3)) tt [] in
  (exists e, res o' = Raise e) /\ calls_where is_pyplot (log o') = [].
Proof.
  refine (@wrong_number_of_predictions_draws_nothing Samples.three_points
            Samples.three_labels (Obj 1) (Some [2%Z]) 3 "x" "y"
            (Some "regions"%string) plot_utility.default_loc unit
            (ref_handler Samples.predict_only one_too_many
               Samples.first_feature
               (Samples.three_points, Samples.three_labels) 1) tt [] _ _).
  - apply ref_handler_numpy.
  - apply one_too_many_is_wrong.
Defined.

(** ** Runs that raise *)

(** A piece that never returns hides what follows it. *)
Lemma guarded_bind_stuck A B P Q (p : prog A) (f : A -> prog B) :
  guarded P Q p -> wp Q p (fun _ _ => False) -> guarded P Q (bind p f).
Proof.
  intros Hg. induction Hg as [r|c k Hc Hk IH]; simpl; intros Hw.
  - contradiction.
  - constructor; [exact Hc|]. intros a Ha. apply IH; [exact Ha|].
    eapply wp_mono; [|apply Hw; exact Ha]. auto.
Qed.

Lemma wp_bind_stuck A B Q (p : prog A) (f : A -> prog B) post :
  wp Q p (fun _ _ => False) -> wp Q (bind p f) post.
Proof.
  intros Hw. apply wp_bind. eapply wp_mono; [|exact Hw].
  simpl. contradiction.
Qed.

Lemma never_returns W (h : handler W) R Q (p : prog R) s g :
  respects h Q -> wp Q p (fun _ _ => False) ->
  exists e, res (run h p s g) = Raise e.
Proof.
  intros Hh Hw. destruct (res (run h p s g)) as [r|e] eqn:E; [|eauto].
  exfalso.
  apply wp_sound
    with (Q := Q) (r := r)
         (post := fun (_ : list event) (_ : R) => False) in E; assumption.
Qed.

(** The call at which a guarded program stopped. *)
Lemma guarded_failure W (h : handler W) R P (p : prog R) :
  guarded P any_library p ->
  forall s g e,
    res (run h p s g) = Raise e ->
    exists pre c s0,
      log (run h p s g) = pre ++ [Raised c e] /\ P c /\
      fst (h c s0) = Raise e.
Proof.
  intros Hg. induction Hg as [r|c k Hc Hk IH]; intros s g e; simpl.
  - discriminate.
  - destruct (h c s) as [[a|e'] s'] eqn:E; simpl.
    + intros Hres. destruct (IH a I s' g e Hres) as (pre & c' & s0 & Hl & Hp & Hr).
      exists (Returned c a :: pre), c', s0. rewrite Hl. auto.
    + intros Hres. inversion Hres; subst e'.
      exists [], c, s. rewrite E. auto.
Qed.

(** *** What numpy raises *)

Lemma column_raises X c e : Np.column X c = Raise e -> e = IndexError.
Proof.
  induction X as [|row X IH]; simpl; [discriminate|].
  destruct (nth_error row c); [|congruence].
  destruct (Np.column X c); simpl; [discriminate|].
  intros H. apply IH. congruence.
Qed.

Lemma index_raises A (a : list A) i e : Np.index a i = Raise e -> e = IndexError.
Proof.
  unfold Np.index.
  destruct (_ && _)%bool; [|congruence].
  destruct (nth_error _ _); congruence.
Qed.

Lemma take_raises A (a : list A) idx e : Np.take a idx = Raise e -> e = IndexError.
Proof.
  induction idx as [|i idx IH]; simpl; [discriminate|].
  destruct (Np.index a i) eqn:E; simpl; [|intros; apply (index_raises a i); congruence].
  destruct (Np.take a idx); simpl; [discriminate|].
  intros H. apply IH. congruence.
Qed.

Lemma getitem_mask_raises X m c e :
  Np.getitem_mask X m c = Raise e -> e = IndexError.
Proof.
  unfold Np.getitem_mask. destruct (Nat.eqb _ _); [|congruence].
  destruct (Np.column X c) eqn:E; simpl; [discriminate|].
  intros H. apply (@column_raises X c). congruence.
Qed.

Lemma getitem_fancy_raises X idx c e :
  Np.getitem_fancy X idx c = Raise e -> e = IndexError.
Proof.
  unfold Np.getitem_fancy.
  destruct (Np.column X c) eqn:E; simpl.
  - apply take_raises.
  - intros H. apply (@column_raises X c). congruence.
Qed.

Lemma np_sem_raises c e :
  np_sem c = Raise e -> e = IndexError \/ e = ValueError.
Proof.
  destruct c; simpl; try discriminate.
  - intros H; left; eapply getitem_mask_raises; eauto.
  - intros H; left; eapply getitem_fancy_raises; eauto.
  - intros H; left; eapply column_raises; eauto.
  - intros H; left; eapply take_raises; eauto.
  - unfold Np.amin; destruct a; [right|]; congruence.
  - unfold Np.amax; destruct a; [right|]; congruence.
  - unfold Np.amin; destruct (Np.ravel g); [right|]; congruence.
  - unfold Np.amax; destruct (Np.ravel g); [right|]; congruence.
  - unfold Np.arange; destruct (Qeq_bool _ _); [right|]; congruence.
  - unfold Np.array; destruct rows; [discriminate|].
    destruct (forallb _ _); [discriminate|right; congruence].
  - unfold Np.reshape; destruct (Nat.eqb _ _); [discriminate|right; congruence].
  - unfold Np.sub, Np.broadcast. destruct (Nat.eqb _ _); [discriminate|].
    destruct a as [|? [|? ?]], b as [|? [|? ?]]; try discriminate;
      right; congruence.
  - unfold Np.ne, Np.broadcast. destruct (Nat.eqb _ _); [discriminate|].
    destruct a as [|? [|? ?]], b as [|? [|? ?]]; try discriminate;
      right; congruence.
  - unfold Np.vstack. destruct A as [|? ?], B as [|? ?]; try discriminate.
    destruct (Nat.eqb _ _); [discriminate|right; congruence].
Qed.

Ltac numpy_raises :=
  cbn [raises_within np_sem In];
  first
    [ exact I
    | discriminate
    | let e := fresh "e" in
      let H := fresh "H" in
      intros e H;
      first
        [ discriminate H
        | left; symmetry;
          first [ eapply getitem_mask_raises; exact H
                | eapply getitem_fancy_raises; exact H
                | eapply take_raises; exact H
                | eapply column_raises; exact H ]
        | destruct (np_sem_raises _ H) as [-> | ->]; simpl; auto ] ].

Lemma body_raises_within (i : invocation) :
  guarded (raises_within (numpy_errors i)) any_library (body i).
Proof.
  destruct i; simpl;
    [unfold plot_utility.plot_features
    |unfold plot_utility.plot_decision_regions
    |unfold plot_utility.plot_predictions
    |unfold plot_utility.plot_residuals];
    walk ltac:(numpy_raises).
Qed.

(** X6.  When numpy behaves as documented and matplotlib accepts every
    call, a helper that raises has stopped either in a call on the supplied
    classifier or regressor, or in a numpy call with one of the helper's
    numpy exceptions: [IndexError] alone for [plot_features] and
    [plot_predictions], [IndexError] or [ValueError] for the other two.
    The exception is the one of that last call. *)
Theorem helper_exceptions (i : invocation) W (h : handler W) s g e :
  numpy_reference h -> matplotlib_accepts h ->
  res (run h (body i) s g) = Raise e ->
  exists pre c,
    log (run h (body i) s g) = pre ++ [Raised c e] /\
    (is_object_call c = true \/
     (exists c', c = CNp c') /\ In e (numpy_errors i)).
Proof.
  intros Hnp Hplt Hres.
  destruct (guarded_failure h (body_raises_within i) s g Hres)
    as (pre & c & s0 & Hlog & Hc & Hr).
  exists pre, c. split; [exact Hlog|].
  destruct c as [c|c|c|c|line]; simpl in Hc; try contradiction.
  - right. split; [eauto|]. apply Hc. rewrite <- (Hnp c s0). exact Hr.
  - destruct (Hplt c s0) as [a Ha]. congruence.
  - left. reflexivity.
Qed.

Lemma ref_handler_reference exposes clf reg ds hold :
  numpy_reference (ref_handler exposes clf reg ds hold).
Proof. intros c s. reflexivity. Qed.

Lemma ref_handler_accepts exposes clf reg ds hold :
  matplotlib_accepts (ref_handler exposes clf reg ds hold).
Proof. intros c s. destruct c; simpl; eauto. Qed.

Lemma helper_exceptions_witness :
  let o := run (Samples.lib Samples.predict_only)
               (body (call_plot_features Samples.three_points [0; 1]%Z None
                        "x" "y" None plot_utility.default_loc)) tt [] in
  exists pre c,
    log o = pre ++ [Raised c IndexError] /\
    (is_object_call c = true \/
     (exists c', c = CNp c') /\
     In IndexError
        (numpy_errors (call_plot_features Samples.three_points [0; 1]%Z None
                         "x" "y" None plot_utility.default_loc))).
Proof.
  refine (@helper_exceptions
            (call_plot_features Samples.three_points [0; 1]%Z None
               "x" "y" None plot_utility.default_loc)
            unit (Samples.lib Samples.predict_only) tt [] IndexError _ _ _).
  - apply ref_handler_reference.
  - apply ref_handler_accepts.
  - reflexivity.
Defined.

(** *** Inputs numpy refuses *)

Lemma unique_nonempty y : y <> [] -> Np.unique y <> [].
Proof.
  destruct y as [|v y]; [congruence|]. intros _ E.
  assert (H : In v (Np.unique (v :: y))) by (apply unique_In; left; reflexivity).
  rewrite E in H. exact H.
Qed.

Lemma mask_refused X y l c (a : farray) :
  List.length y <> List.length X ->
  Np.getitem_mask X (Np.eq_scalar y l) c = Ok a -> False.
Proof.
  intros Hlen. unfold Np.getitem_mask, Np.eq_scalar. rewrite length_map.
  destruct (Nat.eqb (List.length y) (List.length X)) eqn:E; [|discriminate].
  apply Nat.eqb_eq in E. contradiction.
Qed.

Lemma training_loop_stuck X y :
  y <> [] -> List.length y <> List.length X ->
  wp numpy_contract (plot_utility.plot_training_data X y) (fun _ _ => False)
  /\ guarded (fun c => draws_samples c = false) numpy_contract
       (plot_utility.plot_training_data X y).
Proof.
  intros Hy Hlen. apply unique_nonempty in Hy.
  unfold plot_utility.plot_training_data, call_. cbn [bind]. split.
  - cbn [wp]. intros uniq Hu. cbn [numpy_contract np_sem] in Hu.
    inversion Hu; subst uniq; clear Hu.
    destruct (Np.unique y) as [|l0 rest]; [congruence|].
    cbn [plot_utility.zip3 plot_utility.colors plot_utility.markers combine
         for_each bind wp].
    intros m Hm xs Hxs. cbn [numpy_contract np_sem] in Hm, Hxs.
    inversion Hm; subst m. exfalso. eapply mask_refused; eassumption.
  - constructor; [reflexivity|]. intros uniq Hu.
    cbn [numpy_contract np_sem] in Hu. inversion Hu; subst uniq; clear Hu.
    destruct (Np.unique y) as [|l0 rest]; [congruence|].
    cbn [plot_utility.zip3 plot_utility.colors plot_utility.markers combine
         for_each bind].
    constructor; [reflexivity|]. intros m Hm.
    constructor; [reflexivity|]. intros xs Hxs.
    cbn [numpy_contract np_sem] in Hm, Hxs.
    inversion Hm; subst m. exfalso. eapply mask_refused; eassumption.
Qed.

Lemma mismatched_body_stuck i X y :
  samples_of i = Some (X, y) ->
  y <> [] -> List.length y <> List.length X ->
  wp numpy_contract (body i) (fun _ _ => False)
  /\ guarded (fun c => draws_samples c = false) numpy_contract (body i).
Proof.
  intros Hs Hy Hlen.
  destruct (@training_loop_stuck X y Hy Hlen) as [Hw Hg].
  destruct i; simpl in Hs; inversion Hs; subst; cbn [body].
  - unfold plot_utility.plot_features. split.
    + exact (@wp_bind_stuck unit unit numpy_contract
               (plot_utility.plot_training_data X y) _ _ Hw).
    + exact (guarded_bind_stuck _ Hg Hw).
  - unfold plot_utility.plot_decision_regions, call_. cbn [bind]. split.
    + cbn [wp]. intros.
      repeat match goal with
        | |- wp _ (match ?x with _ => _ end) _ => destruct x
        | |- wp _ (Call _ _) _ => cbn [wp bind]; intros
        end.
      exact (@wp_bind_stuck unit unit numpy_contract
               (plot_utility.plot_training_data X y) _ _ Hw).
    + repeat match goal with
        | |- guarded _ _ (match ?x with _ => _ end) => destruct x
        | |- guarded _ _ (Call _ _) =>
            constructor; [reflexivity|intros ? ?; cbn [bind]]
        end.
      exact (guarded_bind_stuck _ Hg Hw).
Qed.

(** X7.  When the label vector is not empty and its length differs from the
    number of rows of [X], neither [plot_features] nor
    [plot_decision_regions] returns: numpy refuses the boolean index of the
    first class.  The run ends in an exception, and by then no sample has
    been drawn and no figure shown. *)
Theorem mismatched_labels_draw_no_sample
    (i : invocation) X y W (h : handler W) s g :
  samples_of i = Some (X, y) ->
  y <> [] -> List.length y <> List.length X ->
  respects h numpy_contract ->
  (exists e, res (run h (body i) s g) = Raise e) /\
  calls_where draws_samples (log (run h (body i) s g)) = [].
Proof.
  intros Hs Hy Hlen Hh.
  destruct (@mismatched_body_stuck i X y Hs Hy Hlen) as [Hw Hg]. split.
  - eapply never_returns; eassumption.
  - apply calls_where_none.
    apply guarded_log
      with (P := fun c => draws_samples c = false) (Q := numpy_contract);
      assumption.
Qed.

Lemma mismatched_labels_draw_no_sample_witness :
  let i := call_plot_decision_regions Samples.three_points [0; 1]%Z (Obj 1)
             None 3 "x" "y" None plot_utility.default_loc in
  (exists e, res (run (Samples.lib Samples.predict_only) (body i) tt [])
             = Raise e) /\
  calls_where draws_samples
    (log (run (Samples.lib Samples.predict_only) (body i) tt [])) = [].
Proof.
  refine (@mismatched_labels_draw_no_sample
            (call_plot_decision_regions Samples.three_points [0; 1]%Z (Obj 1)
               None 3 "x" "y" None plot_utility.default_loc)
            Samples.three_points [0; 1]%Z unit
            (Samples.lib Samples.predict_only) tt [] _ _ _ _).
  - reflexivity.
  - discriminate.
  - simpl. lia.
  - apply ref_handler_numpy.
Defined.

(** *** The exact run on refused input *)

Ltac answer_numpy Hn :=
  cbn [run];
  match goal with
  | |- context [?h (CNp ?c) ?s] =>
      let H := fresh "H" in
      let r := fresh "r" in
      let s1 := fresh "s" in
      pose proof (Hn c s) as H;
      destruct (h (CNp c) s) as [r s1];
      cbn [fst np_sem] in H; subst r
  end.

(** X8.  With numpy as documented, [plot_features] on a non-empty label
    vector whose length differs from the number of rows of [X] makes three
    calls and no more: [np.unique], the comparison with the smallest label,
    and the boolean index into column 0, which raises [IndexError]. *)
Theorem mismatched_labels_raise_IndexError
    X y t xl yl ti loc W (h : handler W) s g :
  numpy_reference h ->
  y <> [] -> List.length y <> List.length X ->
  let o := run h (plot_utility.plot_features X y t xl yl ti loc) s g in
  let l0 := hd 0%Z (Np.unique y) in
  res o = Raise IndexError /\
  map call_of (log o)
  = [CNp (np_unique y); CNp (np_eq y l0);
     CNp (np_getitem_mask X (Np.eq_scalar y l0) 0)].
Proof.
  intros Hn Hy Hlen. cbv zeta. apply unique_nonempty in Hy.
  assert (Hm : forall l, Np.getitem_mask X (Np.eq_scalar y l) 0
                         = Raise IndexError).
  { intros l. unfold Np.getitem_mask, Np.eq_scalar. rewrite length_map.
    destruct (Nat.eqb (List.length y) (List.length X)) eqn:E;
      [apply Nat.eqb_eq in E; contradiction|reflexivity]. }
  unfold plot_utility.plot_features, plot_utility.plot_training_data, call_.
  cbn [bind].
  answer_numpy Hn.
  destruct (Np.unique y) as [|l0 rest]; [congruence|].
  cbn [plot_utility.zip3 plot_utility.colors plot_utility.markers combine
       for_each bind hd logged res log map call_of].
  answer_numpy Hn.
  cbn [logged res log map call_of].
  answer_numpy Hn.
  rewrite Hm. split; reflexivity.
Qed.

Lemma mismatched_labels_raise_IndexError_witness :
  let o := run (Samples.lib Samples.predict_only)
               (plot_utility.plot_features Samples.three_points [1; 0]%Z None
                  "x" "y" None plot_utility.default_loc) tt [] in
  let l0 := hd 0%Z (Np.unique [1; 0]%Z) in
  res o = Raise IndexError /\
  map call_of (log o)
  = [CNp (np_unique [1; 0]%Z); CNp (np_eq [1; 0]%Z l0);
     CNp (np_getitem_mask Samples.three_points
            (Np.eq_scalar [1; 0]%Z l0) 0)].
Proof.
  refine (@mismatched_labels_raise_IndexError Samples.three_points [1; 0]%Z
            None "x" "y" None plot_utility.default_loc unit
            (Samples.lib Samples.predict_only) tt [] _ _ _).
  - apply ref_handler_reference.
  - discriminate.
  - simpl. lia.
Defined.

(** *** Labels, title, legend, show *)

Lemma decoration_wp (i : invocation) :
  wp any_library (body i)
     (fun l _ => calls_where is_decoration l = expected_decoration i).
Proof.
  destruct i; cbn [body];
    wp_walk (fun c => is_decoration c = false) ltac:(reflexivity);
    read_log; forget_pieces; reflexivity.
Qed.

(** X9.  A helper that returns has labelled the axes with [xlabel] and
    [ylabel] as given, set the title when one was given and not otherwise,
    drawn the legend at [loc] (the regression helpers only when [test_idx]
    is not [None]) and shown the figure, each once and in this order. *)
Theorem figure_decoration (i : invocation) W (h : handler W) s g :
  res (run h (body i) s g) = Ok tt ->
  calls_where is_decoration (log (run h (body i) s g))
  = expected_decoration i.
Proof.
  intros Hres.
  apply wp_sound
    with (Q := any_library) (r := tt)
         (post := fun l (_ : unit) =>
                    calls_where is_decoration l = expected_decoration i).
  - apply respects_any.
  - apply decoration_wp.
  - exact Hres.
Qed.

Lemma figure_decoration_witness :
  calls_where is_decoration
    (log (run (Samples.lib Samples.predict_only)
              (body Samples.residuals3) tt []))
  = expected_decoration Samples.residuals3.
Proof.
  apply (@figure_decoration Samples.residuals3 unit
           (Samples.lib Samples.predict_only) tt []).
  reflexivity.
Defined.

Ltac answer_matplotlib Hplt :=
  cbn [run];
  match goal with
  | |- context [?h (CPlt ?c) ?s] =>
      let a := fresh "a" in
      let H := fresh "H" in
      let r := fresh "r" in
      let s1 := fresh "s" in
      destruct (Hplt c s) as [a H];
      destruct (h (CPlt c) s) as [r s1];
      cbn [fst] in H; subst r
  end.

(** X10.  With numpy as documented and a matplotlib that accepts every
    call, [plot_decision_regions] on an [X] without rows makes four calls:
    [np.unique], the colormap constructor, column 0 of [X], and the
    minimum of that empty column, which raises [ValueError].  The
    classifier is not consulted and nothing is drawn. *)
Theorem empty_samples_raise_ValueError
    y o t r xl yl ti loc W (h : handler W) s g :
  numpy_reference h -> matplotlib_accepts h ->
  let o' := run h (plot_utility.plot_decision_regions
                     [] y o t r xl yl ti loc) s g in
  res o' = Raise ValueError /\
  map call_of (log o')
  = [CNp (np_unique y);
     CPlt (mpl_ListedColormap
             (firstn (List.length (Np.unique y)) plot_utility.colors));
     CNp (np_getitem_col [] 0);
     CNp (np_min [])].
Proof.
  intros Hn Hplt. cbv zeta.
  unfold plot_utility.plot_decision_regions, call_. cbn [bind].
  answer_numpy Hn. answer_matplotlib Hplt.
  cbn [logged res log map call_of].
  answer_numpy Hn. cbn [Np.column logged res log map call_of].
  answer_numpy Hn.
  split; reflexivity.
Qed.

Lemma empty_samples_raise_ValueError_witness :
  let o' := run (Samples.lib Samples.predict_only)
                (plot_utility.plot_decision_regions
                   [] Samples.three_labels (Obj 1) None 1 "x" "y" None
                   plot_utility.default_loc) tt [] in
  res o' = Raise ValueError /\
  map call_of (log o')
  = [CNp (np_unique Samples.three_labels);
     CPlt (mpl_ListedColormap
             (firstn (List.length (Np.unique Samples.three_labels))
                     plot_utility.colors));
     CNp (np_getitem_col [] 0);
     CNp (np_min [])].
Proof.
  refine (@empty_samples_raise_ValueError Samples.three_labels (Obj 1) None 1
            "x" "y" None plot_utility.default_loc unit
            (Samples.lib Samples.predict_only) tt [] _ _).
  - apply ref_handler_reference.
  - apply ref_handler_accepts.
Defined.

(** ** The output of the script *)

Lemma vstack_app A B C : Np.vstack A B = Ok C -> C = A ++ B.
Proof.
  unfold Np.vstack. destruct A as [|ra A]; [intros H; inversion H; reflexivity|].
  destruct B as [|rb B]; [intros H; inversion H; reflexivity|].
  destruct (Nat.eqb _ _); intros H; inversion H. reflexivity.
Qed.

Ltac forget_script :=
  repeat match goal with
    | H : Forall _ _ |- _ =>
        rewrite (@pick_none _ observe_script _ H); clear H
    end.

Lemma regions_script_wp X y k t r xl yl ti loc :
  wp numpy_contract
     (plot_utility.plot_decision_regions X y k (Some t) r xl yl ti loc)
     (fun l _ =>
        match t with
        | [] => pick observe_script l = [Figure]
        | _ :: _ =>
            exists rows,
              Np.take X t = Ok rows /\
              pick observe_script l
              = [Highlighted (coords 0 rows) (coords 1 rows); Figure]
        end).
Proof.
  destruct t as [|j rest];
    wp_walk (fun c => script_call c = None) ltac:(reflexivity);
    cbn [numpy_contract np_sem] in *.
  - read_log. forget_script. reflexivity.
  - read_log. forget_script. reflexivity.
  - match goal with
    | H0 : Np.getitem_fancy _ _ 0 = Ok _,
      H1 : Np.getitem_fancy _ _ 1 = Ok _ |- _ =>
        destruct (fancy_rows _ _ _ H0) as (rows & Hr & ->);
        destruct (fancy_rows _ _ _ H1) as (rows' & Hr' & ->);
        assert (rows' = rows) by congruence; subst rows';
        exists rows; split; [exact Hr|read_log; forget_script; reflexivity]
    end.
  - match goal with
    | H0 : Np.getitem_fancy _ _ 0 = Ok _,
      H1 : Np.getitem_fancy _ _ 1 = Ok _ |- _ =>
        destruct (fancy_rows _ _ _ H0) as (rows & Hr & ->);
        destruct (fancy_rows _ _ _ H1) as (rows' & Hr' & ->);
        assert (rows' = rows) by congruence; subst rows';
        exists rows; split; [exact Hr|read_log; forget_script; reflexivity]
    end.
Qed.

Lemma test_idx_of_split (y_train y_test y : labels) :
  List.length y = (List.length y_train + List.length y_test)%nat ->
  sklearn_knn.test_idx y_train y
  = sklearn_knn.py_range (List.length y_train)
      (List.length y_train + List.length y_test).
Proof.
  intros H. unfold sklearn_knn.test_idx. rewrite H. reflexivity.
Qed.

Lemma py_range_empty n : sklearn_knn.py_range n (n + 0) = [].
Proof.
  unfold sklearn_knn.py_range. replace (n + 0 - n)%nat with 0%nat by lia.
  reflexivity.
Qed.

Lemma py_range_nonempty n m :
  exists j rest, sklearn_knn.py_range n (n + S m) = j :: rest.
Proof.
  unfold sklearn_knn.py_range. replace (n + S m - n)%nat with (S m) by lia.
  simpl. eauto.
Qed.

Lemma turn_script_wp (X_train_std X_test_std : fmat)
    (y_train y_test y y_combined : labels) k :
  List.length y = (List.length y_train + List.length y_test)%nat ->
  List.length X_train_std = List.length y_train ->
  List.length X_test_std = List.length y_test ->
  wp (both numpy_contract sklearn_contract)
     (bind (sklearn_knn.show_accuracy k X_test_std y_test)
        (fun _ =>
           plot_utility.plot_decision_regions
             (X_train_std ++ X_test_std) y_combined k
             (Some (sklearn_knn.test_idx y_train y))
             plot_utility.default_resolution "x" "y" None
             plot_utility.default_loc))
     (fun l _ => exists line, pick observe_script l = turn_obs X_test_std line).
Proof.
  intros Hy Htr Hte. rewrite (test_idx_of_split _ _ _ Hy).
  rewrite <- Htr, <- Hte.
  unfold sklearn_knn.show_accuracy, call_. cbn [bind wp].
  intros m _ y_pred _ d _ n _ u _.
  eapply wp_mono;
    [|eapply wp_under; [|apply regions_script_wp]; intros c a [Ha _]; exact Ha].
  cbv beta. intros l _ Hl.
  exists (sklearn_knn.format_misclassified n).
  read_log. unfold turn_obs.
  destruct X_test_std as [|row rows].
  - simpl List.length in Hl. rewrite py_range_empty in Hl. rewrite Hl.
    reflexivity.
  - destruct (py_range_nonempty (List.length X_train_std)
                (List.length rows)) as (j & rest & E).
    simpl List.length in Hl. rewrite E in Hl.
    destruct Hl as (taken & Htake & Hl).
    rewrite <- E in Htake.
    change (S (List.length rows)) with (List.length (row :: rows)) in Htake.
    rewrite take_appended in Htake. inversion Htake; subst taken.
    rewrite Hl. reflexivity.
Qed.

Ltac script_turn line H :=
  apply wp_bind;
  (eapply wp_mono; [|eapply turn_script_wp; eassumption]);
  cbv beta; intros ? _ [line H].

Lemma main_script_wp :
  wp (both numpy_contract sklearn_contract) sklearn_knn.main
     (fun l _ => exists X_train_std X_test_std lines,
          pick transformed_of (firstn setup_calls l)
          = [X_train_std; X_test_std] /\
          List.length lines = 4%nat /\
          pick observe_script l = flat_map (turn_obs X_test_std) lines).
Proof.
  unfold sklearn_knn.main, sklearn_knn.fit_knn, call_. cbn [bind wp].
  intros [X y] _ [[[X_train X_test] y_train] y_test] [_ Hsplit].
  cbn [bind wp].
  intros sc0 _ sc _ X_train_std [_ Htr] X_test_std [_ Hte]
         X_combined_std [Hstack _] y_combined _
         c4 _ k4 _ c5 _ k5 _ c6 _ k6 _ c5m _ k5m _.
  cbn [sklearn_contract numpy_contract np_sem] in Hsplit, Htr, Hte, Hstack.
  destruct Hsplit as (Hs1 & Hs2 & Hs3).
  assert (Hl1 : List.length X_train_std = List.length y_train) by congruence.
  assert (Hl2 : List.length X_test_std = List.length y_test) by congruence.
  apply vstack_app in Hstack. subst X_combined_std.
  cbn [for_each].
  script_turn line1 H1. script_turn line2 H2.
  script_turn line3 H3. script_turn line4 H4.
  cbn [wp].
  exists X_train_std, X_test_std, [line1; line2; line3; line4].
  split; [reflexivity|]. split; [reflexivity|].
  read_log. rewrite H1, H2, H3, H4. cbn [flat_map].
  rewrite !app_nil_r. reflexivity.
Qed.

(** X11.  In every run of the script that returns, against a numpy that
    behaves as documented and a scikit-learn that keeps its shapes, the
    output is, for each of the four classifiers in turn: the printed line,
    then one figure, in which the highlighted samples are exactly the
    standardized test samples (none when the test part is empty). *)
Theorem main_prints_then_shows W (h : handler W) s g :
  respects h numpy_contract ->
  respects h sklearn_contract ->
  res (run h sklearn_knn.main s g) = Ok tt ->
  let l := log (run h sklearn_knn.main s g) in
  exists X_train_std X_test_std lines,
    pick transformed_of (firstn setup_calls l) = [X_train_std; X_test_std] /\
    List.length lines = 4%nat /\
    pick observe_script l = flat_map (turn_obs X_test_std) lines.
Proof.
  intros Hnp Hsk Hres l.
  apply wp_sound
    with (Q := both numpy_contract sklearn_contract) (r := tt)
         (post := fun l _ => exists X_train_std X_test_std lines,
                      pick transformed_of (firstn setup_calls l)
                      = [X_train_std; X_test_std] /\
                      List.length lines = 4%nat /\
                      pick observe_script l
                      = flat_map (turn_obs X_test_std) lines).
  - apply respects_both; assumption.
  - apply main_script_wp.
  - exact Hres.
Qed.

Lemma main_prints_then_shows_witness :
  let l := log (run (Samples.lib Samples.predict_only) sklearn_knn.main tt []) in
  exists X_train_std X_test_std lines,
    pick transformed_of (firstn setup_calls l) = [X_train_std; X_test_std] /\
    List.length lines = 4%nat /\
    pick observe_script l = flat_map (turn_obs X_test_std) lines.
Proof.
  refine (@main_prints_then_shows unit
            (Samples.lib Samples.predict_only) tt [] _ _ _).
  - apply ref_handler_numpy.
  - apply lib_keeps_shapes.
  - vm_compute. reflexivity.
Defined.

(** ** What the script fits *)






(** ** Indices outside the samples *)

Lemma index_in_range A (a : list A) j v :
  Np.index a j = Ok v -> in_range (List.length a) j.
Proof.
  unfold Np.index, in_range.
  destruct (j <? 0)%Z eqn:Ej;
    destruct (_ && _)%bool eqn:E; try discriminate; intros _;
    apply andb_prop in E; destruct E as [E1 E2];
    apply Z.leb_le in E1; apply Z.ltb_lt in E2;
    [apply Z.ltb_lt in Ej|apply Z.ltb_ge in Ej]; lia.
Qed.

Lemma take_refused A (a : list A) t j vs :
  In j t -> ~ in_range (List.length a) j -> Np.take a t = Ok vs -> False.
Proof.
  intros Hin Hout. revert vs. induction t as [|i t IH]; intros vs H.
  - destruct Hin.
  - simpl in H. destruct (Np.index a i) as [v|e] eqn:E; simpl in H;
      [|discriminate].
    destruct (Np.take a t) as [ws|e]; simpl in H; [|discriminate].
    destruct Hin as [->|Hin].
    + apply Hout. eapply index_in_range; eauto.
    + eapply IH; eauto.
Qed.

Lemma fancy_refused X t c j a :
  In j t -> ~ in_range (List.length X) j ->
  Np.getitem_fancy X t c = Ok a -> False.
Proof.
  intros Hin Hout. unfold Np.getitem_fancy.
  destruct (Np.column X c) as [col|e] eqn:E; simpl; [|discriminate].
  rewrite <- (column_length X c E) in Hout.
  eapply take_refused; eauto.
Qed.

Ltac index_refused :=
  exfalso; split_contracts;
  cbn [numpy_contract one_target_per_sample np_sem] in *;
  try match goal with
    | Hl : List.length ?p = List.length ?X,
      Ho : ~ in_range (List.length ?X) _ |- _ => rewrite <- Hl in Ho
    end;
  match goal with
  | H : Np.getitem_fancy _ _ _ = Ok _ |- _ =>
      eapply fancy_refused; [| |exact H]; eassumption
  | H : Np.take _ _ = Ok _ |- _ =>
      eapply take_refused; [| |exact H]; eassumption
  end.

Lemma out_of_range_stuck (i : invocation) t j :
  test_idx_of i = Some t -> In j t -> ~ in_range (sample_count i) j ->
  wp (both numpy_contract one_target_per_sample) (body i) (fun _ _ => False)
  /\ guarded (fun c => highlights_or_shows c = false)
       (both numpy_contract one_target_per_sample) (body i).
Proof.
  intros Ht Hin Hout. destruct t as [|j0 rest]; [destruct Hin|].
  destruct i; cbn [body test_idx_of sample_count] in *; subst; split.
  all: first
    [ solve [ wp_walk (fun _ : call => True) ltac:(exact I); index_refused ]
    | unfold_helpers;
      walk ltac:(first [reflexivity | index_refused]) ].
Qed.

(** X13.  When [test_idx] holds an index outside the samples (numpy takes
    [-n .. n-1] for [n] samples), no helper returns: the run ends in an
    exception, no sample has been highlighted and no figure shown.  For
    [plot_residuals], whose highlighted points are taken from the
    predictions, the regressor is assumed to answer one target per
    sample. *)
Theorem out_of_range_index_never_shows
    (i : invocation) t j W (h : handler W) s g :
  test_idx_of i = Some t -> In j t -> ~ in_range (sample_count i) j ->
  respects h numpy_contract ->
  respects h one_target_per_sample ->
  (exists e, res (run h (body i) s g) = Raise e) /\
  calls_where highlights_or_shows (log (run h (body i) s g)) = [].
Proof.
  intros Ht Hin Hout Hn Hr.
  assert (Hb : respects h (both numpy_contract one_target_per_sample))
    by (apply respects_both; assumption).
  destruct (@out_of_range_stuck i t j Ht Hin Hout) as [Hw Hg]. split.
  - eapply never_returns; eassumption.
  - apply calls_where_none.
    apply guarded_log
      with (P := fun c => highlights_or_shows c = false)
           (Q := both numpy_contract one_target_per_sample);
      assumption.
Qed.

Lemma first_feature_one_per_sample exposes clf ds hold :
  respects (ref_handler exposes clf Samples.first_feature ds hold)
    one_target_per_sample.
Proof.
  intros c s a s' H. unfold ref_handler in H.
  destruct c as [c|c|c|c|line]; simpl; auto.
  destruct c as [o name|m X|m X]; simpl; auto.
  simpl in H. unfold Samples.first_feature in H. inversion H.
  apply length_map.
Qed.

Lemma out_of_range_index_never_shows_witness :
  let i := call_plot_residuals Samples.three_points Samples.three_targets
             (Obj 2) (Some [0; 3]%Z) "x" "y" None plot_utility.default_loc in
  (exists e, res (run (Samples.lib Samples.predict_only) (body i) tt [])
             = Raise e) /\
  calls_where highlights_or_shows
    (log (run (Samples.lib Samples.predict_only) (body i) tt [])) = [].
Proof.
  refine (@out_of_range_index_never_shows
            (call_plot_residuals Samples.three_points Samples.three_targets
               (Obj 2) (Some [0; 3]%Z) "x" "y" None plot_utility.default_loc)
            [0; 3]%Z 3%Z unit (Samples.lib Samples.predict_only) tt []
            _ _ _ _ _).
  - reflexivity.
  - simpl. auto.
  - unfold in_range. simpl. lia.
  - apply ref_handler_numpy.
  - apply first_feature_one_per_sample.
Defined.

(** ** The held-out indices, from the split to the plot *)

Lemma flow_silent l :
  Forall (fun ev => is_flow (call_of ev) = false) l ->
  pick observe_flow l = [].
Proof.
  intros H. apply pick_none. eapply Forall_impl; [|exact H].
  intros [c a|c e]; [|reflexivity].
  destruct c as [c|c|c|c|line]; try reflexivity;
    destruct c; simpl; try reflexivity; discriminate.
Qed.

Ltac forget_flow :=
  repeat match goal with
    | H : Forall _ _ |- _ => rewrite (flow_silent H); clear H
    end.

Ltac flow_step :=
  first
    [ wp_step
    | apply wp_skip with (P := fun c => is_flow c = false);
      [ apply guarded_for_each; intros [[? ?] ?]; walk ltac:(reflexivity)
      | intros; cbn [bind] ] ].

Lemma regions_flow_wp X y k t r xl yl ti loc :
  wp numpy_contract
     (plot_utility.plot_decision_regions X y k (Some t) r xl yl ti loc)
     (fun l _ =>
        exists picked,
          pick observe_flow l = regions_seen X y ++ picked /\
          match t with
          | [] => picked = []
          | _ :: _ =>
              exists rows,
                Np.take X t = Ok rows /\
                picked = [RowsPicked X t 0 (coords 0 rows);
                          RowsPicked X t 1 (coords 1 rows)]
          end).
Proof.
  destruct t as [|j rest];
    unfold plot_utility.plot_decision_regions,
      plot_utility.plot_training_data;
    unfold_pieces; repeat flow_step;
    cbn [numpy_contract np_sem] in *.
  - exists []. split; [read_log; forget_flow; reflexivity|reflexivity].
  - exists []. split; [read_log; forget_flow; reflexivity|reflexivity].
  - match goal with
    | H0 : Np.getitem_fancy _ _ 0 = Ok _,
      H1 : Np.getitem_fancy _ _ 1 = Ok _ |- _ =>
        destruct (fancy_rows _ _ _ H0) as (rows & Hr & ->);
        destruct (fancy_rows _ _ _ H1) as (rows' & Hr' & ->);
        assert (rows' = rows) by congruence; subst rows'
    end.
    eexists. split; [read_log; forget_flow; reflexivity|].
    exists rows. split; [assumption|reflexivity].
  - match goal with
    | H0 : Np.getitem_fancy _ _ 0 = Ok _,
      H1 : Np.getitem_fancy _ _ 1 = Ok _ |- _ =>
        destruct (fancy_rows _ _ _ H0) as (rows & Hr & ->);
        destruct (fancy_rows _ _ _ H1) as (rows' & Hr' & ->);
        assert (rows' = rows) by congruence; subst rows'
    end.
    eexists. split; [read_log; forget_flow; reflexivity|].
    exists rows. split; [assumption|reflexivity].
Qed.

Lemma indices_of_split (y_train y_test y : labels) (X_train_std : fmat) :
  List.length y = (List.length y_train + List.length y_test)%nat ->
  List.length X_train_std = List.length y_train ->
  sklearn_knn.test_idx y_train y
  = indices_from_to (List.length y_train) (List.length y) /\
  indices_from_to (List.length y_train) (List.length y)
  = sklearn_knn.py_range (List.length X_train_std)
      (List.length X_train_std + List.length y_test).
Proof.
  intros Hy Htr. unfold sklearn_knn.test_idx, sklearn_knn.py_range,
    indices_from_to. rewrite Hy, Htr. split; reflexivity.
Qed.

Lemma turn_flow_wp (X_train_std X_test_std : fmat)
    (y_train y_test y y_combined : labels) k :
  List.length y = (List.length y_train + List.length y_test)%nat ->
  List.length X_train_std = List.length y_train ->
  List.length X_test_std = List.length y_test ->
  wp (both numpy_contract sklearn_contract)
     (bind (sklearn_knn.show_accuracy k X_test_std y_test)
        (fun _ =>
           plot_utility.plot_decision_regions
             (X_train_std ++ X_test_std) y_combined k
             (Some (sklearn_knn.test_idx y_train y))
             plot_utility.default_resolution "x" "y" None
             plot_utility.default_loc))
     (fun l _ =>
        pick observe_flow l
        = regions_inputs (X_train_std ++ X_test_std) y_combined
            (indices_from_to (List.length y_train) (List.length y))
            X_test_std).
Proof.
  intros Hy Htr Hte.
  destruct (indices_of_split y_train y_test y X_train_std Hy Htr) as [E1 E2].
  rewrite E1.
  unfold sklearn_knn.show_accuracy, call_. cbn [bind wp].
  intros m _ y_pred _ d _ n _ u _.
  eapply wp_mono;
    [|eapply wp_under; [|apply regions_flow_wp]; intros c a [Ha _]; exact Ha].
  cbv beta. intros l _ (picked & Hl & Hpicked).
  read_log. rewrite Hl. unfold regions_inputs. f_equal.
  destruct X_test_std as [|row rows].
  - simpl List.length in Hte.
    assert (E : indices_from_to (List.length y_train) (List.length y) = []).
    { unfold indices_from_to. rewrite Hy, <- Hte.
      replace (List.length y_train + 0 - List.length y_train)%nat
        with 0%nat by lia.
      reflexivity. }
    rewrite E in Hpicked. exact Hpicked.
  - destruct (indices_from_to (List.length y_train) (List.length y))
      as [|j rest] eqn:E.
    + exfalso. unfold indices_from_to in E. rewrite Hy, <- Hte in E.
      simpl List.length in E.
      replace (List.length y_train + S (List.length rows)
               - List.length y_train)%nat
        with (S (List.length rows)) in E by lia.
      discriminate.
    + destruct Hpicked as (taken & Htake & ->).
      rewrite E2, <- Hte in Htake.
      rewrite take_appended in Htake. inversion Htake; subst taken.
      rewrite E2, <- Hte. reflexivity.
Qed.

Ltac flow_turn H :=
  apply wp_bind;
  (eapply wp_mono; [|eapply turn_flow_wp; eassumption]);
  cbv beta; intros ? _ H.

Lemma main_flow_wp :
  wp (both numpy_contract sklearn_contract) sklearn_knn.main
     (fun l _ =>
        exists X y X_train X_test y_train y_test X_train_std X_test_std
               X_combined_std y_combined,
          let idx := indices_from_to (List.length y_train) (List.length y) in
          pick observe_flow l
          = [SplitParts X y X_train X_test y_train y_test;
             Scaled X_train X_train_std; Scaled X_test X_test_std;
             StackedSamples X_train_std X_test_std X_combined_std;
             StackedLabels y_train y_test y_combined]
            ++ concat (repeat (regions_inputs X_combined_std y_combined
                                 idx X_test_std) 4) /\
          Np.take X_combined_std idx = Ok X_test_std /\
          Np.take y_combined idx = Ok y_test).
Proof.
  unfold sklearn_knn.main, sklearn_knn.fit_knn, call_. cbn [bind wp].
  intros [X y] _ [[[X_train X_test] y_train] y_test] [_ Hsplit].
  cbn [bind wp].
  intros sc0 _ sc _ X_train_std [_ Htr] X_test_std [_ Hte]
         X_combined_std [Hstack _] y_combined [Hlabels _]
         c4 _ k4 _ c5 _ k5 _ c6 _ k6 _ c5m _ k5m _.
  cbn [sklearn_contract numpy_contract np_sem] in Hsplit, Htr, Hte, Hstack,
    Hlabels.
  destruct Hsplit as (Hs1 & Hs2 & Hs3).
  assert (Hl1 : List.length X_train_std = List.length y_train) by congruence.
  assert (Hl2 : List.length X_test_std = List.length y_test) by congruence.
  apply vstack_app in Hstack. subst X_combined_std.
  inversion Hlabels as [Hyc]. clear Hlabels.
  cbn [for_each].
  flow_turn H1. flow_turn H2. flow_turn H3. flow_turn H4.
  cbn [wp].
  exists X, y, X_train, X_test, y_train, y_test, X_train_std, X_test_std,
    (X_train_std ++ X_test_std), (Np.hstack y_train y_test).
  cbv zeta.
  destruct (indices_of_split y_train y_test y X_train_std Hs3 Hl1) as [_ E2].
  split; [|split].
  - read_log. rewrite H1, H2, H3, H4. cbn [repeat concat].
    rewrite !app_nil_r. reflexivity.
  - rewrite E2, <- Hl2. apply take_appended.
  - rewrite Hs3. unfold Np.hstack, indices_from_to.
    replace (List.length y_train + List.length y_test
             - List.length y_train)%nat
      with (List.length y_test) by lia.
    pose proof (take_appended y_train y_test) as T.
    unfold sklearn_knn.py_range in T.
    replace (List.length y_train + List.length y_test
             - List.length y_train)%nat
      with (List.length y_test) in T by lia.
    exact T.
Qed.

(** C10.  In every run of the script that returns, against a numpy that
    behaves as the reference semantics and a scikit-learn that keeps its
    shapes: the standardized training and test samples are stacked in this
    order, and so are the training and test labels of the split; each of
    the four calls of [plot_decision_regions] works on these combined
    arrays; the rows it picks for the highlight are picked by the indices
    [len(y_train), ..., len(y) - 1], and the columns they give are the
    columns of the standardized test samples.  These indices select from
    the combined samples exactly the standardized test samples, and from
    the combined labels exactly the test labels. *)
Theorem test_idx_selects_test_samples W (h : handler W) s g :
  respects h numpy_contract ->
  respects h sklearn_contract ->
  res (run h sklearn_knn.main s g) = Ok tt ->
  exists X y X_train X_test y_train y_test X_train_std X_test_std
         X_combined_std y_combined,
    let idx := indices_from_to (List.length y_train) (List.length y) in
    pick observe_flow (log (run h sklearn_knn.main s g))
    = [SplitParts X y X_train X_test y_train y_test;
       Scaled X_train X_train_std; Scaled X_test X_test_std;
       StackedSamples X_train_std X_test_std X_combined_std;
       StackedLabels y_train y_test y_combined]
      ++ concat (repeat (regions_inputs X_combined_std y_combined
                           idx X_test_std) 4) /\
    Np.take X_combined_std idx = Ok X_test_std /\
    Np.take y_combined idx = Ok y_test.
Proof.
  intros Hnp Hsk Hres.
  apply wp_sound
    with (Q := both numpy_contract sklearn_contract) (r := tt)
         (post := fun l (_ : unit) =>
            exists X y X_train X_test y_train y_test X_train_std X_test_std
                   X_combined_std y_combined,
              let idx :=
                indices_from_to (List.length y_train) (List.length y) in
              pick observe_flow l
              = [SplitParts X y X_train X_test y_train y_test;
                 Scaled X_train X_train_std; Scaled X_test X_test_std;
                 StackedSamples X_train_std X_test_std X_combined_std;
                 StackedLabels y_train y_test y_combined]
                ++ concat (repeat (regions_inputs X_combined_std y_combined
                                     idx X_test_std) 4) /\
              Np.take X_combined_std idx = Ok X_test_std /\
              Np.take y_combined idx = Ok y_test).
  - apply respects_both; assumption.
  - apply main_flow_wp.
  - exact Hres.
Qed.

Lemma test_idx_selects_test_samples_witness :
  exists X y X_train X_test y_train y_test X_train_std X_test_std
         X_combined_std y_combined,
    let idx := indices_from_to (List.length y_train) (List.length y) in
    pick observe_flow
      (log (run (Samples.lib Samples.predict_only) sklearn_knn.main tt []))
    = [SplitParts X y X_train X_test y_train y_test;
       Scaled X_train X_train_std; Scaled X_test X_test_std;
       StackedSamples X_train_std X_test_std X_combined_std;
       StackedLabels y_train y_test y_combined]
      ++ concat (repeat (regions_inputs X_combined_std y_combined
                           idx X_test_std) 4) /\
    Np.take X_combined_std idx = Ok X_test_std /\
    Np.take y_combined idx = Ok y_test.
Proof.
  refine (@test_idx_selects_test_samples unit
            (Samples.lib Samples.predict_only) tt [] _ _ _).
  - apply ref_handler_numpy.
  - apply lib_keeps_shapes.
  - vm_compute. reflexivity.
Defined.

(** The sample run: two training samples, one test sample; the index list
    is [[2]] and picks the third row of the stack. *)
Example sample_highlight :
  In (RowsPicked Samples.three_points [2%Z] 0 [5 # 2])
     (pick observe_flow
        (log (run (Samples.lib Samples.predict_only) sklearn_knn.main tt []))).
Proof. vm_compute. do 11 right. left. reflexivity. Qed.

(** ** No validation, no recovery, no reporting *)











(** ** The helpers are independent *)

(** The log of two programs in sequence. *)
Lemma run_bind W (h : handler W) A B (p : prog A) (f : A -> prog B) :
  forall s g a,
    res (run h p s g) = Ok a ->
    let o := run h p s g in
    log (run h (bind p f) s g)
    = log o ++ log (run h (f a) (lib_state o) (mod_state o)) /\
    res (run h (bind p f) s g)
    = res (run h (f a) (lib_state o) (mod_state o)).
Proof.
  induction p as [r|c k IH|e|n k IH|n v k IH]; intros s g a Hres; simpl in *.
  - inversion Hres; subst. auto.
  - destruct (h c s) as [[b|e] s'] eqn:E; simpl in *; [|discriminate].
    destruct (IH b s' g a Hres) as [Hl Hr]. rewrite Hl, Hr. auto.
  - discriminate.
  - apply IH. exact Hres.
  - apply IH. exact Hres.
Qed.

(** Against a stateless library, a guarded program makes the same calls
    from any state. *)
Lemma guarded_stateless W (h : handler W) R P (p : prog R) :
  guarded P any_library p -> stateless h ->
  forall s s' g g',
    log (run h p s' g') = log (run h p s g) /\
    res (run h p s' g') = res (run h p s g).
Proof.
  intros Hg Hh. induction Hg as [r|c k Hc Hk IH]; intros s s' g g'; simpl.
  - auto.
  - pose proof (Hh c s s') as E.
    destruct (h c s) as [r1 s1]. destruct (h c s') as [r2 s2].
    cbn [fst] in E. subst r2. destruct r1 as [a|e]; simpl.
    + destruct (IH a I s1 s2 g g') as [Hl Hr]. rewrite Hl, Hr. auto.
    + auto.
Qed.

Lemma only_last_bind A B f (p : prog A) (k : A -> prog B) :
  guarded (fun c => f c = false) any_library p ->
  (forall a, only_last f (k a)) -> only_last f (bind p k).
Proof.
  intros Hp Hk. induction Hp as [r|c k0 Hc Hk0 IH]; simpl.
  - apply Hk.
  - apply only_last_Call; [exact Hc|]. intros a. apply IH. exact I.
Qed.

Lemma only_last_log W (h : handler W) R f (p : prog R) :
  only_last f p ->
  forall s g l1 ev l2,
    log (run h p s g) = l1 ++ ev :: l2 -> f (call_of ev) = true -> l2 = [].
Proof.
  induction 1 as [r|c k Hk|c k Hc Hk IH]; intros s g l1 ev l2 Hl Hf;
    simpl in Hl.
  - destruct l1; discriminate.
  - destruct (h c s) as [[a|e] s'] eqn:E; simpl in Hl.
    + destruct (Hk a) as [r Hr]. rewrite Hr in Hl. simpl in Hl.
      destruct l1 as [|x [|y l1]]; inversion Hl; reflexivity.
    + destruct l1 as [|x [|y l1]]; inversion Hl; reflexivity.
  - destruct (h c s) as [[a|e] s'] eqn:E; simpl in Hl.
    + destruct l1 as [|x l1]; inversion Hl; subst.
      * simpl in Hf. congruence.
      * eapply IH; eauto.
    + destruct l1 as [|x [|y l1]]; inversion Hl; subst.
      simpl in Hf. congruence.
Qed.

Ltac only_last_step :=
  match goal with
  | |- only_last _ (Ret _) => apply only_last_Ret
  | |- only_last _ (Call (CPlt plt_show) _) =>
      apply only_last_end; intros ?; eexists; reflexivity
  | |- only_last _ (Call _ _) =>
      apply only_last_Call; [reflexivity|intros ?; cbn [bind]]
  | |- only_last _ (bind _ _) =>
      apply only_last_bind; [walk ltac:(reflexivity)|intros ?; cbn [bind]]
  | |- only_last _ (match ?x with _ => _ end) =>
      first [progress cbv iota | destruct x]
  end.

Lemma body_shows_last (i : invocation) : only_last is_show (body i).
Proof.
  destruct i; cbn [body]; unfold_helpers; unfold call_; cbn [bind];
    repeat only_last_step.
Qed.

Ltac mark_step :=
  first
    [ wp_step
    | apply wp_skip with (P := fun c => landmark_of c = None);
      [ apply guarded_for_each; intros [[? ?] ?]; walk ltac:(reflexivity)
      | intros; cbn [bind] ] ].

Ltac forget_marks :=
  repeat match goal with
    | H : Forall _ _ |- _ =>
        rewrite (@pick_none _ (fun ev => landmark_of (call_of ev)) _ H);
        clear H
    end.

(** A complete run of a helper starts at a landmark and passes the
    landmarks of its signature. *)
Lemma body_signature_wp (i : invocation) :
  wp any_library (body i)
     (fun l _ => landmarks l = signature (helper_of i) /\
                 exists ev rest,
                   l = ev :: rest /\ landmark_of (call_of ev) <> None).
Proof.
  destruct i; cbn [body helper_of signature];
    unfold_helpers; unfold plot_utility.plot_training_data; unfold_pieces;
    repeat mark_step;
    (split;
     [ unfold landmarks; read_log; forget_marks; reflexivity
     | do 2 eexists; split; [reflexivity|discriminate] ]).
Qed.

Lemma returning_signature (i : invocation) W (h : handler W) s g :
  res (run h (body i) s g) = Ok tt ->
  landmarks (log (run h (body i) s g)) = signature (helper_of i) /\
  exists ev rest,
    log (run h (body i) s g) = ev :: rest /\
    landmark_of (call_of ev) <> None.
Proof.
  intros H.
  apply wp_sound
    with (Q := any_library) (r := tt)
         (post := fun l (_ : unit) =>
            landmarks l = signature (helper_of i) /\
            exists ev rest,
              l = ev :: rest /\ landmark_of (call_of ev) <> None);
    [apply respects_any|apply body_signature_wp|exact H].
Qed.

Lemma returning_shows_last (i : invocation) W (h : handler W) s g :
  res (run h (body i) s g) = Ok tt ->
  ends_with (CPlt plt_show) (log (run h (body i) s g)).
Proof.
  intros H.
  assert (Hs : calls_where is_show (log (run h (body i) s g))
               = [CPlt plt_show] /\
               ends_with (CPlt plt_show) (log (run h (body i) s g))).
  { apply wp_sound
      with (Q := any_library) (r := tt)
           (post := fun l (_ : unit) =>
              calls_where is_show l = [CPlt plt_show] /\
              ends_with (CPlt plt_show) l);
      [apply respects_any|apply body_shows_once|exact H]. }
  apply Hs.
Qed.

Lemma ends_with_last c l :
  ends_with c l -> exists l' ev, l = l' ++ [ev] /\ call_of ev = c.
Proof.
  intros [pre H]. destruct (@exists_last _ l) as (l' & ev & ->).
  - intros ->. destruct pre; discriminate.
  - exists l', ev. split; [reflexivity|].
    rewrite map_app in H. simpl in H. apply app_inj_tail in H. tauto.
Qed.

Lemma signature_suffix k k' (m : list landmark) :
  signature k = m ++ signature k' -> m = [] /\ k' = k.
Proof.
  intros H. apply (f_equal (@rev landmark)) in H.
  rewrite rev_app_distr in H.
  destruct k, k'; simpl in H; inversion H as [E];
    (split; [|reflexivity]);
    destruct m as [|x m]; try reflexivity;
    simpl in E; destruct (rev m); discriminate.
Qed.

(** No run of a helper holds a complete run of a helper as a proper
    part. *)
Lemma no_run_inside (i j : invocation) W (h : handler W) s g
    W' (h' : handler W') s' g' pre post :
  res (run h' (body j) s' g') = Ok tt ->
  log (run h (body i) s g) = pre ++ log (run h' (body j) s' g') ++ post ->
  pre = [] /\ post = [] /\ helper_of j = helper_of i.
Proof.
  intros Hj Hl.
  pose proof (returning_shows_last j h' s' g' Hj) as Hend.
  destruct (returning_signature j h' s' g' Hj) as [Hsig _].
  destruct (ends_with_last Hend) as (lj & ev & Elj & Hev).
  assert (Hret : returned ev = true).
  { destruct (guarded_outcome h' (body_guarded j) s' g')
      as [(r & _ & Hall)|(p0 & c & e & Hr & _)]; [|congruence].
    rewrite Elj, forallb_app in Hall. simpl in Hall.
    apply andb_prop in Hall. destruct Hall as [_ Hall].
    apply andb_prop in Hall. tauto. }
  assert (Hpost : post = []).
  { rewrite Elj in Hl.
    replace (pre ++ (lj ++ [ev]) ++ post)
      with ((pre ++ lj) ++ ev :: post) in Hl
      by (rewrite <- !app_assoc; reflexivity).
    apply (only_last_log h (body_shows_last i) s g _ _ _ Hl).
    rewrite Hev. reflexivity. }
  subst post. rewrite app_nil_r in Hl.
  assert (Hi : res (run h (body i) s g) = Ok tt).
  { destruct (guarded_outcome h (body_guarded i) s g)
      as [([] & Hr & _)|(p0 & c & e & _ & Hl0 & _)]; [exact Hr|].
    exfalso. rewrite Hl, Elj, app_assoc in Hl0.
    apply app_inj_tail in Hl0. destruct Hl0 as [_ E]. subst ev.
    discriminate. }
  destruct (returning_signature i h s g Hi)
    as (Hsi & ev0 & rest & E0 & Hmark).
  rewrite Hl in Hsi. unfold landmarks in Hsi, Hsig. rewrite pick_app in Hsi.
  rewrite Hsig in Hsi. symmetry in Hsi.
  destruct (signature_suffix _ _ _ Hsi) as [Hm Hk].
  split; [|split; [reflexivity|exact Hk]].
  destruct pre as [|x pre]; [reflexivity|]. exfalso.
  rewrite Hl in E0. inversion E0; subst x.
  unfold pick in Hm. simpl in Hm.
  destruct (landmark_of (call_of ev0)); [discriminate|congruence].
Qed.

(** C7.  The helpers are independent of one another.
    - A helper neither reads nor writes a module-level variable of
      [plot_utility]: it leaves them as they were, and its result, the
      calls it makes with their arguments and the library state it leaves
      are the same whatever their values.
    - What a helper passes to the libraries is determined by its own
      arguments: against a library whose answers do not depend on its
      state, two runs on equal arguments make the same calls from any
      state, and a helper that runs after another helper makes the calls
      it makes on its own.
    - No helper calls another: no run of a helper holds a complete run of
      a helper (this one or another, on any arguments, against any
      library) as a proper part. *)
Theorem helpers_independent (i : invocation) W (h : handler W) s g :
  let o := run h (body i) s g in
  (forall g',
      mod_state o = g /\
      res (run h (body i) s g') = res o /\
      log (run h (body i) s g') = log o /\
      lib_state (run h (body i) s g') = lib_state o) /\
  (stateless h ->
   (forall s' g',
       log (run h (body i) s' g') = log o /\
       res (run h (body i) s' g') = res o) /\
   (forall j,
       res (run h (body j) s g) = Ok tt ->
       log (run h (bind (body j) (fun _ => body i)) s g)
       = log (run h (body j) s g) ++ log o /\
       res (run h (bind (body j) (fun _ => body i)) s g) = res o)) /\
  (forall j W' (h' : handler W') s' g' pre post,
      res (run h' (body j) s' g') = Ok tt ->
      log o = pre ++ log (run h' (body j) s' g') ++ post ->
      pre = [] /\ post = [] /\ helper_of j = helper_of i).
Proof.
  cbv zeta. split; [|split].
  - intros g'. apply (guarded_globals h (body_guarded i) s g g').
  - intros Hs. split.
    + intros s' g'. apply (guarded_stateless (body_guarded i) Hs).
    + intros j Hj.
      destruct (run_bind h (body j) (fun _ => body i) s g Hj) as [Hl Hr].
      rewrite Hl, Hr.
      destruct (guarded_stateless (body_guarded i) Hs s
                  (lib_state (run h (body j) s g)) g
                  (mod_state (run h (body j) s g))) as [El Er].
      rewrite El, Er. auto.
  - intros j W' h' s' g' pre post. apply no_run_inside.
Qed.

Lemma stateless_reference exposes clf reg ds hold :
  stateless (ref_handler exposes clf reg ds hold).
Proof. intros c s s'. reflexivity. Qed.

Lemma helpers_independent_witness :
  let h := Samples.lib Samples.predict_only in
  let o := run h (body Samples.features3) tt [] in
  (log (run h (bind (body (Samples.regions3 3))
                  (fun _ => body Samples.features3)) tt [])
   = log (run h (body (Samples.regions3 3)) tt []) ++ log o /\
   res (run h (bind (body (Samples.regions3 3))
                  (fun _ => body Samples.features3)) tt [])
   = res o) /\
  ([] = @nil event /\ [] = @nil event /\
   helper_of Samples.features3 = helper_of Samples.features3).
Proof.
  pose proof (@helpers_independent Samples.features3 unit
                (Samples.lib Samples.predict_only) tt []) as H.
  cbv zeta in H. destruct H as (_ & Hs & Hn). split.
  - apply (proj2 (Hs (stateless_reference _ _ _ _ _))
             (Samples.regions3 3)).
    vm_compute. reflexivity.
  - apply (Hn Samples.features3 unit (Samples.lib Samples.predict_only)
             tt [] [] []).
    + vm_compute. reflexivity.
    + rewrite app_nil_r. reflexivity.
Defined.
